(** * SlopGate: the detection-and-scoring engine

    A shallow embedding of the scoring core of SlopGate
    ([src/scoring.ts], [src/checks/behavior.ts], [src/checks/content.ts],
    [src/checks/patterns.ts]) and proofs of the properties its
    specification states about it.

    The development then embeds what surrounds that core: the loading
    of the configuration ([src/config.ts]), the summary of a result,
    the requests of the client ([src/github.ts]), the response
    ([src/respond.ts]) and the entry point ([src/index.ts]); and it
    proves further properties of the code.  There the libraries and
    GitHub are parameters: [yaml.load], the parser of the schema,
    [JSON.parse], and whether GitHub rejects a request.

    Modelling conventions.
    - A JavaScript string is a [string]: one [ascii] per UTF-16 code unit,
      for strings whose code units are all below 256.
    - A JavaScript number is a rational ([Q]) where the code divides or
      compares against a fraction, and an integer ([Z]) or a natural ([nat])
      where it only counts.  Arithmetic is exact; the source works on IEEE
      doubles, which agree with it on the integers and on every comparison
      that is not within one rounding error of its threshold.
    - The free-text [reason] of a check result and the [summary] of a scoring
      result are presentation only (no decision reads them) and are not
      modelled.
    - The clock ([Date.now()]) is an explicit argument [now]; a timestamp is
      the time value [Date] parses it to, [None] for an invalid date. *)

From Stdlib Require Import Bool Arith PeanoNat NArith ZArith QArith Qround Qminmax.
From Stdlib Require Import Lia Lqa List Permutation Sorted.
From Stdlib Require Import Ascii String DecimalString.
Import ListNotations.

Local Open Scope string_scope.

(* ================================================================== *)
(** * JavaScript strings *)
(* ================================================================== *)

Module JsString.

Definition code (c : ascii) : N := N_of_ascii c.

(** [LineTerminator]: LF and CR (U+2028 and U+2029 lie outside the
    modelled range). *)
Definition isLineTerminator (c : ascii) : bool :=
  (code c =? 10)%N || (code c =? 13)%N.

(** [WhiteSpace] or [LineTerminator], what [\s] and [trim] strip:
    TAB, LF, VT, FF, CR, SP and NBSP below 256. *)
Definition isSpace (c : ascii) : bool :=
  ((9 <=? code c) && (code c <=? 13))%N
  || (code c =? 32)%N || (code c =? 160)%N.

Definition isDigit (c : ascii) : bool :=
  ((48 <=? code c) && (code c <=? 57))%N.

Definition isUpper (c : ascii) : bool :=
  ((65 <=? code c) && (code c <=? 90))%N.

Definition isLower (c : ascii) : bool :=
  ((97 <=? code c) && (code c <=? 122))%N.

Definition isAlpha (c : ascii) : bool := isUpper c || isLower c.

(** [\w] *)
Definition isWord (c : ascii) : bool :=
  isAlpha c || isDigit c || (code c =? 95)%N.

(** [String.prototype.toLowerCase] on one code unit: A-Z, and the
    Latin-1 capitals U+00C0..U+00DE other than the multiplication sign. *)
Definition lowerChar (c : ascii) : ascii :=
  if isUpper c
     || ((192 <=? code c) && (code c <=? 222) && negb (code c =? 215))%N
  then ascii_of_N (code c + 32)
  else c.

Fixpoint toLowerCase (s : string) : string :=
  match s with
  | EmptyString => EmptyString
  | String c t => String (lowerChar c) (toLowerCase t)
  end.

Fixpoint trimStart (s : string) : string :=
  match s with
  | EmptyString => EmptyString
  | String c t => if isSpace c then trimStart t else s
  end.

(** The string without its trailing white space. *)
Fixpoint trimEnd (s : string) : string :=
  match s with
  | EmptyString => EmptyString
  | String c t =>
      match trimEnd t with
      | EmptyString => if isSpace c then EmptyString else String c EmptyString
      | t' => String c t'
      end
  end.

Definition trim (s : string) : string := trimEnd (trimStart s).

(** [s.startsWith(p)] *)
Definition startsWith (s p : string) : bool := prefix p s.

(** [s.includes(p)] *)
Fixpoint includes (s p : string) : bool :=
  prefix p s ||
  match s with
  | EmptyString => false
  | String _ t => includes t p
  end.

(** [s.substring(1)] *)
Definition substring1 (s : string) : string :=
  match s with
  | EmptyString => EmptyString
  | String _ t => t
  end.

(** [s.split(sep)] for a one-character separator; never empty. *)
Fixpoint split (sep : ascii) (s : string) : list string :=
  match s with
  | EmptyString => [EmptyString]
  | String c t =>
      if Ascii.eqb c sep then EmptyString :: split sep t
      else match split sep t with
           | [] => [String c EmptyString]
           | w :: ws => String c w :: ws
           end
  end.

(** [l.join(sep)] *)
Fixpoint join (sep : string) (l : list string) : string :=
  match l with
  | [] => EmptyString
  | [x] => x
  | x :: t => x ++ sep ++ join sep t
  end.

(** The first [n] code units, and the rest. *)
Fixpoint take (n : nat) (s : string) : string :=
  match n, s with
  | S n', String c t => String c (take n' t)
  | _, _ => EmptyString
  end.

Fixpoint drop (n : nat) (s : string) : string :=
  match n, s with
  | S n', String _ t => drop n' t
  | _, _ => s
  end.

End JsString.

(* ================================================================== *)
(** * JavaScript sets of strings *)
(* ================================================================== *)

(** A [Set<string>], kept in insertion order without duplicates. *)
Module JsSet.

(** [s.has(x)] *)
Fixpoint has (s : list string) (x : string) : bool :=
  match s with
  | [] => false
  | y :: t => String.eqb y x || has t x
  end.

(** [s.add(x)] *)
Definition add (s : list string) (x : string) : list string :=
  if has s x then s else (s ++ [x])%list.

(** [new Set(l)] *)
Definition ofList (l : list string) : list string := fold_left add l [].

End JsSet.

(* ================================================================== *)
(** * Regular expressions *)
(* ================================================================== *)

(** A backtracking matcher with the priorities of the ECMAScript
    pattern semantics, for the constructs the source patterns use.  A
    repetition tries another turn before (greedy) or after (lazy) what
    follows it, and gives up a turn that consumed nothing. *)
Module RegExp.
Import JsString.

Inductive regex : Type :=
| Empty                              (* the empty pattern *)
| Char (p : ascii -> bool)           (* one code unit satisfying p *)
| Cat (r1 r2 : regex)                (* r1 r2 *)
| Or (r1 r2 : regex)                 (* r1 | r2 *)
| Rep (greedy : bool) (r : regex)    (* r* and r*? *)
| Cap (i : nat) (r : regex)          (* capture group number i *)
| Bos | Eos                          (* ^ and $ without the m flag *)
| Bol | Eol                          (* ^ and $ under the m flag *)
| Wb.                                (* \b *)

(** Where the matcher stands: the input before it (nearest character
    first), the input after it, and the captures made so far. *)
Record mstate : Type := mkState {
  before : string;
  after : string;
  caps : list (nat * string)
}.

Definition advance (c : ascii) (rest : string) (st : mstate) : mstate :=
  mkState (String c (before st)) rest (caps st).

Definition atLineStart (st : mstate) : bool :=
  match before st with
  | EmptyString => true
  | String c _ => isLineTerminator c
  end.

Definition atLineEnd (st : mstate) : bool :=
  match after st with
  | EmptyString => true
  | String c _ => isLineTerminator c
  end.

Definition isWordAt (s : string) : bool :=
  match s with
  | EmptyString => false
  | String c _ => isWord c
  end.

Definition guard (b : bool) (x : option mstate) : option mstate :=
  if b then x else None.

Fixpoint rmatch (r : regex) (st : mstate)
         (k : mstate -> option mstate) {struct r} : option mstate :=
  match r with
  | Empty => k st
  | Char p =>
      match after st with
      | String c rest => if p c then k (advance c rest st) else None
      | EmptyString => None
      end
  | Cat r1 r2 => rmatch r1 st (fun st1 => rmatch r2 st1 k)
  | Or r1 r2 =>
      match rmatch r1 st k with
      | Some e => Some e
      | None => rmatch r2 st k
      end
  | Rep greedy r1 =>
      (fix loop (fuel : nat) (st0 : mstate) {struct fuel} : option mstate :=
         match fuel with
         | O => k st0
         | S fuel' =>
             let again (_ : unit) :=
               rmatch r1 st0 (fun st1 =>
                 if (length (after st1) <? length (after st0))%nat
                 then loop fuel' st1 else None) in
             if greedy
             then match again tt with Some e => Some e | None => k st0 end
             else match k st0 with Some e => Some e | None => again tt end
         end) (length (after st)) st
  | Cap i r1 =>
      rmatch r1 st (fun st1 =>
        let n := (length (after st) - length (after st1))%nat in
        k (mkState (before st1) (after st1)
                   ((i, take n (after st)) :: caps st1)))
  | Bos => guard (match before st with EmptyString => true | _ => false end) (k st)
  | Eos => guard (match after st with EmptyString => true | _ => false end) (k st)
  | Bol => guard (atLineStart st) (k st)
  | Eol => guard (atLineEnd st) (k st)
  | Wb => guard (xorb (isWordAt (before st)) (isWordAt (after st))) (k st)
  end.

(** A match: where it starts (the state before it) and where it ends. *)
Definition matchAt (r : regex) (st : mstate) : option mstate :=
  rmatch r (mkState (before st) (after st) []) Some.

(** The leftmost match at or after the current position. *)
Fixpoint searchFrom (r : regex) (pre post : string) : option (mstate * mstate) :=
  match matchAt r (mkState pre post []) with
  | Some e => Some (mkState pre post [], e)
  | None =>
      match post with
      | EmptyString => None
      | String c rest => searchFrom r (String c pre) rest
      end
  end.

(** The text of a match. *)
Definition matched (b e : mstate) : string :=
  take (length (after b) - length (after e)) (after b).

(** Capture group [i] of a match; [None] when it did not take part. *)
Fixpoint capture (i : nat) (cs : list (nat * string)) : option string :=
  match cs with
  | [] => None
  | (j, s) :: t => if (i =? j)%nat then Some s else capture i t
  end.

(** [r.test(s)] for a pattern without the g flag. *)
Definition test (r : regex) (s : string) : bool :=
  match searchFrom r EmptyString s with Some _ => true | None => false end.

(** The successive matches of a pattern with the g flag, as [match] and
    [replace] find them, and as a loop over [exec] does for a pattern
    that matches no empty text: each search resumes where the last
    match ended, one code unit further after an empty match. *)
Fixpoint execAll (fuel : nat) (r : regex) (pre post : string)
  : list (mstate * mstate) :=
  match fuel with
  | O => []
  | S fuel' =>
      match searchFrom r pre post with
      | None => []
      | Some (b, e) =>
          (b, e) ::
          if (length (after e) <? length (after b))%nat
          then execAll fuel' r (before e) (after e)
          else match after e with
               | EmptyString => []
               | String c rest => execAll fuel' r (String c (before e)) rest
               end
      end
  end.

Definition matches (r : regex) (s : string) : list (mstate * mstate) :=
  execAll (S (length s)) r EmptyString s.

(** [s.match(r)] under the g flag: the matched texts ([null] is the
    empty list). *)
Definition matchAll (r : regex) (s : string) : list string :=
  map (fun be => matched (fst be) (snd be)) (matches r s).

(** [s.replace(r, repl)] under the g flag, [repl] without [$] patterns. *)
Fixpoint replaceWalk (ms : list (mstate * mstate)) (repl : string)
         (pos : nat) (s : string) : string :=
  match ms with
  | [] => drop pos s
  | (b, e) :: t =>
      let start := length (before b) in
      let stop := length (before e) in
      take (start - pos) (drop pos s) ++ repl ++ replaceWalk t repl stop s
  end.

Definition replaceAll (r : regex) (repl : string) (s : string) : string :=
  replaceWalk (matches r s) repl 0 s.

(** [s.replace(r, repl)] without the g flag: the first match only. *)
Definition replaceFirst (r : regex) (repl : string) (s : string) : string :=
  match searchFrom r EmptyString s with
  | None => s
  | Some (b, e) =>
      take (length (before b)) s ++ repl ++ drop (length (before e)) s
  end.

(** [acc] behind the characters of [s] in reverse order. *)
Fixpoint revOnto (s acc : string) : string :=
  match s with
  | EmptyString => acc
  | String c t => revOnto t (String c acc)
  end.

(** [s.split(r)]: the pieces of [s] between the matches of [r].  The
    scan stands at [post] with [piece] (nearest character first) read
    since the last separator; a match that is empty and leaves the piece
    empty is passed over. *)
Fixpoint splitWalk (fuel : nat) (r : regex) (pre post piece : string)
  : list string :=
  match fuel with
  | O => [revOnto piece post]
  | S fuel' =>
      match post with
      | EmptyString => [revOnto piece EmptyString]
      | String c rest =>
          match matchAt r (mkState pre post []) with
          | None => splitWalk fuel' r (String c pre) rest (String c piece)
          | Some e =>
              if ((length (after e) =? length post)%nat
                  && (length piece =? 0)%nat)%bool
              then splitWalk fuel' r (String c pre) rest (String c piece)
              else revOnto piece EmptyString
                   :: splitWalk fuel' r (before e) (after e) EmptyString
          end
      end
  end.

Definition split (r : regex) (s : string) : list string :=
  match s with
  | EmptyString =>
      match matchAt r (mkState EmptyString EmptyString []) with
      | Some _ => []
      | None => [EmptyString]
      end
  | _ => splitWalk (2 * length s + 2) r EmptyString s EmptyString
  end.

(** ** Pattern combinators *)

Definition chr (c : ascii) : regex := Char (Ascii.eqb c).

Definition foldAscii (c : ascii) : ascii :=
  if isUpper c then ascii_of_N (code c + 32) else c.

(** A character under the i flag: an ASCII letter matches both of its
    cases, and no character above U+007F folds onto an ASCII one. *)
Definition chrI (c : ascii) : regex :=
  Char (fun x => Ascii.eqb (foldAscii x) (foldAscii c)).

Fixpoint lit (s : string) : regex :=
  match s with
  | EmptyString => Empty
  | String c EmptyString => chr c
  | String c t => Cat (chr c) (lit t)
  end.

Fixpoint litI (s : string) : regex :=
  match s with
  | EmptyString => Empty
  | String c EmptyString => chrI c
  | String c t => Cat (chrI c) (litI t)
  end.

Fixpoint seq (rs : list regex) : regex :=
  match rs with
  | [] => Empty
  | [r] => r
  | r :: t => Cat r (seq t)
  end.

Fixpoint alts (rs : list regex) : regex :=
  match rs with
  | [] => Char (fun _ => false)
  | [r] => r
  | r :: t => Or r (alts t)
  end.

Definition star (r : regex) : regex := Rep true r.
Definition lazyStar (r : regex) : regex := Rep false r.
Definition plus (r : regex) : regex := Cat r (Rep true r).
Definition opt (r : regex) : regex := Or r Empty.

(** [.], [\s], [\d], [[...]] and [[^...]] *)
Definition dot : regex := Char (fun c => negb (isLineTerminator c)).
Definition anyChar : regex := Char (fun _ => true).
Definition space : regex := Char isSpace.
Definition digit : regex := Char isDigit.

Fixpoint memChar (c : ascii) (s : string) : bool :=
  match s with
  | EmptyString => false
  | String d t => Ascii.eqb c d || memChar c t
  end.

Definition oneOf (s : string) : regex := Char (fun c => memChar c s).
Definition noneOf (s : string) : regex := Char (fun c => negb (memChar c s)).

End RegExp.

(* ================================================================== *)
(** * Numbers *)
(* ================================================================== *)

Module JsNumber.

Local Open Scope Q_scope.

(** [x < y] and [x <= y] as the conditions the source branches on. *)
Definition ltb (x y : Q) : bool := negb (Qle_bool y x).
Definition leb (x y : Q) : bool := Qle_bool x y.

(** [Math.round]: the integer nearest to [x], halves going up. *)
Definition Math_round (x : Q) : Z := Qfloor (x + (1 # 2)).

(** A count as a number, and the quotient of two counts. *)
Definition ofNat (n : nat) : Q := inject_Z (Z.of_nat n).
Definition ratio (n m : nat) : Q := ofNat n / ofNat m.

End JsNumber.

(* ================================================================== *)
(** * Configuration ([src/config.ts]) *)
(* ================================================================== *)

Module Config.

Local Open Scope Q_scope.

Record Thresholds : Type := mkThresholds {
  warn : Q;
  flag : Q;
  block : Q
}.

Record Weights : Type := mkWeights {
  velocity : Q;
  abandonment : Q;
  shotgun : Q;
  new_account : Q;
  placeholder : Q;
  hallucinated_import : Q;
  docstring_inflation : Q;
  copy_paste : Q;
  generic_description : Q;
  oversized_diff : Q;
  unrelated_changes : Q;
  formatting_only : Q
}.

Record Allowlist : Type := mkAllowlist {
  users : list string;
  bots : list string
}.

Record SlopGateConfig : Type := mkConfig {
  thresholds : Thresholds;
  auto_close : bool;
  weights : Weights;
  allowlist : Allowlist
}.

(** [ConfigSchema.parse({})]: every field at its default. *)
Definition DEFAULT_CONFIG : SlopGateConfig :=
  {| thresholds := {| warn := 30; flag := 60; block := 80 |};
     auto_close := false;
     weights :=
       {| velocity := 80; abandonment := 60; shotgun := 90;
          new_account := 20; placeholder := 70; hallucinated_import := 90;
          docstring_inflation := 40; copy_paste := 60;
          generic_description := 50; oversized_diff := 60;
          unrelated_changes := 40; formatting_only := 30 |};
     allowlist :=
       {| users := [];
          bots := ["dependabot[bot]"; "renovate[bot]";
                   "github-actions[bot]"] |} |}.

(** What [WeightsSchema] and [ThresholdsSchema] accept: every number
    between 0 and 100. *)
Definition inRange (x : Q) : Prop := 0 <= x /\ x <= 100.

Definition validWeights (w : Weights) : Prop :=
  inRange (velocity w) /\ inRange (abandonment w) /\ inRange (shotgun w) /\
  inRange (new_account w) /\ inRange (placeholder w) /\
  inRange (hallucinated_import w) /\ inRange (docstring_inflation w) /\
  inRange (copy_paste w) /\ inRange (generic_description w) /\
  inRange (oversized_diff w) /\ inRange (unrelated_changes w) /\
  inRange (formatting_only w).

End Config.

(* ================================================================== *)
(** * The scoring aggregator ([src/scoring.ts]) *)
(* ================================================================== *)

Module Scoring.
Import Config JsNumber.

Local Open Scope Q_scope.

Record CheckResult : Type := mkCheck {
  name : string;
  score : Q
}.

(** The object literal [{ name, score, reason }] a check returns, its
    score one of the integer constants of the check. *)
Definition result (n : string) (s : Z) : CheckResult :=
  mkCheck n (inject_Z s).

Inductive Verdict : Type := pass | warn | flag | block.

Record WeightedCheck : Type := mkWeighted {
  check : CheckResult;
  weight : Q;
  weightedScore : Q
}.

Record ScoringResult : Type := mkResult {
  finalScore : Q;
  verdict : Verdict;
  checks : list CheckResult;
  weightedChecks : list WeightedCheck
}.

(** The keys of [Weights]. *)
Inductive WeightKey : Type :=
| k_velocity | k_abandonment | k_shotgun | k_new_account
| k_placeholder | k_hallucinated_import | k_docstring_inflation
| k_copy_paste | k_generic_description | k_oversized_diff
| k_unrelated_changes | k_formatting_only.

(** [config.weights[key]] *)
Definition weightAt (w : Weights) (key : WeightKey) : Q :=
  match key with
  | k_velocity => Config.velocity w
  | k_abandonment => Config.abandonment w
  | k_shotgun => Config.shotgun w
  | k_new_account => Config.new_account w
  | k_placeholder => Config.placeholder w
  | k_hallucinated_import => Config.hallucinated_import w
  | k_docstring_inflation => Config.docstring_inflation w
  | k_copy_paste => Config.copy_paste w
  | k_generic_description => Config.generic_description w
  | k_oversized_diff => Config.oversized_diff w
  | k_unrelated_changes => Config.unrelated_changes w
  | k_formatting_only => Config.formatting_only w
  end.

(** [CHECK_WEIGHT_MAP[name]]: the weight key of a check name, [None]
    for a name the table does not list.  (The table is an object
    literal; the names of [Object.prototype] members are no check names
    and stay outside the model.) *)
Definition CHECK_WEIGHT_MAP : list (string * WeightKey) :=
  [ ("velocity", k_velocity);
    ("abandonment", k_abandonment);
    ("shotgun", k_shotgun);
    ("new_account", k_new_account);
    ("placeholder", k_placeholder);
    ("hallucinated_import", k_hallucinated_import);
    ("docstring_inflation", k_docstring_inflation);
    ("copy_paste", k_copy_paste);
    ("generic_description", k_generic_description);
    ("oversized_diff", k_oversized_diff);
    ("unrelated_changes", k_unrelated_changes);
    ("formatting_only", k_formatting_only) ].

Fixpoint lookup {A} (table : list (string * A)) (key : string) : option A :=
  match table with
  | [] => None
  | (k, v) :: rest => if String.eqb k key then Some v else lookup rest key
  end.

(** [weightKey ? config.weights[weightKey] : 50] *)
Definition resolveWeight (config : SlopGateConfig) (checkName : string) : Q :=
  match lookup CHECK_WEIGHT_MAP checkName with
  | Some weightKey => weightAt (weights config) weightKey
  | None => 50
  end.

(** The three accumulators of the loop of [calculateScore]. *)
Record Totals : Type := mkTotals {
  accChecks : list WeightedCheck;
  totalWeight : Q;
  totalWeightedScore : Q
}.

(** One turn of the loop. *)
Definition accumulate (config : SlopGateConfig) (acc : Totals)
           (c : CheckResult) : Totals :=
  let weight := resolveWeight config (name c) in
  if Qeq_bool weight 0 then acc
  else
    let weightedScore := (score c * weight) / 100 in
    {| accChecks := accChecks acc ++ [mkWeighted c weight weightedScore];
       totalWeight := totalWeight acc + weight;
       totalWeightedScore := totalWeightedScore acc + weightedScore |}.

(** [getVerdict] *)
Definition getVerdict (score : Q) (config : SlopGateConfig) : Verdict :=
  if leb (Config.block (thresholds config)) score then block
  else if leb (Config.flag (thresholds config)) score then flag
  else if leb (Config.warn (thresholds config)) score then warn
  else pass.

(** [weightedChecks.sort((a, b) => b.weightedScore - a.weightedScore)]:
    the stable sort, highest weighted score first. *)
Fixpoint insertSorted (x : WeightedCheck) (l : list WeightedCheck)
  : list WeightedCheck :=
  match l with
  | [] => [x]
  | y :: rest =>
      if ltb (weightedScore x) (weightedScore y)
      then y :: insertSorted x rest
      else x :: l
  end.

Definition sortByWeightedScore (l : list WeightedCheck) : list WeightedCheck :=
  fold_right insertSorted [] l.

(** [calculateScore] *)
Definition calculateScore (checks : list CheckResult)
           (config : SlopGateConfig) : ScoringResult :=
  let totals := fold_left (accumulate config) checks (mkTotals [] 0 0) in
  let finalScore :=
    if ltb 0 (totalWeight totals)
    then inject_Z (Math_round
                     ((totalWeightedScore totals / totalWeight totals) * 100))
    else 0 in
  {| finalScore := finalScore;
     verdict := getVerdict finalScore config;
     checks := checks;
     weightedChecks := sortByWeightedScore (accChecks totals) |}.

End Scoring.

(* ================================================================== *)
(** * The inputs of the checks ([src/github.ts]) *)
(* ================================================================== *)

Module GitHub.

(** The account of the author; [created_at] as a time value in
    milliseconds. *)
Record User : Type := mkUser {
  login : string;
  created_at : option Z
}.

(** [PullRequestData], the fields the checks read.  The body arrives as
    [null] for a pull request without description. *)
Record PullRequestData : Type := mkPR {
  number : Z;
  title : string;
  body : option string;
  user : User;
  additions : Z;
  deletions : Z
}.

(** [ContributorPR], the fields the checks read. *)
Record ContributorPR : Type := mkContributorPR {
  cpr_number : Z;
  cpr_title : string;
  cpr_body : option string;
  cpr_created_at : option Z
}.

(** [PRFile]; [patch] is optional. *)
Record PRFile : Type := mkFile {
  filename : string;
  patch : option string
}.

(** [body || ''] *)
Definition orEmpty (s : option string) : string :=
  match s with Some t => t | None => EmptyString end.

(** [!file.patch]: a missing patch and an empty one are both skipped. *)
Definition patchText (f : PRFile) : option string :=
  match patch f with
  | Some EmptyString => None
  | p => p
  end.

End GitHub.

(* ================================================================== *)
(** * Behavioral checks ([src/checks/behavior.ts]) *)
(* ================================================================== *)

Module Behavior.
Import JsString JsNumber GitHub Scoring.

Local Open Scope nat_scope.

(** ** Similarity *)

(** [jaccardSimilarity] *)
Definition jaccardSimilarity (a b : string) : Q :=
  let wordsA := JsSet.ofList (RegExp.split (RegExp.plus RegExp.space) a) in
  let wordsB := JsSet.ofList (RegExp.split (RegExp.plus RegExp.space) b) in
  let intersection :=
    fold_left (fun n word => if JsSet.has wordsB word then S n else n)
              wordsA 0%nat in
  let union := (List.length wordsA + List.length wordsB - intersection)%nat in
  if (union =? 0)%nat then 0%Q else ratio intersection union.

(** [Math.min(x, y, z)] *)
Definition min3 (x y z : nat) : nat := Nat.min (Nat.min x y) z.

(** Row [i] of the matrix from column 1 on: [prev] is row [i-1] from the
    column to the left of the one being filled, [left] the entry just
    written in row [i]. *)
Fixpoint fillRow (ai : ascii) (b : string) (prev : list nat) (left : nat)
  : list nat :=
  match b, prev with
  | String bj b', diag :: ((up :: _) as prev') =>
      let cost := if Ascii.eqb ai bj then 0 else 1 in
      let entry := min3 (up + 1) (left + 1) (diag + cost) in
      entry :: fillRow ai b' prev' entry
  | _, _ => []
  end.

(** Rows [i], [i+1], ... of the matrix, [prev] being row [i-1]. *)
Fixpoint fillRows (a b : string) (i : nat) (prev : list nat)
  : list (list nat) :=
  match a with
  | EmptyString => []
  | String ai a' =>
      let row := i :: fillRow ai b prev i in
      row :: fillRows a' b (S i) row
  end.

(** The matrix the three loops build: [matrix[0][j] = j],
    [matrix[i][0] = i], the rest by the recurrence. *)
Definition matrix (a b : string) : list (list nat) :=
  let row0 := seq 0 (S (length b)) in
  row0 :: fillRows a b 1 row0.

Definition entry (m : list (list nat)) (i j : nat) : nat :=
  nth j (nth i m []) 0%nat.

(** [levenshteinSimilarity] *)
Definition levenshteinSimilarity (a b : string) : Q :=
  if String.eqb a b then 1%Q
  else if ((length a =? 0) || (length b =? 0))%nat then 0%Q
  else if ((500 <? length a) || (500 <? length b))%nat
       then jaccardSimilarity a b
  else
    let maxLen := Nat.max (length a) (length b) in
    (1 - ratio (entry (matrix a b) (length a) (length b)) maxLen)%Q.

(** ** The four checks *)

(** [new Date(pr.created_at) >= twentyFourHoursAgo]; an invalid date
    compares false. *)
Definition createdSince (since : Z) (pr : ContributorPR) : bool :=
  match cpr_created_at pr with
  | Some t => (since <=? t)%Z
  | None => false
  end.

(** [velocityCheck], at time [now]. *)
Definition velocityCheck (now : Z) (recentPRs : list ContributorPR)
  : CheckResult :=
  let twentyFourHoursAgo := (now - 24 * 60 * 60 * 1000)%Z in
  let recentCount := List.length (filter (createdSince twentyFourHoursAgo) recentPRs) in
  if (recentCount <=? 3)%nat then result "velocity" 0
  else if (recentCount <=? 5)%nat then result "velocity" 50
  else if (recentCount <=? 10)%nat then result "velocity" 80
  else result "velocity" 100.

Record AbandonmentStats : Type := mkStats {
  total : Z;
  abandoned : Z;
  rate : Q
}.

(** [abandonmentCheck] *)
Definition abandonmentCheck (stats : AbandonmentStats) : CheckResult :=
  if (total stats <? 3)%Z then result "abandonment" 0
  else if leb (rate stats) 30%Q then result "abandonment" 0
  else if leb (rate stats) 50%Q then result "abandonment" 25
  else if leb (rate stats) 70%Q then result "abandonment" 50
  else if leb (rate stats) 90%Q then result "abandonment" 80
  else result "abandonment" 100.

(** The two counters of the loop of [shotgunCheck]. *)
Definition countMatches (currentTitle currentBody : string)
           (acc : nat * nat) (pr : ContributorPR) : nat * nat :=
  let '(titleMatches, bodyMatches) := acc in
  let prTitle := trim (toLowerCase (cpr_title pr)) in
  let prBody := trim (toLowerCase (orEmpty (cpr_body pr))) in
  let titleMatches :=
    if String.eqb prTitle currentTitle
       || ltb (85 # 100) (levenshteinSimilarity prTitle currentTitle)
    then S titleMatches else titleMatches in
  let bodyMatches :=
    if ((20 <? length currentBody) && (20 <? length prBody))%nat
    then if ltb (80 # 100) (levenshteinSimilarity prBody currentBody)
         then S bodyMatches else bodyMatches
    else bodyMatches in
  (titleMatches, bodyMatches).

(** [shotgunCheck] *)
Definition shotgunCheck (currentPR : PullRequestData)
           (publicPRs : list ContributorPR) : CheckResult :=
  let currentTitle := trim (toLowerCase (title currentPR)) in
  let currentBody := trim (toLowerCase (orEmpty (body currentPR))) in
  let otherRepoPRs :=
    filter (fun pr => negb (cpr_number pr =? number currentPR)%Z) publicPRs in
  if (List.length otherRepoPRs =? 0)%nat then result "shotgun" 0
  else
    let '(titleMatches, bodyMatches) :=
      fold_left (countMatches currentTitle currentBody) otherRepoPRs (0, 0)%nat in
    let totalOtherPRs := List.length otherRepoPRs in
    let titleMatchRate := ratio titleMatches totalOtherPRs in
    if ((titleMatches =? 0) && (bodyMatches =? 0))%nat then result "shotgun" 0
    else if ((3 <=? titleMatches) || (2 <=? bodyMatches))%nat
         then result "shotgun" 90
    else if (2 <=? titleMatches)%nat || ltb (1 # 2) titleMatchRate
         then result "shotgun" 60
    else result "shotgun" 25.

(** [newAccountCheck], at time [now].  With an unparsable creation date
    the age is [NaN] and every comparison on it fails. *)
Definition newAccountCheck (now : Z) (pr : PullRequestData)
           (recentRepoPRs : list ContributorPR) : CheckResult :=
  let accountAgeDays :=
    option_map (fun created => ((now - created) / (1000 * 60 * 60 * 24))%Z)
               (created_at (user pr)) in
  let ageAtLeast (d : Z) :=
    match accountAgeDays with Some age => (d <=? age)%Z | None => false end in
  let priorPRs :=
    filter (fun rp => negb (cpr_number rp =? number pr)%Z) recentRepoPRs in
  let isFirstPR := (List.length priorPRs =? 0)%nat in
  if ageAtLeast 30%Z then result "new_account" 0
  else if negb isFirstPR then result "new_account" 10
  else if ageAtLeast 14%Z then result "new_account" 30
  else if ageAtLeast 7%Z then result "new_account" 50
  else result "new_account" 70.

End Behavior.

(* ================================================================== *)
(** * Content checks ([src/checks/content.ts]) *)
(* ================================================================== *)

Module Content.
Import JsString JsSet JsNumber GitHub Scoring RegExp.

Local Open Scope nat_scope.

(** The double quote, and the quote characters of the patterns. *)
Definition DQ : ascii := Eval cbv in ascii_of_nat 34.
Definition quotes2 : string := String DQ "'".
Definition quotes3 : string := String DQ "'`".
Definition LF : ascii := Eval cbv in ascii_of_nat 10.
Definition newline : string := String LF EmptyString.

Definition lines (s : string) : list string := JsString.split LF s.

(** The added lines of a patch: those that start with one plus sign and
    are not the file header. *)
Definition isAdded (line : string) : bool :=
  startsWith line "+" && negb (startsWith line "+++").

Definition addedLinesOf (patch : string) : list string :=
  filter isAdded (lines patch).

(** ** placeholderCheck *)

Module patterns.
Definition emptyFunction : regex :=
  alts [ seq [lit "{"; star space; lit "}"];
         seq [lit "{"; star space; lit "//"; star space; lit "}"];
         seq [lit "{"; star space; lit "/*"; star space; lit "*/";
              star space; lit "}"] ].
Definition todoWithoutContext : regex :=
  seq [lit "//"; star space; lit "TODO"; star space; Eol].
Definition passStatement : regex :=
  seq [Bol; lit "+"; star space; lit "pass"; star space; Eol].
Definition placeholderNames : regex :=
  seq [ Wb;
        Cap 1 (alts [ litI "foo"; litI "bar"; litI "baz";
                      seq [litI "temp"; star digit];
                      seq [litI "test"; plus digit];
                      litI "xxx"; litI "yyy"; litI "zzz";
                      litI "placeholder"; litI "dummy"; litI "sample";
                      seq [litI "example"; plus digit] ]);
        Wb ].
Definition emptyReturn : regex :=
  seq [ litI "return"; star space; opt (lit ";"); star space; lit "//";
        star space;
        Cap 1 (alts [litI "todo"; litI "fixme"; litI "implement"]) ].
Definition notImplemented : regex :=
  seq [ litI "throw"; plus space; litI "new"; plus space;
        Cap 1 (alts [litI "Error"; litI "NotImplementedError"]);
        star space; lit "("; star space; oneOf quotes3;
        Cap 2 (alts [ seq [litI "not"; plus space; litI "implemented"];
                      litI "todo"; litI "fixme" ]) ].
End patterns.

(** The issues one file adds to [totalIssueCount]: every match of the
    patterns, the placeholder names only from three matches on. *)
Definition fileIssues (addedContent : string) : nat :=
  let emptyFunctions := matchAll patterns.emptyFunction addedContent in
  let todos := matchAll patterns.todoWithoutContext addedContent in
  let passStmts := matchAll patterns.passStatement addedContent in
  let placeholders := matchAll patterns.placeholderNames addedContent in
  let notImpl := matchAll patterns.notImplemented addedContent in
  List.length emptyFunctions + List.length todos + List.length passStmts
  + (if 2 <? List.length placeholders then List.length placeholders else 0)
  + List.length notImpl.

(** The loop over the files: [(totalIssueCount, totalLinesChanged)]. *)
Definition scanFile (acc : nat * nat) (file : PRFile) : nat * nat :=
  match patchText file with
  | None => acc
  | Some patch =>
      let addedLines := addedLinesOf patch in
      let addedContent := join newline addedLines in
      (fst acc + fileIssues addedContent, snd acc + List.length addedLines)
  end.

Definition placeholderCheck (files : list PRFile) : CheckResult :=
  let '(totalIssueCount, totalLinesChanged) :=
    fold_left scanFile files (0, 0) in
  if totalLinesChanged =? 0 then result "placeholder" 0
  else
    let issueRate := ratio totalIssueCount (Nat.max totalLinesChanged 1) in
    if totalIssueCount =? 0 then result "placeholder" 0
    else if ltb issueRate (2 # 100) then result "placeholder" 15
    else if ltb issueRate (5 # 100) then result "placeholder" 40
    else if ltb issueRate (1 # 10) then result "placeholder" 70
    else result "placeholder" 95.

(** ** hallucinatedImportCheck *)

Definition moduleStart : regex := noneOf (quotes2 ++ "./").
Definition moduleRest : regex := star (noneOf quotes2).
Definition identStart : regex :=
  Char (fun c => isAlpha c || (code c =? 95)%N).
Definition identRest : regex := star (Char isWord).

Definition importPatterns : list regex :=
  [ (* import ... from 'module' *)
    seq [ Bol; lit "+"; star dot; Wb; lit "from"; plus space; oneOf quotes2;
          Cap 1 (seq [moduleStart; moduleRest]); oneOf quotes2 ];
    (* require('module') *)
    seq [ Bol; lit "+"; star dot; Wb; lit "require"; star space; lit "(";
          star space; oneOf quotes2;
          Cap 1 (seq [moduleStart; moduleRest]); oneOf quotes2;
          star space; lit ")" ];
    (* import 'module' *)
    seq [ Bol; lit "+"; star space; lit "import"; plus space; oneOf quotes2;
          Cap 1 (seq [moduleStart; moduleRest]); oneOf quotes2 ];
    (* import module / from module import ... *)
    seq [ Bol; lit "+"; star space; alts [lit "import"; lit "from"];
          plus space; Cap 1 (seq [identStart; identRest]);
          alts [space; Eol; lit "."] ] ].

Definition builtins : list string :=
  [ "fs"; "path"; "os"; "util"; "http"; "https"; "crypto"; "stream";
    "events"; "buffer"; "child_process"; "cluster"; "dgram"; "dns";
    "net"; "readline"; "tls"; "url"; "zlib"; "assert"; "querystring";
    "string_decoder"; "timers"; "tty"; "v8"; "vm"; "worker_threads";
    "perf_hooks"; "async_hooks"; "node:fs"; "node:path"; "node:os";
    "node:util"; "node:http"; "node:https"; "node:crypto"; "node:stream";
    "node:events"; "node:buffer"; "node:child_process"; "node:url";
    "node:test"; "node:assert";
    "os"; "sys"; "json"; "math"; "time"; "datetime"; "re"; "typing";
    "collections"; "itertools"; "functools"; "pathlib"; "io"; "abc";
    "logging"; "unittest"; "argparse"; "hashlib"; "base64"; "copy";
    "dataclasses"; "enum"; "contextlib"; "threading"; "subprocess";
    "tempfile"; "shutil"; "glob"; "random"; "string"; "textwrap" ].

(** The base package of a specifier: scope and name of a scoped one,
    the first path segment otherwise. *)
Definition baseModuleOf (moduleName : string) : string :=
  if startsWith moduleName "@"
  then join "/" (firstn 2 (JsString.split "/" moduleName))
  else hd EmptyString (JsString.split "/" moduleName).

Record SuspiciousImport : Type := mkSuspicious {
  si_file : string;
  si_module : string
}.

(** The two accumulators of the loops: [totalImports] and
    [suspiciousImports]. *)
Definition ImportStats : Type := (nat * list SuspiciousImport)%type.

(** One turn of the [while] loop, for one match of [regex.exec]. *)
Definition countImport (projectDeps : list string) (fname : string)
           (acc : ImportStats) (m : mstate * mstate) : ImportStats :=
  match capture 1 (caps (snd m)) with
  | None => acc
  | Some moduleName =>
      let baseModule := baseModuleOf moduleName in
      let totalImports := S (fst acc) in
      if negb (has builtins baseModule) && negb (has projectDeps baseModule)
      then (totalImports, (snd acc ++ [mkSuspicious fname baseModule])%list)
      else (totalImports, snd acc)
  end.

Definition scanImports (projectDeps : list string) (acc : ImportStats)
           (file : PRFile) : ImportStats :=
  match patchText file with
  | None => acc
  | Some patch =>
      fold_left
        (fun acc pattern =>
           fold_left (countImport projectDeps (filename file))
                     (matches pattern patch) acc)
        importPatterns acc
  end.

Definition importStats (files : list PRFile) (projectDeps : list string)
  : ImportStats :=
  fold_left (scanImports projectDeps) files (0, []).

Definition hallucinatedImportCheck (files : list PRFile)
           (projectDeps : list string) : CheckResult :=
  let '(totalImports, suspiciousImports) := importStats files projectDeps in
  if totalImports =? 0 then result "hallucinated_import" 0
  else
    let suspicious := List.length suspiciousImports in
    let suspiciousRate := ratio suspicious totalImports in
    if suspicious =? 0 then result "hallucinated_import" 0
    else if (suspicious =? 1) && ltb suspiciousRate (2 # 10)
         then result "hallucinated_import" 25
    else if ltb suspiciousRate (3 # 10) then result "hallucinated_import" 55
    else result "hallucinated_import" 90.

(** ** docstringInflationCheck *)

Definition singleLineComment : regex :=
  seq [ Bos; lit "+"; star space;
        Cap 1 (alts [lit "//"; lit "#"; lit "--"; lit ";"]); space ].
Definition tripleDQ : regex := seq [chr DQ; chr DQ; chr DQ].
Definition blockCommentStart : regex :=
  seq [ Bos; lit "+"; star space;
        Cap 1 (alts [lit "/*"; lit "*"; tripleDQ; lit "'''"; lit "<!--"]) ].
Definition blockCommentEnd : regex :=
  seq [ Cap 1 (alts [lit "*/"; tripleDQ; lit "'''"; lit "-->"]);
        star space; Eos ].
Definition docstringLine : regex :=
  seq [Bos; lit "+"; star space; lit "*"; space].
Definition emptyLine : regex := seq [Bos; lit "+"; star space; Eos].

Definition isCommentLine (line : string) : bool :=
  test singleLineComment line || test blockCommentStart line
  || test blockCommentEnd line || test docstringLine line.

(** The loop over the added lines of one file:
    [(totalCommentLines, totalCodeLines)]. *)
Definition classifyLine (acc : nat * nat) (line : string) : nat * nat :=
  if test emptyLine line then acc
  else if isCommentLine line then (S (fst acc), snd acc)
  else (fst acc, S (snd acc)).

Definition classifyFile (acc : nat * nat) (file : PRFile) : nat * nat :=
  match patchText file with
  | None => acc
  | Some patch => fold_left classifyLine (addedLinesOf patch) acc
  end.

Definition docstringInflationCheck (files : list PRFile) : CheckResult :=
  let '(totalCommentLines, totalCodeLines) :=
    fold_left classifyFile files (0, 0) in
  let totalLines := totalCommentLines + totalCodeLines in
  if totalLines <? 10 then result "docstring_inflation" 0
  else
    let commentRatio := ratio totalCommentLines totalLines in
    if leb commentRatio (3 # 10) then result "docstring_inflation" 0
    else if leb commentRatio (45 # 100) then result "docstring_inflation" 15
    else if leb commentRatio (6 # 10) then result "docstring_inflation" 45
    else if leb commentRatio (75 # 100) then result "docstring_inflation" 75
    else result "docstring_inflation" 95.

(** ** copyPasteCheck *)

(** [normalizeCode]: line comments, block comments and hash comments
    removed, white space collapsed, the ends trimmed. *)
Definition normalizeCode (code : string) : string :=
  let code := replaceAll (seq [lit "//"; star dot; Eol]) EmptyString code in
  let code :=
    replaceAll (seq [lit "/*"; lazyStar anyChar; lit "*/"]) EmptyString code in
  let code := replaceAll (seq [lit "#"; star dot; Eol]) EmptyString code in
  let code := replaceAll (plus space) " " code in
  trim code.

Record CodeBlock : Type := mkBlock {
  cb_file : string;
  block : string;
  lineCount : nat
}.

(** What the loop pushes when a block ends: the block, if it has four
    lines or more. *)
Definition flush (fname : string) (currentBlock : list string)
  : list CodeBlock :=
  if 4 <=? List.length currentBlock
  then [mkBlock fname (join newline currentBlock) (List.length currentBlock)]
  else [].

(** The blocks of one file, [currentBlock] being the added lines read
    since the last line that was not an added one. *)
Fixpoint collectBlocks (fname : string) (ls : list string)
         (currentBlock : list string) : list CodeBlock :=
  match ls with
  | [] => flush fname currentBlock
  | line :: rest =>
      if isAdded line then
        let cleanLine := trim (substring1 line) in
        if 0 <? length cleanLine
        then collectBlocks fname rest (currentBlock ++ [cleanLine])
        else collectBlocks fname rest currentBlock
      else (flush fname currentBlock ++ collectBlocks fname rest [])%list
  end.

Definition codeBlocksOf (files : list PRFile) : list CodeBlock :=
  flat_map
    (fun file =>
       match patchText file with
       | None => []
       | Some patch => collectBlocks (filename file) (lines patch) []
       end)
    files.

(** The three accumulators of the comparison: [duplicateCount],
    [duplicatedLines] and [duplicatePairs]. *)
Record Duplicates : Type := mkDuplicates {
  duplicateCount : nat;
  duplicatedLines : nat;
  duplicatePairs : list (string * string)
}.

(** The body of the inner loop, for blocks [a] and [b]. *)
Definition compareBlocks (a : CodeBlock) (acc : Duplicates) (b : CodeBlock)
  : Duplicates :=
  if ltb (ofNat (Nat.min (lineCount a) (lineCount b)))
         (ofNat (Nat.max (lineCount a) (lineCount b)) * (7 # 10))%Q
  then acc
  else
    let normalizedA := normalizeCode (block a) in
    let normalizedB := normalizeCode (block b) in
    if String.eqb normalizedA normalizedB && (50 <? length normalizedA)
    then {| duplicateCount := S (duplicateCount acc);
            duplicatedLines :=
              duplicatedLines acc + Nat.min (lineCount a) (lineCount b);
            duplicatePairs :=
              duplicatePairs acc ++ [(cb_file a, cb_file b)] |}
    else acc.

(** The two nested loops: every block against every later one. *)
Fixpoint comparePairs (codeBlocks : list CodeBlock) (acc : Duplicates)
  : Duplicates :=
  match codeBlocks with
  | [] => acc
  | a :: rest => comparePairs rest (fold_left (compareBlocks a) rest acc)
  end.

Definition findDuplicates (files : list PRFile) : Duplicates :=
  comparePairs (codeBlocksOf files) (mkDuplicates 0 0 []).

Definition copyPasteCheck (files : list PRFile) : CheckResult :=
  let duplicates := findDuplicates files in
  if duplicateCount duplicates =? 0 then result "copy_paste" 0
  else if (duplicateCount duplicates =? 1)
          && (duplicatedLines duplicates <? 15)
       then result "copy_paste" 20
  else if duplicateCount duplicates <=? 3 then result "copy_paste" 50
  else result "copy_paste" 85.

(** ** The dependency parsers *)

(** A function body either completes or throws. *)
Inductive completion (A : Type) : Type :=
| Normal (a : A)
| Throw.
Arguments Normal {A} a.
Arguments Throw {A}.

(** A statement that works on the set [deps]: what it completes with,
    and the set it leaves, which a [catch] still sees. *)
Definition Stmt (A : Type) : Type :=
  list string -> completion A * list string.

Definition ret {A} (a : A) : Stmt A := fun deps => (Normal a, deps).
Definition throw {A} : Stmt A := fun deps => (Throw, deps).
Definition bind {A B} (m : Stmt A) (f : A -> Stmt B) : Stmt B :=
  fun deps =>
    match m deps with
    | (Normal a, deps') => f a deps'
    | (Throw, deps') => (Throw, deps')
    end.
Definition depsAdd (d : string) : Stmt unit :=
  fun deps => (Normal tt, add deps d).

Notation "x <- m ;; k" := (bind m (fun x => k))
  (at level 61, m at next level, right associativity).
Notation "m ;;; k" := (bind m (fun _ => k))
  (at level 61, right associativity).

Fixpoint forEach {A} (l : list A) (f : A -> Stmt unit) : Stmt unit :=
  match l with
  | [] => ret tt
  | x :: t => f x ;;; forEach t f
  end.

(** [try { body } catch { }]: whatever the body does, the statement
    completes, with the set as the body left it. *)
Definition tryCatch (body : Stmt unit) : Stmt unit :=
  fun deps => (Normal tt, snd (body deps)).

(** The function returns [deps] after running [body] on the empty set. *)
Definition returnDeps (body : Stmt unit) : completion (list string) :=
  match body [] with
  | (Normal _, deps) => Normal deps
  | (Throw, _) => Throw
  end.

(** The values [JSON.parse] returns. *)
#[local] Unset Elimination Schemes.
Inductive json : Type :=
| JNull
| JBool (b : bool)
| JNumber (q : Q)
| JString (s : string)
| JArray (items : list json)
| JObject (fields : list (string * json)).
#[local] Set Elimination Schemes.

(** [pkg.key] for one of the three keys read: a [TypeError] on [null],
    the own property of an object, [undefined] otherwise. *)
Definition getProp (pkg : json) (key : string) : Stmt (option json) :=
  match pkg with
  | JNull => throw
  | JObject fields => ret (lookup fields key)
  | _ => ret None
  end.

(** The condition [if (v)]. *)
Definition truthy (v : option json) : bool :=
  match v with
  | None | Some JNull => false
  | Some (JBool b) => b
  | Some (JNumber q) => negb (Qeq_bool q 0)
  | Some (JString s) => negb (String.eqb s EmptyString)
  | Some (JArray _) | Some (JObject _) => true
  end.

Definition indexString (i : nat) : string :=
  DecimalString.NilEmpty.string_of_uint (Nat.to_uint i).

(** [Object.keys(v)]: the keys of an object, the indices of an array or
    of a string, nothing for a number or a boolean. *)
Definition Object_keys (v : json) : list string :=
  match v with
  | JObject fields => map fst fields
  | JArray items => map indexString (List.seq 0 (List.length items))
  | JString s => map indexString (List.seq 0 (length s))
  | _ => []
  end.

Definition addKeysOf (v : option json) : Stmt unit :=
  match v with
  | Some j => if truthy v then forEach (Object_keys j) depsAdd else ret tt
  | None => ret tt
  end.

Section PackageJson.

(** [JSON.parse]; [None] when it throws a [SyntaxError]. *)
Variable JSON_parse : string -> option json.

Definition parseJson (content : string) : Stmt json :=
  match JSON_parse content with
  | Some pkg => ret pkg
  | None => throw
  end.

Definition parseDepsFromPackageJson (content : string)
  : completion (list string) :=
  returnDeps
    (tryCatch
       (pkg <- parseJson content ;;
        d <- getProp pkg "dependencies" ;; addKeysOf d ;;;
        d <- getProp pkg "devDependencies" ;; addKeysOf d ;;;
        d <- getProp pkg "peerDependencies" ;; addKeysOf d)).

End PackageJson.

(** The characters a requirement name stops at. *)
Definition versionSeparator : regex :=
  Char (fun c => memChar c ">=<!~[" || isSpace c).

(** One turn of the loop of [parseDepsFromRequirements]; reading
    element 0 of an empty array would make [toLowerCase] throw. *)
Definition requirementLine (line : string) : Stmt unit :=
  let trimmed := trim line in
  if negb (String.eqb trimmed EmptyString)
     && negb (startsWith trimmed "#") && negb (startsWith trimmed "-")
  then
    match RegExp.split versionSeparator trimmed with
    | [] => throw
    | first :: _ =>
        let name := toLowerCase first in
        if negb (String.eqb name EmptyString) then depsAdd name else ret tt
    end
  else ret tt.

Definition parseDepsFromRequirements (content : string)
  : completion (list string) :=
  returnDeps (forEach (lines content) requirementLine).

Definition dependencySection : regex :=
  seq [ Bos; lit "["; opt (lit "dev-"); lit "dependencies";
        opt (seq [lit "."; plus (noneOf "]")]); lit "]" ].

Definition dependencyKey : regex :=
  seq [ Bos;
        Cap 1 (seq [ identStart;
                     star (Char (fun c => isWord c || (code c =? 45)%N)) ]);
        star space; lit "=" ].

(** One turn of the loop of [parseDepsFromCargoToml], on
    [(deps, inDepSection)]. *)
Definition cargoLine (acc : list string * bool) (line : string)
  : list string * bool :=
  let '(deps, inDepSection) := acc in
  let trimmed := trim line in
  if startsWith trimmed "[" then (deps, test dependencySection trimmed)
  else if inDepSection then
    match searchFrom dependencyKey EmptyString trimmed with
    | Some (_, e) =>
        match capture 1 (caps e) with
        | Some d => (add deps d, inDepSection)
        | None => acc
        end
    | None => acc
    end
  else acc.

Definition parseDepsFromCargoToml (content : string) : list string :=
  fst (fold_left cargoLine (lines content) ([], false)).

End Content.

(* ================================================================== *)
(** * Pattern checks ([src/checks/patterns.ts]) *)
(* ================================================================== *)

Module Patterns.
Import JsString JsSet JsNumber GitHub Scoring RegExp.

Local Open Scope nat_scope.

(** ** genericDescriptionCheck *)

Definition ws : regex := plus space.
Definition optS (s : string) : regex := opt (lit s).
Definition whole (rs : list regex) : regex := seq (Bos :: rs ++ [Eos])%list.

Definition genericTitles : list regex :=
  [ whole [ lit "fix"; opt (alts [lit "ed"; lit "es"; lit "ing"]); ws;
            opt (seq [lit "a"; ws]); lit "bug"; optS "s" ];
    whole [ lit "update"; opt (alts [lit "d"; lit "s"]); ws; lit "code" ];
    whole [ lit "improve"; opt (alts [lit "d"; lit "s"]); ws;
            opt (seq [lit "the"; ws]); lit "performance" ];
    whole [ opt (seq [lit "minor"; ws]); lit "fix"; optS "es" ];
    whole [ lit "update"; opt (alts [lit "d"; lit "s"]) ];
    whole [ lit "improve"; optS "ment"; optS "s" ];
    whole [ lit "refactor"; opt (alts [lit "ed"; lit "ing"]) ];
    whole [ lit "clean"; star space; lit "up" ];
    whole [ lit "enhance"; optS "ment"; optS "s" ];
    whole [ lit "optimization" ];
    whole [ lit "bug"; star space; lit "fix" ];
    whole [ lit "patch" ];
    whole [ lit "changes" ];
    whole [ lit "update"; optS "s";
            opt (seq [ ws; opt (seq [lit "to"; ws]);
                       opt (seq [lit "the"; ws]); lit "code" ]) ];
    whole [ lit "fix"; optS "ed"; ws; opt (seq [lit "some"; ws]);
            alts [ seq [lit "issue"; optS "s"];
                   seq [lit "problem"; optS "s"];
                   seq [lit "error"; optS "s"] ] ];
    whole [ lit "code"; ws;
            alts [ lit "improvement"; lit "cleanup";
                   seq [lit "refactor"; optS "ing"] ] ];
    whole [ lit "improve"; optS "d"; ws; lit "code"; ws; lit "quality" ];
    whole [ lit "general"; ws;
            alts [ seq [lit "improvement"; optS "s"]; lit "fixes";
                   seq [lit "update"; optS "s"] ] ];
    whole [ lit "misc"; optS "ellaneous"; ws;
            alts [ lit "fixes"; lit "changes";
                   seq [lit "update"; optS "s"] ] ];
    whole [ lit "small"; ws;
            alts [ seq [lit "fixe"; optS "s"]; seq [lit "change"; optS "s"];
                   seq [lit "update"; optS "s"] ] ];
    whole [ lit "various"; ws;
            alts [ seq [lit "fixe"; optS "s"];
                   seq [lit "improvement"; optS "s"];
                   seq [lit "update"; optS "s"] ] ] ].

Definition aiDescriptionPatterns : list regex :=
  [ seq [ lit "this ";
          alts [lit "pr"; lit "pull request"; lit "commit"]; lit " ";
          alts [ lit "fixes"; lit "improves"; lit "updates";
                 lit "enhances"; lit "refactors" ] ];
    seq [ alts [lit "improved"; lit "enhanced"; lit "optimized"]; lit " ";
          optS "the "; alts [lit "overall"; lit "code"]; lit " ";
          alts [lit "quality"; lit "performance"; lit "readability"] ];
    seq [ lit "made "; optS "the ";
          alts [lit "following"; lit "these"; lit "some"]; lit " ";
          alts [lit "changes"; lit "improvements"; lit "updates"] ];
    seq [ lit "this "; alts [lit "change"; lit "update"; lit "improvement"];
          lit " "; alts [lit "will"; lit "should"; lit "aims to"] ] ].

(** [patterns.some((pattern) => pattern.test(s))] *)
Definition some (patterns : list regex) (s : string) : bool :=
  existsb (fun pattern => test pattern s) patterns.

Definition genericDescriptionCheck (pr : PullRequestData) : CheckResult :=
  let title := trim (toLowerCase (title pr)) in
  let body := trim (toLowerCase (orEmpty (body pr))) in
  let isGenericTitle := some genericTitles title in
  let isTitleShort := length title <? 15 in
  let hasNoBody := length body <? 20 in
  let hasAIDescription := some aiDescriptionPatterns body in
  if isGenericTitle && hasNoBody then result "generic_description" 85
  else if isGenericTitle && hasAIDescription
       then result "generic_description" 70
  else if isGenericTitle then result "generic_description" 50
  else if isTitleShort && hasNoBody then result "generic_description" 35
  else if hasAIDescription && negb isGenericTitle
       then result "generic_description" 20
  else result "generic_description" 0.

(** ** oversizedDiffCheck *)

Definition oversizedDiffCheck (pr : PullRequestData) : CheckResult :=
  let totalChanges := (additions pr + deletions pr)%Z in
  let descriptionLength := length (trim (orEmpty (body pr))) in
  if (totalChanges <=? 100)%Z then result "oversized_diff" 0
  else
    let expectedMinDescription :=
      Qmin (inject_Z totalChanges * (1 # 10)) 200 in
    let isUnderdocumented := ltb (ofNat descriptionLength) expectedMinDescription in
    if (2000 <? totalChanges)%Z && (descriptionLength <? 50)
    then result "oversized_diff" 95
    else if (1000 <? totalChanges)%Z && (descriptionLength <? 50)
         then result "oversized_diff" 80
    else if (500 <? totalChanges)%Z && (descriptionLength <? 50)
         then result "oversized_diff" 65
    else if (500 <? totalChanges)%Z && isUnderdocumented
         then result "oversized_diff" 40
    else if (300 <? totalChanges)%Z && (descriptionLength <? 30)
         then result "oversized_diff" 30
    else result "oversized_diff" 0.

(** ** unrelatedChangesCheck *)

Definition topDirOf (file : PRFile) : string :=
  match JsString.split "/" (filename file) with
  | first :: _ :: _ => first
  | _ => "."
  end.

(** The second-level grouping, which only the log line reads. *)
Definition deepDirOf (file : PRFile) : string :=
  match JsString.split "/" (filename file) with
  | first :: second :: _ :: _ => first ++ "/" ++ second
  | first :: _ :: _ => first
  | _ => "."
  end.

Definition directoriesOf (files : list PRFile) : list string :=
  fold_left (fun dirs file => add dirs (topDirOf file)) files [].

Definition deepDirsOf (files : list PRFile) : list string :=
  fold_left (fun dirs file => add dirs (deepDirOf file)) files [].

Definition nameIncludes (markers : list string) (file : PRFile) : bool :=
  existsb (includes (filename file)) markers.

Definition unrelatedChangesCheck (files : list PRFile) : CheckResult :=
  if List.length files <=? 1 then result "unrelated_changes" 0
  else
    let dirCount := List.length (directoriesOf files) in
    let hasTests := existsb (nameIncludes ["test"; "spec"]) files in
    let hasConfig :=
      existsb (nameIncludes ["config"; "package.json"; ".yml"; ".yaml";
                             ".toml"]) files in
    let hasDocs := existsb (nameIncludes ["README"; "doc"; ".md"]) files in
    let likelyRelated := hasTests || hasConfig || hasDocs in
    if dirCount <=? 3 then result "unrelated_changes" 0
    else if (dirCount <=? 5) && likelyRelated
         then result "unrelated_changes" 10
    else if dirCount <=? 5 then result "unrelated_changes" 35
    else if dirCount <=? 8 then result "unrelated_changes" 60
    else result "unrelated_changes" 85.

(** ** formattingOnlyCheck *)

Definition DQ : ascii := Eval cbv in ascii_of_nat 34.
Definition LF : ascii := Eval cbv in ascii_of_nat 10.
Definition anyQuote : regex := oneOf (String DQ "'`").

(** The diff metadata the walk skips. *)
Definition isMetadata (line : string) : bool :=
  startsWith line "@@" || startsWith line "diff" || startsWith line "index"
  || startsWith line "---" || startsWith line "+++".

Definition stripTrailingPunctuation (s : string) : string :=
  replaceFirst (seq [oneOf ";,"; star space; Eos]) EmptyString (trim s).

(** A removed line and the added line after it differ in formatting
    only: in surrounding white space, in white space anywhere, in the
    kind of quotes, or in a trailing semicolon or comma. *)
Definition formattingOnlyPair (removed added : string) : bool :=
  String.eqb (trim removed) (trim added)
  || String.eqb (replaceAll space EmptyString removed)
                (replaceAll space EmptyString added)
  || String.eqb (replaceAll anyQuote (String DQ EmptyString) removed)
                (replaceAll anyQuote (String DQ EmptyString) added)
  || String.eqb (stripTrailingPunctuation removed)
                (stripTrailingPunctuation added).

(** A line changed on one side only, with nothing or a lone brace on it. *)
Definition formattingOnlyLine (line : string) : bool :=
  let content := trim (substring1 line) in
  String.eqb content EmptyString || String.eqb content "{"
  || String.eqb content "}".

(** What a line changed on one side only adds to the tallies. *)
Definition countSingle (line : string) (acc : nat * nat) : nat * nat :=
  if startsWith line "+" || startsWith line "-"
  then if formattingOnlyLine line
       then (S (fst acc), snd acc)
       else (fst acc, S (snd acc))
  else acc.

(** What a removed line followed by an added line adds to the tallies. *)
Definition countPair (line next : string) (acc : nat * nat) : nat * nat :=
  if formattingOnlyPair (substring1 line) (substring1 next)
  then (fst acc + 2, snd acc)
  else (fst acc, snd acc + 2).

(** The [while] loop over the lines of one patch, on
    [(formattingOnlyLines, substantiveLines)]. *)
Fixpoint walkLines (ls : list string) (acc : nat * nat) : nat * nat :=
  match ls with
  | [] => acc
  | line :: rest =>
      if isMetadata line then walkLines rest acc
      else
        match rest with
        | next :: rest' =>
            if startsWith line "-" && startsWith next "+"
            then walkLines rest' (countPair line next acc)
            else walkLines rest (countSingle line acc)
        | [] => walkLines rest (countSingle line acc)
        end
  end.

Definition walkFile (acc : nat * nat) (file : PRFile) : nat * nat :=
  match patchText file with
  | None => acc
  | Some patch => walkLines (JsString.split LF patch) acc
  end.

Definition substantiveClaim : regex :=
  alts [ lit "fix"; lit "feat"; lit "add"; lit "implement"; lit "resolve";
         lit "bug"; lit "issue"; lit "feature"; lit "enhance";
         lit "refactor"; lit "optimize" ].

Definition formattingOnlyCheck (pr : PullRequestData) (files : list PRFile)
  : CheckResult :=
  let '(formattingOnlyLines, substantiveLines) :=
    fold_left walkFile files (0, 0) in
  let totalChangedLines := formattingOnlyLines + substantiveLines in
  if totalChangedLines <? 5 then result "formatting_only" 0
  else
    let formattingRate := ratio formattingOnlyLines totalChangedLines in
    let titleLower := toLowerCase (title pr) in
    let claimsSubstantiveWork := test substantiveClaim titleLower in
    if ltb formattingRate (5 # 10) then result "formatting_only" 0
    else if ltb formattingRate (8 # 10) then
      if claimsSubstantiveWork then result "formatting_only" 30
      else result "formatting_only" 10
    else if ltb formattingRate (95 # 100) then
      if claimsSubstantiveWork then result "formatting_only" 65
      else result "formatting_only" 25
    else
      if claimsSubstantiveWork then result "formatting_only" 90
      else result "formatting_only" 35.

End Patterns.

(* ================================================================== *)
(** * What the specification says, in its own terms *)
(* ================================================================== *)

(** The aggregator, as a weight-normalised mean over the included checks. *)
Module ScoringSpec.
Import Config JsNumber Scoring.

Local Open Scope Q_scope.

(** A score, or a weight, between 0 and 100. *)
Definition bounded (c : CheckResult) : Prop :=
  0 <= score c /\ score c <= 100.

(** The checks the aggregator includes: those whose resolved weight is
    not 0. *)
Definition included (config : SlopGateConfig) (checks : list CheckResult)
  : list CheckResult :=
  filter (fun c => negb (Qeq_bool (resolveWeight config (name c)) 0)) checks.

Definition sum (l : list Q) : Q := fold_right Qplus 0 l.

Definition totalWeight (config : SlopGateConfig) (checks : list CheckResult)
  : Q :=
  sum (map (fun c => resolveWeight config (name c)) (included config checks)).

Definition totalWeightedScore (config : SlopGateConfig)
           (checks : list CheckResult) : Q :=
  sum (map (fun c => score c * resolveWeight config (name c) / 100)
           (included config checks)).

(** The two totals of the loop stay in step: the weighted scores add up
    to no more than the weights. *)
Definition balanced (t : Totals) : Prop :=
  0 <= Scoring.totalWeightedScore t
  /\ Scoring.totalWeightedScore t <= Scoring.totalWeight t.

(** Every entry the loop has pushed carries the resolved weight of its
    check, and that weight is not 0. *)
Definition enabledEntry (config : SlopGateConfig) (wc : WeightedCheck) : Prop :=
  weight wc = resolveWeight config (name (check wc)) /\ ~ weight wc == 0.

End ScoringSpec.

(** The edit distance, as the recurrence the matrix is filled by. *)
Module LevenshteinSpec.
Import Behavior.

Local Open Scope nat_scope.

(** The code unit at an index (a fixed one out of range, where no entry
    of the matrix reads it). *)
Definition charAt (s : string) (k : nat) : ascii :=
  match String.get k s with Some c => c | None => Ascii.zero end.

Definition cost (x y : ascii) : nat := if Ascii.eqb x y then 0 else 1.

Fixpoint distance (a b : string) (i : nat) : nat -> nat :=
  match i with
  | 0 => fun j => j
  | S i' =>
      fix row (j : nat) : nat :=
        match j with
        | 0 => S i'
        | S j' =>
            min3 (distance a b i' (S j') + 1) (row j' + 1)
                 (distance a b i' j' + cost (charAt a i') (charAt b j'))
        end
  end.

End LevenshteinSpec.

(** The counts of [shotgunCheck], as the specification words them. *)
Module ShotgunSpec.
Import JsString JsNumber GitHub Behavior.

Local Open Scope nat_scope.

Definition normalized (s : string) : string := trim (toLowerCase s).

(** The entries compared: those whose number is not the current one. *)
Definition comparable (currentPR : PullRequestData)
           (publicPRs : list ContributorPR) : list ContributorPR :=
  filter (fun pr => negb (cpr_number pr =? number currentPR)%Z) publicPRs.

(** A title match: equal after lowercasing and trimming, or more than
    0.85 similar. *)
Definition titleMatch (currentPR : PullRequestData) (pr : ContributorPR)
  : bool :=
  String.eqb (normalized (cpr_title pr)) (normalized (title currentPR))
  || ltb (85 # 100)
         (levenshteinSimilarity (normalized (cpr_title pr))
                                (normalized (title currentPR))).

(** A body match: both bodies longer than 20 characters and more than
    0.80 similar. *)
Definition bodyMatch (currentPR : PullRequestData) (pr : ContributorPR)
  : bool :=
  (20 <? length (normalized (orEmpty (body currentPR))))
  && (20 <? length (normalized (orEmpty (cpr_body pr))))
  && ltb (80 # 100)
         (levenshteinSimilarity (normalized (orEmpty (cpr_body pr)))
                                (normalized (orEmpty (body currentPR)))).

Definition titleMatches (currentPR : PullRequestData)
           (publicPRs : list ContributorPR) : nat :=
  List.length (filter (titleMatch currentPR) (comparable currentPR publicPRs)).

Definition bodyMatches (currentPR : PullRequestData)
           (publicPRs : list ContributorPR) : nat :=
  List.length (filter (bodyMatch currentPR) (comparable currentPR publicPRs)).

End ShotgunSpec.

(** The dependency parsers: completing, and texts without a section. *)
Module ParserSpec.
Import JsString RegExp Content.

(** A statement that completes whatever set it starts from. *)
Definition completes (m : Stmt unit) : Prop :=
  forall deps, exists deps', m deps = (Normal tt, deps').

(** No line of the text opens a dependency section. *)
Definition noDependencySection (content : string) : bool :=
  forallb (fun line => negb (test dependencySection (trim line)))
          (lines content).

End ParserSpec.

(* ================================================================== *)
(** * Concrete inputs *)
(* ================================================================== *)

Module Examples.
Import JsString Config GitHub Scoring Content.

Local Open Scope Q_scope.

(** The default configuration with the velocity check disabled. *)
Definition noVelocity : SlopGateConfig :=
  {| thresholds := thresholds DEFAULT_CONFIG;
     auto_close := false;
     weights :=
       {| velocity := 0; abandonment := 60; shotgun := 90;
          new_account := 20; placeholder := 70; hallucinated_import := 90;
          docstring_inflation := 40; copy_paste := 60;
          generic_description := 50; oversized_diff := 60;
          unrelated_changes := 40; formatting_only := 30 |};
     allowlist := allowlist DEFAULT_CONFIG |}.

Definition threeChecks : list CheckResult :=
  [ mkCheck "placeholder" 40; mkCheck "velocity" 100; mkCheck "shotgun" 90 ].

Definition author : User := mkUser "contributor" (Some 0%Z).

Definition typoPR : PullRequestData :=
  {| number := 10;
     title := "Fix typo in README";
     body := None;
     user := author;
     additions := 1;
     deletions := 1 |}.

Definition elsewhere (n : Z) (t : string) : ContributorPR :=
  {| cpr_number := n; cpr_title := t; cpr_body := None;
     cpr_created_at := Some 0%Z |}.

(** 1500 changed lines described in under 60 characters. *)
Definition largeBriefPR : PullRequestData :=
  {| number := 7;
     title := "Rework the session cache";
     body := Some "Moves the session cache behind an interface; see the notes.";
     user := author;
     additions := 1500;
     deletions := 0 |}.

(** Fifteen added lines, the same in two files. *)
Definition repeatedLines : list string :=
  [ "+const config = loadConfig();";
    "+const db = connectDatabase(config.dbUrl);";
    "+const cache = initCache(config.cacheUrl);";
    "+const queue = initQueue(config.queueUrl);";
    "+const mailer = initMailer(config.smtpUrl);";
    "+const metrics = initMetrics(config.statsUrl);";
    "+const auth = initAuth(config.authUrl, db);";
    "+const search = initSearch(config.searchUrl);";
    "+const storage = initStorage(config.bucket);";
    "+const limiter = initLimiter(cache);";
    "+const router = createRouter(auth, limiter);";
    "+const server = createServer(config, router);";
    "+registerJobs(queue, mailer, storage);";
    "+server.listen(config.port);";
    "+metrics.gauge(config.port);" ].

Definition repeatedPatch : string :=
  join newline ("@@ -1,5 +1,20 @@" :: repeatedLines).

Definition twoCopies : list PRFile :=
  [ mkFile "src/a.ts" (Some repeatedPatch);
    mkFile "src/b.ts" (Some repeatedPatch) ].

(** A [JSON.parse] that knows two texts. *)
Definition parseTwo (s : string) : option json :=
  if String.eqb s "null" then Some JNull
  else if String.eqb s "{}" then Some (JObject [])
  else None.

Definition lodashLine : string := "+import lodash from 'lodash'".

(** One added line, one import statement. *)
Definition singleImport : list PRFile :=
  [ mkFile "src/app.ts" (Some lodashLine) ].

(** Seven import statements; [lodash] alone is no built-in. *)
Definition mixedImports : list PRFile :=
  [ mkFile "tools/build.py"
      (Some (join newline
               [ "+import os"; "+import sys"; "+import json"; "+import re";
                 "+import math"; "+import time"; lodashLine ])) ].

(** A file with the given lines as its patch, and a pull request with the
    given title, body and size. *)
Definition patchFile (n : string) (ls : list string) : PRFile :=
  mkFile n (Some (join newline ls)).

Definition titled (t : string) (b : string) (a d : Z) : PullRequestData :=
  mkPR 1 t (Some b) author a d.

Definition patchOf (files : list PRFile) : string :=
  match files with
  | f :: _ => orEmpty (patch f)
  | [] => EmptyString
  end.

End Examples.

(* ================================================================== *)
(** * Display names and the summary ([src/scoring.ts]) *)
(* ================================================================== *)

Module Summary.
Import JsNumber Scoring.

(** The table of [formatCheckName] (an object literal, as
    [CHECK_WEIGHT_MAP] is: the names of [Object.prototype] members stay
    outside the model). *)
Definition nameMap : list (string * string) :=
  [ ("velocity", "PR Velocity");
    ("abandonment", "Abandonment Rate");
    ("shotgun", "Shotgun Pattern");
    ("new_account", "New Account");
    ("placeholder", "Placeholder Code");
    ("hallucinated_import", "Hallucinated Imports");
    ("docstring_inflation", "Docstring Inflation");
    ("copy_paste", "Internal Duplication");
    ("generic_description", "Generic Description");
    ("oversized_diff", "Oversized Diff");
    ("unrelated_changes", "Unrelated Changes");
    ("formatting_only", "Formatting Only") ].

(** [nameMap[name] || name] *)
Definition formatCheckName (name : string) : string :=
  match lookup nameMap name with
  | Some display => if String.eqb display EmptyString then name else display
  | None => name
  end.

(** What [generateSummary] returns: the fixed sentence, or the score and
    verdict line followed by one line for each of the top issues. *)
Inductive SummaryText : Type :=
| AllChecksPassed
| Findings (finalScore : Q) (verdict : Verdict) (topIssues : list WeightedCheck).

(** [weightedChecks.filter((c) => c.score > 0).slice(0, 5)] *)
Definition topIssuesOf (weightedChecks : list WeightedCheck)
  : list WeightedCheck :=
  firstn 5 (filter (fun c => ltb 0 (score (check c))) weightedChecks).

(** [generateSummary] *)
Definition generateSummary (finalScore : Q) (verdict : Verdict)
           (weightedChecks : list WeightedCheck) : SummaryText :=
  let topIssues := topIssuesOf weightedChecks in
  if (List.length topIssues =? 0)%nat then AllChecksPassed
  else Findings finalScore verdict topIssues.

(** The [summary] field of the result of [calculateScore]. *)
Definition summaryOf (r : ScoringResult) : SummaryText :=
  generateSummary (finalScore r) (verdict r) (weightedChecks r).

End Summary.

(* ================================================================== *)
(** * Loading the configuration ([src/config.ts]) *)
(* ================================================================== *)

Module ConfigFile.
Import JsString Config Content.

(** [list.includes(x)] *)
Definition includes (list : list string) (x : string) : bool :=
  existsb (String.eqb x) list.

(** [isAllowlisted] *)
Definition isAllowlisted (config : SlopGateConfig) (username : string)
           (isBot : bool) : bool :=
  if isBot && includes (bots (allowlist config)) username then true
  else if includes (users (allowlist config)) username then true
  else false.

Section Loading.

(** [yaml.load]: the value of the document, [None] for [undefined] (an
    empty document); it throws on text that is no YAML. *)
Variable yaml_load : string -> completion (option json).

(** [ConfigSchema.parse]: the validated configuration; it throws on a
    value the schema rejects. *)
Variable ConfigSchema_parse : json -> completion SlopGateConfig.

(** [parseConfig] *)
Definition parseConfig (yamlContent : string) : completion SlopGateConfig :=
  match yaml_load yamlContent with
  | Throw => Throw
  | Normal None => Normal DEFAULT_CONFIG
  | Normal (Some JNull) => Normal DEFAULT_CONFIG
  | Normal (Some raw) => ConfigSchema_parse raw
  end.

(** [loadConfig]; the content is [null] when the repository has no
    configuration file. *)
Definition loadConfig (yamlContent : option string) : SlopGateConfig :=
  match yamlContent with
  | None => DEFAULT_CONFIG
  | Some content =>
      if String.eqb content EmptyString
         || String.eqb (trim content) EmptyString
      then DEFAULT_CONFIG
      else match parseConfig content with
           | Normal config => config
           | Throw => DEFAULT_CONFIG
           end
  end.

End Loading.

End ConfigFile.

(** The schemas of [src/config.ts], read with the meaning the zod
    library gives its combinators: [z.number().min(0).max(100)] accepts
    the numbers from 0 to 100, [.default(d)] replaces a missing value by
    [d], [z.object] accepts an object and drops the keys it does not
    declare, and a rejected value makes [parse] throw. *)
Module Zod.
Import Config Scoring Content JsNumber.

Local Open Scope Q_scope.

(** [z.number().min(0).max(100).default(d)] *)
Definition percent (d : Q) (v : option json) : completion Q :=
  match v with
  | None => Normal d
  | Some (JNumber q) => if leb 0 q && leb q 100 then Normal q else Throw
  | Some _ => Throw
  end.

(** [z.boolean().default(d)] *)
Definition boolean (d : bool) (v : option json) : completion bool :=
  match v with
  | None => Normal d
  | Some (JBool b) => Normal b
  | Some _ => Throw
  end.

(** [z.array(z.string()).default(d)] *)
Fixpoint strings (items : list json) : completion (list string) :=
  match items with
  | [] => Normal []
  | JString s :: rest =>
      match strings rest with
      | Normal l => Normal (s :: l)
      | Throw => Throw
      end
  | _ :: _ => Throw
  end.

Definition stringArray (d : list string) (v : option json)
  : completion (list string) :=
  match v with
  | None => Normal d
  | Some (JArray items) => strings items
  | Some _ => Throw
  end.

Definition andThen {A B} (m : completion A) (f : A -> completion B)
  : completion B :=
  match m with
  | Normal a => f a
  | Throw => Throw
  end.

Notation "x <-- m ;; k" := (andThen m (fun x => k))
  (at level 61, m at next level, right associativity).

(** [schema.default({})] for an object schema: a missing value is
    validated as the empty object. *)
Definition objectOrEmpty {A} (schema : list (string * json) -> completion A)
           (v : option json) : completion A :=
  match v with
  | None => schema []
  | Some (JObject fields) => schema fields
  | Some _ => Throw
  end.

Definition ThresholdsSchema (fields : list (string * json))
  : completion Thresholds :=
  w <-- percent 30 (lookup fields "warn") ;;
  f <-- percent 60 (lookup fields "flag") ;;
  b <-- percent 80 (lookup fields "block") ;;
  Normal (mkThresholds w f b).

Definition WeightsSchema (fields : list (string * json))
  : completion Weights :=
  w1 <-- percent 80 (lookup fields "velocity") ;;
  w2 <-- percent 60 (lookup fields "abandonment") ;;
  w3 <-- percent 90 (lookup fields "shotgun") ;;
  w4 <-- percent 20 (lookup fields "new_account") ;;
  w5 <-- percent 70 (lookup fields "placeholder") ;;
  w6 <-- percent 90 (lookup fields "hallucinated_import") ;;
  w7 <-- percent 40 (lookup fields "docstring_inflation") ;;
  w8 <-- percent 60 (lookup fields "copy_paste") ;;
  w9 <-- percent 50 (lookup fields "generic_description") ;;
  w10 <-- percent 60 (lookup fields "oversized_diff") ;;
  w11 <-- percent 40 (lookup fields "unrelated_changes") ;;
  w12 <-- percent 30 (lookup fields "formatting_only") ;;
  Normal (mkWeights w1 w2 w3 w4 w5 w6 w7 w8 w9 w10 w11 w12).

Definition AllowlistSchema (fields : list (string * json))
  : completion Allowlist :=
  u <-- stringArray [] (lookup fields "users") ;;
  b <-- stringArray ["dependabot[bot]"; "renovate[bot]";
                     "github-actions[bot]"] (lookup fields "bots") ;;
  Normal (mkAllowlist u b).

Definition ConfigSchema (fields : list (string * json))
  : completion SlopGateConfig :=
  t <-- objectOrEmpty ThresholdsSchema (lookup fields "thresholds") ;;
  c <-- boolean false (lookup fields "auto_close") ;;
  w <-- objectOrEmpty WeightsSchema (lookup fields "weights") ;;
  a <-- objectOrEmpty AllowlistSchema (lookup fields "allowlist") ;;
  Normal (mkConfig t c w a).

(** [ConfigSchema.parse(raw)] *)
Definition ConfigSchema_parse (raw : json) : completion SlopGateConfig :=
  match raw with
  | JObject fields => ConfigSchema fields
  | _ => Throw
  end.

End Zod.

(* ================================================================== *)
(** * The GitHub client ([src/github.ts]) *)
(* ================================================================== *)

Module Client.
Import JsNumber Scoring Behavior Content.

(** The text of a comment, by the values its template takes: the final
    score, the rows of its table, and for a blocked pull request
    whether the note announces the closing. *)
Inductive Comment : Type :=
| WarningComment (finalScore : Q) (findings : list WeightedCheck)
| FlagComment (finalScore : Q) (findings : list WeightedCheck)
| BlockComment (finalScore : Q) (willClose : bool)
               (findings : list WeightedCheck).

(** The requests the client sends. *)
Inductive OctokitCall : Type :=
| issues_removeLabel (issue_number : Z) (name : string)
| issues_getLabel (name : string)
| issues_createLabel (name color description : string)
| issues_addLabels (issue_number : Z) (labels : list string)
| issues_createComment (issue_number : Z) (body : Comment)
| pulls_createReview (pull_number : Z) (event : string) (body : Comment)
| pulls_update (pull_number : Z) (state : string).

(** An asynchronous function of the client: from the requests sent so
    far, the requests sent in all and how it completes. *)
Definition Api (A : Type) : Type :=
  list OctokitCall -> list OctokitCall * completion A.

Definition pure {A} (a : A) : Api A := fun sent => (sent, Normal a).

Definition await {A B} (m : Api A) (f : A -> Api B) : Api B :=
  fun sent =>
    match m sent with
    | (sent', Normal a) => f a sent'
    | (sent', Throw) => (sent', Throw)
    end.

(** [try { body } catch { handler }] *)
Definition tryCatchApi {A} (body handler : Api A) : Api A :=
  fun sent =>
    match body sent with
    | (sent', Throw) => handler sent'
    | done => done
    end.

Section Requests.

(** Whether GitHub rejects a request, given the requests before it. *)
Variable rejects : list OctokitCall -> OctokitCall -> bool.

Definition request (c : OctokitCall) : Api unit :=
  fun sent =>
    ((sent ++ [c])%list, if rejects sent c then Throw else Normal tt).

(** [addLabel]: the label is created when looking it up fails. *)
Definition addLabel (prNumber : Z) (label color description : string)
  : Api unit :=
  await
    (tryCatchApi
       (request (issues_getLabel label))
       (tryCatchApi
          (request (issues_createLabel label color description))
          (pure tt)))
    (fun _ => request (issues_addLabels prNumber [label])).

(** [removeLabel] *)
Definition removeLabel (prNumber : Z) (label : string) : Api unit :=
  tryCatchApi (request (issues_removeLabel prNumber label)) (pure tt).

(** [createComment] *)
Definition createComment (prNumber : Z) (body : Comment) : Api unit :=
  request (issues_createComment prNumber body).

(** [requestChanges] *)
Definition requestChanges (prNumber : Z) (body : Comment) : Api unit :=
  request (pulls_createReview prNumber "REQUEST_CHANGES" body).

(** [closePullRequest] *)
Definition closePullRequest (prNumber : Z) : Api unit :=
  request (pulls_update prNumber "closed").

End Requests.

(** An item of a search response: its [pull_request.merged_at], when
    it has a [pull_request] and when that has the date. *)
Record SearchItem : Type := mkItem {
  pull_request : option (option string)
}.

(** [!pullRequest?.merged_at] *)
Definition closedUnmerged (item : SearchItem) : bool :=
  match pull_request item with
  | Some (Some merged_at) => String.eqb merged_at EmptyString
  | _ => true
  end.

(** A search response: [total_count] and the page of [items]. *)
Record SearchResponse : Type := mkResponse {
  total_count : Z;
  items : list SearchItem
}.

Definition noHistory : AbandonmentStats :=
  {| total := 0; abandoned := 0; rate := 0 |}.

(** [getContributorAbandonmentRate], from the response to its search
    (one page of at most 100 items), [None] when the search fails. *)
Definition getContributorAbandonmentRate (response : option SearchResponse)
  : AbandonmentStats :=
  match response with
  | None => noHistory
  | Some data =>
      if (total_count data =? 0)%Z then noHistory
      else
        let abandoned := List.length (filter closedUnmerged (items data)) in
        {| total := total_count data;
           abandoned := Z.of_nat abandoned;
           rate := (ofNat abandoned / inject_Z (total_count data) * 100)%Q |}
  end.

End Client.

(* ================================================================== *)
(** * The response ([src/respond.ts]) *)
(* ================================================================== *)

Module Respond.
Import JsNumber Config Scoring Content Client.

Record Label : Type := mkLabel {
  label_name : string;
  color : string;
  description : string
}.

(** [LABELS[verdict]] *)
Definition LABELS (verdict : Verdict) : Label :=
  match verdict with
  | pass => mkLabel "slopgate: clean" "0e8a16"
                    "SlopGate: PR passed all AI slop checks"
  | Scoring.warn => mkLabel "slopgate: review" "fbca04"
                    "SlopGate: PR has some signals worth reviewing"
  | Scoring.flag => mkLabel "slopgate: flagged" "e11d48"
                    "SlopGate: PR flagged as potential AI slop"
  | Scoring.block => mkLabel "slopgate: blocked" "b60205"
                     "SlopGate: PR blocked as likely AI slop"
  end.

(** [Object.values(LABELS).map((l) => l.name)] *)
Definition ALL_LABEL_NAMES : list string :=
  map (fun v => label_name (LABELS v))
      [pass; Scoring.warn; Scoring.flag; Scoring.block].

(** [weightedChecks.filter((c) => c.score > 0)] *)
Definition scored (weightedChecks : list WeightedCheck) : list WeightedCheck :=
  filter (fun c => ltb 0 (score (check c))) weightedChecks.

Section Responding.

Variable rejects : list OctokitCall -> OctokitCall -> bool.

(** [for (const x of l) await f(x)] *)
Fixpoint forEachApi {A} (l : list A) (f : A -> Api unit) : Api unit :=
  match l with
  | [] => pure tt
  | x :: rest => await (f x) (fun _ => forEachApi rest f)
  end.

(** [postWarningComment] *)
Definition postWarningComment (prNumber : Z) (result : ScoringResult)
  : Api unit :=
  createComment rejects prNumber
    (WarningComment (finalScore result)
                    (firstn 5 (scored (weightedChecks result)))).

(** [postFlagComment] *)
Definition postFlagComment (prNumber : Z) (result : ScoringResult)
  : Api unit :=
  requestChanges rejects prNumber
    (FlagComment (finalScore result) (scored (weightedChecks result))).

(** [postBlockComment] *)
Definition postBlockComment (prNumber : Z) (result : ScoringResult)
           (config : SlopGateConfig) : Api unit :=
  let willClose := auto_close config in
  await
    (createComment rejects prNumber
       (BlockComment (finalScore result) willClose
                     (scored (weightedChecks result))))
    (fun _ => if willClose then closePullRequest rejects prNumber
              else pure tt).

(** [respond] *)
Definition respond (prNumber : Z) (result : ScoringResult)
           (config : SlopGateConfig) : Api unit :=
  await
    (forEachApi ALL_LABEL_NAMES (removeLabel rejects prNumber))
    (fun _ =>
       let label := LABELS (verdict result) in
       await
         (addLabel rejects prNumber (label_name label) (color label)
                   (description label))
         (fun _ =>
            match verdict result with
            | pass => pure tt
            | Scoring.warn => postWarningComment prNumber result
            | Scoring.flag => postFlagComment prNumber result
            | Scoring.block => postBlockComment prNumber result config
            end)).

End Responding.

End Respond.

(* ================================================================== *)
(** * The entry point ([src/index.ts]) *)
(* ================================================================== *)

Module Main.
Import JsSet JsNumber Config GitHub Scoring Behavior Content Patterns.
Import Summary ConfigFile Client Respond.

(** A file read by [getFileContent] counts when it is there and not
    empty. *)
Definition present (file : option string) : option string :=
  match file with
  | Some EmptyString => None
  | f => f
  end.

(** [for (const dep of parsed) deps.add(dep)] *)
Definition addAll (deps : list string) (parsed : completion (list string))
  : completion (list string) :=
  match parsed with
  | Normal found => Normal (fold_left add found deps)
  | Throw => Throw
  end.

(** What the run works on once it is read from GitHub: the number in
    the event payload, the pull request, its files, the histories of
    its author, the four files of the base branch and the two clock
    readings of the time-relative checks. *)
Record Fetched : Type := mkFetched {
  payload_pull_request : option Z;
  configContent : option string;
  pr : PullRequestData;
  user_type : string;
  prFiles : list PRFile;
  recentRepoPRs : list ContributorPR;
  abandonmentStats : AbandonmentStats;
  publicPRs : list ContributorPR;
  packageJson : option string;
  requirements : option string;
  cargoToml : option string;
  clockVelocity : Z;
  clockAccount : Z
}.

(** The outputs the action sets. *)
Record Outputs : Type := mkOutputs {
  out_score : Q;
  out_verdict : Verdict;
  out_allowlisted : bool;
  out_summary : option SummaryText
}.

(** How the action ends: as it is, with a warning annotation, or by
    [setFailed]. *)
Inductive Status : Type := Succeeded | Warned | Failed.

(** A run: the outputs it has set, how it ends, and the requests of
    its response (the reads before it are what [Fetched] holds). *)
Record Run : Type := mkRun {
  outputs : option Outputs;
  status : Status;
  requests : list OctokitCall
}.

Section Running.

Variable yaml_load : string -> completion (option json).
Variable ConfigSchema_parse : json -> completion SlopGateConfig.
Variable JSON_parse : string -> option json.
Variable rejects : list OctokitCall -> OctokitCall -> bool.

(** [loadProjectDeps], from the three files of the base branch. *)
Definition loadProjectDeps (packageJson requirements cargoToml : option string)
  : completion (list string) :=
  let deps := Normal [] in
  let deps :=
    match present packageJson, deps with
    | Some content, Normal deps =>
        addAll deps (parseDepsFromPackageJson JSON_parse content)
    | _, deps => deps
    end in
  let deps :=
    match present requirements, deps with
    | Some content, Normal deps =>
        addAll deps (parseDepsFromRequirements content)
    | _, deps => deps
    end in
  match present cargoToml, deps with
  | Some content, Normal deps =>
      addAll deps (Normal (parseDepsFromCargoToml content))
  | _, deps => deps
  end.

(** The twelve checks, in the order [run] pushes them. *)
Definition runChecks (f : Fetched) (projectDeps : list string)
  : list CheckResult :=
  [ velocityCheck (clockVelocity f) (recentRepoPRs f);
    abandonmentCheck (abandonmentStats f);
    shotgunCheck (pr f) (publicPRs f);
    newAccountCheck (clockAccount f) (pr f) (recentRepoPRs f);
    placeholderCheck (prFiles f);
    hallucinatedImportCheck (prFiles f) projectDeps;
    docstringInflationCheck (prFiles f);
    copyPasteCheck (prFiles f);
    genericDescriptionCheck (pr f);
    oversizedDiffCheck (pr f);
    unrelatedChangesCheck (prFiles f);
    formattingOnlyCheck (pr f) (prFiles f) ].

(** [run], from the data read on: what it sets, how it ends and what it
    sends. *)
Definition run (f : Fetched) : Run :=
  match payload_pull_request f with
  | None => mkRun None Failed []
  | Some prNumber =>
      let config :=
        loadConfig yaml_load ConfigSchema_parse (configContent f) in
      let isBot := String.eqb (user_type f) "Bot" in
      if isAllowlisted config (login (user (pr f))) isBot
      then mkRun (Some (mkOutputs 0 pass true None)) Succeeded []
      else
        match loadProjectDeps (packageJson f) (requirements f)
                              (cargoToml f) with
        | Throw => mkRun None Failed []
        | Normal projectDeps =>
            let result := calculateScore (runChecks f projectDeps) config in
            let out :=
              Some (mkOutputs (finalScore result) (verdict result) false
                              (Some (summaryOf result))) in
            match respond rejects prNumber result config [] with
            | (sent, Throw) => mkRun out Failed sent
            | (sent, Normal _) =>
                match verdict result with
                | Scoring.block =>
                    if auto_close config then mkRun out Failed sent
                    else mkRun out Succeeded sent
                | Scoring.flag => mkRun out Warned sent
                | _ => mkRun out Succeeded sent
                end
            end
        end
  end.

End Running.

End Main.

(* ================================================================== *)
(** * Further notions the properties below are stated with *)
(* ================================================================== *)

Module AggregatorSpec.
Import JsNumber Config Scoring ScoringSpec.

Local Open Scope Q_scope.




(** The verdicts by severity. *)
Definition severity (v : Verdict) : nat :=
  match v with
  | pass => 0
  | Scoring.warn => 1
  | Scoring.flag => 2
  | Scoring.block => 3
  end.

End AggregatorSpec.

Module BehaviorSpec.

Local Open Scope nat_scope.

(** The score [velocityCheck] gives to a number of recent pull requests. *)
Definition velocityBand (recentCount : nat) : Z :=
  if recentCount <=? 3 then 0%Z
  else if recentCount <=? 5 then 50%Z
  else if recentCount <=? 10 then 80%Z
  else 100%Z.

End BehaviorSpec.

Module ContentSpec.
Import JsSet Scoring Content.

(** The names one dependency group of a parsed [package.json] declares:
    the keys of the value under [key], if there is one and it is truthy. *)
Definition group (fields : list (string * json)) (key : string)
  : list string :=
  match lookup fields key with
  | Some v => if truthy (Some v) then Object_keys v else []
  | None => []
  end.

(** The names of the three groups, in the order they are read. *)
Definition declared (fields : list (string * json)) : list string :=
  (group fields "dependencies" ++ group fields "devDependencies"
   ++ group fields "peerDependencies")%list.

(** The statistics for a larger set of dependencies: as many imports, no
    more of them suspicious. *)
Definition fewerSuspicious (acc acc' : ImportStats) : Prop :=
  fst acc' = fst acc /\ (List.length (snd acc') <= List.length (snd acc))%nat.

(** What the comparison of the blocks keeps true of its three
    accumulators. *)
Definition consistent (d : Duplicates) : Prop :=
  (4 * duplicateCount d <= duplicatedLines d)%nat
  /\ List.length (duplicatePairs d) = duplicateCount d.

(** What every name in the set satisfies. *)
Definition AllNames (P : string -> Prop) (deps : list string) : Prop :=
  forall d, In d deps -> P d.

End ContentSpec.

Module MoreExamples.
Import GitHub Content.

(** A [JSON.parse] that knows one manifest. *)
Definition manifest : list (string * json) :=
  [ ("name", JString "app");
    ("dependencies", JObject [("react", JString "^18.0.0")]);
    ("devDependencies", JObject [("jest", JString "^29.0.0");
                                 ("react", JString "^18.0.0")]) ].

Definition parseManifest (s : string) : option json :=
  if String.eqb s "manifest" then Some (JObject manifest) else None.

(** A binary file: GitHub sends no patch for it. *)
Definition logo : PRFile := mkFile "assets/logo.png" None.

(** A [yaml.load] that knows three documents. *)
Definition loadThree (s : string) : completion (option json) :=
  if String.eqb s "auto_close: true"
  then Normal (Some (JObject [("auto_close", JBool true)]))
  else if String.eqb s "weights: {velocity: 120}"
  then Normal (Some (JObject
                       [("weights", JObject [("velocity", JNumber 120)])]))
  else if String.eqb s "# nothing" then Normal None
  else Throw.

End MoreExamples.

Module PatternsSpec.
Import GitHub Patterns.

(** The lines of the patches of the files, all counted. *)
Definition patchLineCount (files : list PRFile) : nat :=
  list_sum
    (map (fun file =>
            match patchText file with
            | Some patch => List.length (JsString.split LF patch)
            | None => 0%nat
            end)
         files).

End PatternsSpec.

Module ConfigSpec.
Import Config Content.

Local Open Scope Q_scope.

(** A configuration the schema accepts: thresholds and weights between
    0 and 100. *)
Definition valid (c : SlopGateConfig) : Prop :=
  inRange (Config.warn (thresholds c)) /\ inRange (Config.flag (thresholds c))
  /\ inRange (Config.block (thresholds c)) /\ validWeights (weights c).

End ConfigSpec.

Module RespondSpec.
Import Client.

(** The requests that change the labels of the pull request. *)
Definition labelChange (c : OctokitCall) : bool :=
  match c with
  | issues_removeLabel _ _ | issues_addLabels _ _ => true
  | _ => false
  end.

(** The requests that change the state of the pull request. *)
Definition closes (c : OctokitCall) : bool :=
  match c with
  | pulls_update _ _ => true
  | _ => false
  end.

End RespondSpec.

Module MainSpec.
Import Content Main.

Definition found (parsed : completion (list string)) : list string :=
  match parsed with
  | Normal names => names
  | Throw => []
  end.

(** The names the three parsers find in the files that are there, in
    the order [loadProjectDeps] reads them. *)
Definition declaredBy (JSON_parse : string -> option json)
           (packageJson requirements cargoToml : option string)
  : list string :=
  (match present packageJson with
   | Some content => found (parseDepsFromPackageJson JSON_parse content)
   | None => []
   end
   ++ match present requirements with
      | Some content => found (parseDepsFromRequirements content)
      | None => []
      end
   ++ match present cargoToml with
      | Some content => parseDepsFromCargoToml content
      | None => []
      end)%list.

End MainSpec.

Module RunExamples.
Import Config GitHub Scoring Behavior Content Client Main MoreExamples.

(** GitHub accepts every request. *)
Definition accepting (sent : list OctokitCall) (c : OctokitCall) : bool :=
  false.

(** A search response that reports 400 closed pull requests and carries
    two of them, neither merged. *)
Definition longHistory : SearchResponse :=
  mkResponse 400 [mkItem None; mkItem (Some None)].

(** A first pull request with a generic title from an account of one
    day, in a repository without configuration or manifest. *)
Definition fetched : Fetched :=
  {| payload_pull_request := Some 7%Z;
     configContent := None;
     pr := mkPR 7 "Update code" None (mkUser "newcomer" (Some 0%Z)) 1 1;
     user_type := "User";
     prFiles := [];
     recentRepoPRs := [];
     abandonmentStats := noHistory;
     publicPRs := [];
     packageJson := None;
     requirements := Some "Flask>=2.0";
     cargoToml := None;
     clockVelocity := 86400000;
     clockAccount := 86400000 |}.

End RunExamples.

(* ================================================================== *)
(** * Comparisons and rounding *)
(* ================================================================== *)

Section Numbers.
Import JsNumber Scoring.

Local Open Scope Q_scope.

Lemma ltb_true x y : ltb x y = true <-> x < y.
Proof.
  unfold ltb. rewrite negb_true_iff. split; intros H.
  - apply Qnot_le_lt. intros Hle. apply Qle_bool_iff in Hle. congruence.
  - destruct (Qle_bool y x) eqn:E; [|reflexivity].
    apply Qle_bool_iff in E. exfalso. apply (Qlt_not_le _ _ H E).
Qed.

Lemma ltb_false x y : ltb x y = false <-> y <= x.
Proof.
  unfold ltb. rewrite negb_false_iff. apply Qle_bool_iff.
Qed.

Lemma leb_true x y : leb x y = true <-> x <= y.
Proof. apply Qle_bool_iff. Qed.

Lemma leb_false x y : leb x y = false <-> y < x.
Proof.
  unfold leb. split; intros H.
  - apply Qnot_le_lt. intros Hle. apply Qle_bool_iff in Hle. congruence.
  - destruct (Qle_bool x y) eqn:E; [|reflexivity].
    apply Qle_bool_iff in E. exfalso. apply (Qlt_not_le _ _ H E).
Qed.



Lemma Math_round_range x : 0 <= x -> x <= 100 -> (0 <= Math_round x <= 100)%Z.
Proof.
  intros H0 H1. unfold Math_round. split.
  - change 0%Z with (Qfloor 0). apply Qfloor_resp_le. lra.
  - change 100%Z with (Qfloor (100 + (1 # 2))). apply Qfloor_resp_le. lra.
Qed.

Lemma result_score n s : score (result n s) = inject_Z s.
Proof. reflexivity. Qed.

Lemma inject_Z_inj x y : inject_Z x = inject_Z y -> x = y.
Proof. intros H. injection H. auto. Qed.

End Numbers.

(* ================================================================== *)
(** * The aggregator *)
(* ================================================================== *)

Section Aggregator.
Import JsNumber Config Scoring ScoringSpec.

Local Open Scope Q_scope.

Lemma resolveWeight_range config n :
  validWeights (weights config) -> inRange (resolveWeight config n).
Proof.
  intros H. unfold resolveWeight.
  destruct (lookup CHECK_WEIGHT_MAP n) as [k|].
  - unfold validWeights in H. destruct k; simpl; tauto.
  - split; discriminate.
Qed.

Lemma weighted_share s w :
  0 <= s -> s <= 100 -> 0 <= w -> 0 <= s * w / 100 /\ s * w / 100 <= w.
Proof.
  intros Hs0 Hs1 Hw.
  assert (E : s * w / 100 == s * w * (1 # 100)) by (unfold Qdiv; reflexivity).
  rewrite E. split; nra.
Qed.

Lemma accumulate_balanced config acc c :
  validWeights (weights config) -> bounded c ->
  balanced acc -> balanced (accumulate config acc c).
Proof.
  intros Hw [Hs0 Hs1] [Hb0 Hb1]. unfold accumulate.
  destruct (Qeq_bool (resolveWeight config (name c)) 0); [split; assumption|].
  destruct (resolveWeight_range config (name c) Hw) as [Hw0 _].
  destruct (weighted_share _ _ Hs0 Hs1 Hw0) as [H0 H1].
  unfold balanced; simpl. split; lra.
Qed.

Lemma fold_balanced config checks : forall acc,
  validWeights (weights config) -> Forall bounded checks ->
  balanced acc -> balanced (fold_left (accumulate config) checks acc).
Proof.
  induction checks as [|c checks IH]; intros acc Hw Hall Hb; simpl.
  - assumption.
  - inversion Hall; subst. apply IH; try assumption.
    apply accumulate_balanced; assumption.
Qed.

Lemma finalScore_range checks config :
  validWeights (weights config) -> Forall bounded checks ->
  0 <= finalScore (calculateScore checks config) /\
  finalScore (calculateScore checks config) <= 100.
Proof.
  intros Hw Hall. unfold calculateScore; simpl.
  set (t := fold_left (accumulate config) checks (mkTotals [] 0 0)).
  assert (Hb : balanced t).
  { apply fold_balanced; try assumption. split; simpl; lra. }
  destruct Hb as [Hb0 Hb1].
  destruct (ltb 0 (Scoring.totalWeight t)) eqn:E.
  - apply ltb_true in E.
    assert (Hq0 : 0 <= Scoring.totalWeightedScore t / Scoring.totalWeight t).
    { apply Qle_shift_div_l; [assumption | lra]. }
    assert (Hq1 : Scoring.totalWeightedScore t / Scoring.totalWeight t <= 1).
    { apply Qle_shift_div_r; [assumption | lra]. }
    destruct (Math_round_range
                (Scoring.totalWeightedScore t / Scoring.totalWeight t * 100))
      as [Hr0 Hr1]; try lra.
    split.
    + change 0 with (inject_Z 0). rewrite <- Zle_Qle. assumption.
    + change 100 with (inject_Z 100). rewrite <- Zle_Qle. assumption.
  - split; lra.
Qed.





(** C3: the verdict is the highest band whose threshold the score
    reaches, and a score equal to a threshold belongs to the band of that
    threshold. *)
Theorem getVerdict_bands :
  forall (score : Q) (config : SlopGateConfig),
    Config.warn (thresholds config) <= Config.flag (thresholds config) ->
    Config.flag (thresholds config) <= Config.block (thresholds config) ->
    (Config.block (thresholds config) <= score ->
     getVerdict score config = Scoring.block)
    /\ (score < Config.block (thresholds config) ->
        Config.flag (thresholds config) <= score ->
        getVerdict score config = Scoring.flag)
    /\ (score < Config.flag (thresholds config) ->
        Config.warn (thresholds config) <= score ->
        getVerdict score config = Scoring.warn)
    /\ (score < Config.warn (thresholds config) ->
        getVerdict score config = Scoring.pass)
    /\ (score == Config.block (thresholds config) ->
        getVerdict score config = Scoring.block)
    /\ (score == Config.flag (thresholds config) ->
        Config.flag (thresholds config) < Config.block (thresholds config) ->
        getVerdict score config = Scoring.flag)
    /\ (score == Config.warn (thresholds config) ->
        Config.warn (thresholds config) < Config.flag (thresholds config) ->
        getVerdict score config = Scoring.warn).
Proof.
  intros score config Hwf Hfb.
  assert (Hblock : Config.block (thresholds config) <= score ->
                   getVerdict score config = Scoring.block).
  { intros H. unfold getVerdict. apply leb_true in H. rewrite H. reflexivity. }
  assert (Hflag : score < Config.block (thresholds config) ->
                  Config.flag (thresholds config) <= score ->
                  getVerdict score config = Scoring.flag).
  { intros H1 H2. unfold getVerdict. apply leb_false in H1.
    apply leb_true in H2. rewrite H1, H2. reflexivity. }
  assert (Hwarn : score < Config.flag (thresholds config) ->
                  Config.warn (thresholds config) <= score ->
                  getVerdict score config = Scoring.warn).
  { intros H1 H2. unfold getVerdict.
    assert (H0 : score < Config.block (thresholds config)) by lra.
    apply leb_false in H0, H1. apply leb_true in H2.
    rewrite H0, H1, H2. reflexivity. }
  repeat split; try assumption.
  - intros H. unfold getVerdict.
    assert (H1 : score < Config.flag (thresholds config)) by lra.
    assert (H0 : score < Config.block (thresholds config)) by lra.
    apply leb_false in H0, H1, H. rewrite H0, H1, H. reflexivity.
  - intros H. apply Hblock. rewrite H. apply Qle_refl.
  - intros H Hlt. apply Hflag; rewrite H; [assumption | apply Qle_refl].
  - intros H Hlt. apply Hwarn; rewrite H; [assumption | apply Qle_refl].
Qed.

Lemma getVerdict_bands_witness :
  getVerdict 60 DEFAULT_CONFIG = Scoring.flag
  /\ getVerdict 59 DEFAULT_CONFIG = Scoring.warn
  /\ getVerdict 80 DEFAULT_CONFIG = Scoring.block
  /\ getVerdict 29 DEFAULT_CONFIG = Scoring.pass.
Proof.
  assert (Hwf : Config.warn (thresholds DEFAULT_CONFIG)
                <= Config.flag (thresholds DEFAULT_CONFIG)) by discriminate.
  assert (Hfb : Config.flag (thresholds DEFAULT_CONFIG)
                <= Config.block (thresholds DEFAULT_CONFIG)) by discriminate.
  split; [| split; [| split]].
  - destruct (getVerdict_bands 60 DEFAULT_CONFIG Hwf Hfb)
      as (_ & _ & _ & _ & _ & H & _).
    apply H; reflexivity.
  - destruct (getVerdict_bands 59 DEFAULT_CONFIG Hwf Hfb)
      as (_ & _ & H & _).
    apply H; [reflexivity | discriminate].
  - destruct (getVerdict_bands 80 DEFAULT_CONFIG Hwf Hfb) as (H & _).
    apply H. discriminate.
  - destruct (getVerdict_bands 29 DEFAULT_CONFIG Hwf Hfb)
      as (_ & _ & _ & H & _).
    apply H. reflexivity.
Defined.

Lemma accumulate_disabled config acc c :
  resolveWeight config (name c) == 0 -> accumulate config acc c = acc.
Proof.
  intros H. unfold accumulate.
  apply Qeq_bool_iff in H. rewrite H. reflexivity.
Qed.

Lemma fold_skips_disabled config before c after acc :
  resolveWeight config (name c) == 0 ->
  fold_left (accumulate config) (before ++ c :: after) acc
  = fold_left (accumulate config) (before ++ after) acc.
Proof.
  intros H. rewrite !fold_left_app. simpl.
  rewrite accumulate_disabled by assumption. reflexivity.
Qed.

Lemma accumulate_enabled config acc c :
  Forall (enabledEntry config) (accChecks acc) ->
  Forall (enabledEntry config) (accChecks (accumulate config acc c)).
Proof.
  intros H. unfold accumulate.
  destruct (Qeq_bool (resolveWeight config (name c)) 0) eqn:E; [assumption|].
  simpl. apply Forall_app. split; [assumption|].
  constructor; [|constructor]. split; simpl; [reflexivity|].
  intros Hz. apply Qeq_bool_iff in Hz. congruence.
Qed.

Lemma fold_enabled config checks : forall acc,
  Forall (enabledEntry config) (accChecks acc) ->
  Forall (enabledEntry config)
         (accChecks (fold_left (accumulate config) checks acc)).
Proof.
  induction checks as [|c checks IH]; intros acc H; simpl.
  - assumption.
  - apply IH. apply accumulate_enabled. assumption.
Qed.

Lemma insertSorted_In x y l : In y (insertSorted x l) -> y = x \/ In y l.
Proof.
  induction l as [|z l IH]; simpl.
  - intros [H|[]]. left; congruence.
  - destruct (ltb (weightedScore x) (weightedScore z)); simpl.
    + intros [H|H]; [right; left; assumption|].
      destruct (IH H) as [H'|H']; [left|right; right]; assumption.
    + intros [H|H]; [left; congruence | right; assumption].
Qed.

Lemma sortByWeightedScore_In y l : In y (sortByWeightedScore l) -> In y l.
Proof.
  unfold sortByWeightedScore. induction l as [|x l IH]; simpl.
  - intros [].
  - intros H. destruct (insertSorted_In _ _ _ H) as [E|H'].
    + left; congruence.
    + right. apply IH. assumption.
Qed.

(** C4: a check whose resolved weight is 0 is no entry of
    [weightedChecks], and the final score is what it is without it. *)
Theorem disabled_check_excluded :
  forall (before after : list CheckResult) (c : CheckResult)
         (config : SlopGateConfig),
    resolveWeight config (name c) == 0 ->
    (forall wc : WeightedCheck,
        In wc (weightedChecks (calculateScore (before ++ c :: after) config)) ->
        check wc <> c)
    /\ finalScore (calculateScore (before ++ c :: after) config)
       = finalScore (calculateScore (before ++ after) config)
    /\ weightedChecks (calculateScore (before ++ c :: after) config)
       = weightedChecks (calculateScore (before ++ after) config).
Proof.
  intros before after c config Hz. repeat split.
  - intros wc Hin Hc. unfold calculateScore in Hin; simpl in Hin.
    apply sortByWeightedScore_In in Hin.
    assert (Hall : Forall (enabledEntry config)
                     (accChecks (fold_left (accumulate config)
                                   (before ++ c :: after) (mkTotals [] 0 0)))).
    { apply fold_enabled. constructor. }
    rewrite Forall_forall in Hall. destruct (Hall wc Hin) as [Hw Hnz].
    apply Hnz. rewrite Hw, Hc. assumption.
  - unfold calculateScore; simpl.
    rewrite fold_skips_disabled by assumption. reflexivity.
  - unfold calculateScore; simpl.
    rewrite fold_skips_disabled by assumption. reflexivity.
Qed.

Lemma disabled_check_excluded_witness :
  finalScore (calculateScore
                ([mkCheck "placeholder" 40] ++ mkCheck "velocity" 100
                   :: [mkCheck "shotgun" 90]) Examples.noVelocity)
  = finalScore (calculateScore
                  ([mkCheck "placeholder" 40] ++ [mkCheck "shotgun" 90])
                  Examples.noVelocity).
Proof.
  apply (disabled_check_excluded [mkCheck "placeholder" 40]
           [mkCheck "shotgun" 90] (mkCheck "velocity" 100) Examples.noVelocity).
  reflexivity.
Defined.

End Aggregator.

(* ================================================================== *)
(** * Similarity *)
(* ================================================================== *)

Section Similarity.
Import JsNumber Behavior LevenshteinSpec.

Local Open Scope nat_scope.

Lemma min3_swap x y z : min3 x y z = min3 y x z.
Proof. unfold min3. rewrite (Nat.min_comm x y). reflexivity. Qed.

Lemma cost_sym x y : cost x y = cost y x.
Proof. unfold cost. rewrite Ascii.eqb_sym. reflexivity. Qed.

Lemma distance_0_r a b i : distance a b i 0 = i.
Proof. destruct i; reflexivity. Qed.

Lemma distance_transpose a b : forall i j, distance a b i j = distance b a j i.
Proof.
  induction i as [|i IHi]; intros j.
  - simpl. symmetry. apply distance_0_r.
  - induction j as [|j IHj].
    + reflexivity.
    + change (distance a b (S i) (S j))
        with (min3 (distance a b i (S j) + 1) (distance a b (S i) j + 1)
                   (distance a b i j + cost (charAt a i) (charAt b j))).
      change (distance b a (S j) (S i))
        with (min3 (distance b a j (S i) + 1) (distance b a (S j) i + 1)
                   (distance b a j i + cost (charAt b j) (charAt a i))).
      rewrite IHj, (IHi (S j)), (IHi j), (cost_sym (charAt a i)).
      apply min3_swap.
Qed.

Lemma charAt_0 c s : charAt (String c s) 0 = c.
Proof. reflexivity. Qed.

Lemma charAt_S c s k : charAt (String c s) (S k) = charAt s k.
Proof. reflexivity. Qed.

Lemma fillRow_length ai : forall b prev left,
  List.length prev = S (length b) ->
  List.length (fillRow ai b prev left) = length b.
Proof.
  induction b as [|bj b IH]; intros prev left H; simpl.
  - reflexivity.
  - destruct prev as [|diag [|up rest]]; simpl in H; try lia.
    simpl. rewrite IH; simpl; lia.
Qed.

Lemma fillRow_step ai : forall b prev left k,
  k < length b -> List.length prev = S (length b) ->
  nth (S k) (left :: fillRow ai b prev left) 0
  = min3 (nth (S k) prev 0 + 1)
         (nth k (left :: fillRow ai b prev left) 0 + 1)
         (nth k prev 0 + cost ai (charAt b k)).
Proof.
  induction b as [|bj b IH]; intros prev left k Hk Hlen; simpl in Hk.
  - lia.
  - destruct prev as [|diag [|up rest]]; simpl in Hlen; try lia.
    destruct k as [|k].
    + reflexivity.
    + change (fillRow ai (String bj b) (diag :: up :: rest) left)
        with (min3 (up + 1) (left + 1) (diag + cost ai bj)
                :: fillRow ai b (up :: rest)
                     (min3 (up + 1) (left + 1) (diag + cost ai bj))).
      set (e := min3 (up + 1) (left + 1) (diag + cost ai bj)).
      change (nth (S (S k)) (left :: e :: fillRow ai b (up :: rest) e) 0)
        with (nth (S k) (e :: fillRow ai b (up :: rest) e) 0).
      change (nth (S k) (left :: e :: fillRow ai b (up :: rest) e) 0)
        with (nth k (e :: fillRow ai b (up :: rest) e) 0).
      rewrite (IH (up :: rest) e k); [reflexivity | lia | simpl; lia].
Qed.

Lemma fillRows_step b : forall a i0 prev k,
  k < length a ->
  nth (S k) (prev :: fillRows a b i0 prev) []
  = (i0 + k) :: fillRow (charAt a k) b
                  (nth k (prev :: fillRows a b i0 prev) []) (i0 + k).
Proof.
  induction a as [|ai a IH]; intros i0 prev k Hk; simpl in Hk.
  - lia.
  - destruct k as [|k].
    + simpl. rewrite Nat.add_0_r. reflexivity.
    + change (fillRows (String ai a) b i0 prev)
        with ((i0 :: fillRow ai b prev i0)
                :: fillRows a b (S i0) (i0 :: fillRow ai b prev i0)).
      set (row := i0 :: fillRow ai b prev i0).
      change (nth (S (S k)) (prev :: row :: fillRows a b (S i0) row) [])
        with (nth (S k) (row :: fillRows a b (S i0) row) []).
      change (nth (S k) (prev :: row :: fillRows a b (S i0) row) [])
        with (nth k (row :: fillRows a b (S i0) row) []).
      rewrite (IH (S i0) row k) by lia.
      rewrite charAt_S. replace (S i0 + k) with (i0 + S k) by lia.
      reflexivity.
Qed.

Lemma matrix_row_0 a b : nth 0 (matrix a b) [] = seq 0 (S (length b)).
Proof. reflexivity. Qed.

Lemma matrix_row_S a b i :
  i < length a ->
  nth (S i) (matrix a b) []
  = S i :: fillRow (charAt a i) b (nth i (matrix a b) []) (S i).
Proof.
  intros H. unfold matrix. rewrite fillRows_step by assumption. reflexivity.
Qed.

Lemma matrix_row_length a b : forall i,
  i <= length a -> List.length (nth i (matrix a b) []) = S (length b).
Proof.
  induction i as [|i IH]; intros H.
  - rewrite matrix_row_0. apply length_seq.
  - rewrite matrix_row_S by lia. simpl.
    rewrite fillRow_length; [reflexivity | apply IH; lia].
Qed.

(** Every entry of the matrix is the value of the recurrence. *)
Lemma matrix_entry a b : forall i j,
  i <= length a -> j <= length b ->
  entry (matrix a b) i j = distance a b i j.
Proof.
  unfold entry. induction i as [|i IHi]; intros j Hi Hj.
  - rewrite matrix_row_0. rewrite seq_nth by lia. reflexivity.
  - rewrite matrix_row_S by lia.
    induction j as [|j IHj].
    + reflexivity.
    + rewrite fillRow_step; [| lia | apply matrix_row_length; lia].
      rewrite IHj by lia. rewrite !IHi by lia. reflexivity.
Qed.

Lemma matrix_transpose a b :
  entry (matrix a b) (length a) (length b)
  = entry (matrix b a) (length b) (length a).
Proof.
  rewrite !matrix_entry by lia. apply distance_transpose.
Qed.

Lemma has_In l x : JsSet.has l x = true <-> In x l.
Proof.
  induction l as [|y l IH]; simpl.
  - split; [discriminate | intros []].
  - rewrite orb_true_iff, IH, String.eqb_eq. tauto.
Qed.

Lemma add_NoDup s x : NoDup s -> NoDup (JsSet.add s x).
Proof.
  intros H. unfold JsSet.add. destruct (JsSet.has s x) eqn:E; [assumption|].
  apply NoDup_app; [assumption | repeat constructor; intros [] |].
  intros y Hy [Hx|[]]; subst. apply has_In in Hy. congruence.
Qed.

Lemma ofList_NoDup l : NoDup (JsSet.ofList l).
Proof.
  unfold JsSet.ofList. generalize (NoDup_nil string).
  generalize (@nil string) as s.
  induction l as [|x l IH]; intros s H; simpl.
  - assumption.
  - apply IH, add_NoDup, H.
Qed.

(** The loop that counts the intersection counts the words of the first
    set the second one has. *)
Lemma count_common (wordsB : list string) : forall wordsA n,
  fold_left (fun n word => if JsSet.has wordsB word then S n else n) wordsA n
  = n + List.length (filter (JsSet.has wordsB) wordsA).
Proof.
  induction wordsA as [|w wordsA IH]; intros n; simpl.
  - lia.
  - rewrite IH. destruct (JsSet.has wordsB w); simpl; lia.
Qed.

Lemma common_sym (A B : list string) :
  NoDup A -> NoDup B ->
  List.length (filter (JsSet.has B) A) = List.length (filter (JsSet.has A) B).
Proof.
  intros HA HB. apply Permutation_length. apply NoDup_Permutation.
  - apply NoDup_filter. assumption.
  - apply NoDup_filter. assumption.
  - intros x. rewrite !filter_In, !has_In. tauto.
Qed.

Lemma jaccardSimilarity_sym a b : jaccardSimilarity a b = jaccardSimilarity b a.
Proof.
  unfold jaccardSimilarity.
  set (A := JsSet.ofList (RegExp.split (RegExp.plus RegExp.space) a)).
  set (B := JsSet.ofList (RegExp.split (RegExp.plus RegExp.space) b)).
  rewrite !count_common. simpl.
  rewrite (common_sym A B) by apply ofList_NoDup.
  rewrite (Nat.add_comm (List.length A) (List.length B)). reflexivity.
Qed.

(** C5: a string is fully similar to itself, the empty string is not
    similar at all to a non-empty one, and similarity is symmetric, on
    both sides of the 500 code unit limit. *)
Theorem similarity_laws :
  (forall s : string, levenshteinSimilarity s s = 1%Q)
  /\ (forall x : string, x <> EmptyString ->
        levenshteinSimilarity EmptyString x = 0%Q)
  /\ (forall a b : string,
        levenshteinSimilarity a b = levenshteinSimilarity b a).
Proof.
  repeat split.
  - intros s. unfold levenshteinSimilarity. rewrite String.eqb_refl. reflexivity.
  - intros x Hx. unfold levenshteinSimilarity.
    destruct (String.eqb EmptyString x) eqn:E.
    + apply String.eqb_eq in E. congruence.
    + reflexivity.
  - intros a b. unfold levenshteinSimilarity.
    rewrite (String.eqb_sym b a).
    destruct (String.eqb a b); [reflexivity|].
    rewrite (orb_comm (length b =? 0)).
    destruct ((length a =? 0) || (length b =? 0)); [reflexivity|].
    rewrite (orb_comm (500 <? length b)).
    destruct ((500 <? length a) || (500 <? length b)).
    + apply jaccardSimilarity_sym.
    + rewrite matrix_transpose, (Nat.max_comm (length b)). reflexivity.
Qed.

Lemma similarity_laws_witness :
  levenshteinSimilarity EmptyString "fix bug" = 0%Q.
Proof.
  apply (proj1 (proj2 similarity_laws)). discriminate.
Defined.

End Similarity.


(* ================================================================== *)
(** * The shotgun check *)
(* ================================================================== *)

Section Shotgun.
Import JsString JsNumber GitHub Scoring Behavior ShotgunSpec.

Local Open Scope nat_scope.

Lemma countMatches_fold currentPR : forall prs n m,
  fold_left (countMatches (normalized (title currentPR))
                          (normalized (orEmpty (body currentPR)))) prs (n, m)
  = (n + List.length (filter (titleMatch currentPR) prs),
     m + List.length (filter (bodyMatch currentPR) prs)).
Proof.
  induction prs as [|pr prs IH]; intros n m; simpl.
  - f_equal; lia.
  - unfold titleMatch at 1, bodyMatch at 1. fold (normalized (cpr_title pr)).
    fold (normalized (orEmpty (cpr_body pr))).
    destruct (String.eqb (normalized (cpr_title pr)) (normalized (title currentPR))
              || ltb (85 # 100)
                   (levenshteinSimilarity (normalized (cpr_title pr))
                      (normalized (title currentPR))));
      destruct (20 <? length (normalized (orEmpty (body currentPR))));
      destruct (20 <? length (normalized (orEmpty (cpr_body pr))));
      simpl;
      try destruct (ltb (80 # 100)
                   (levenshteinSimilarity (normalized (orEmpty (cpr_body pr)))
                      (normalized (orEmpty (body currentPR)))));
      simpl; rewrite IH; f_equal; lia.
Qed.

(** The score of [shotgunCheck] as a function of the two counts and of
    the number of entries compared. *)
Lemma shotgunCheck_counts currentPR publicPRs :
  shotgunCheck currentPR publicPRs =
  let others := comparable currentPR publicPRs in
  let tm := titleMatches currentPR publicPRs in
  let bm := bodyMatches currentPR publicPRs in
  if List.length others =? 0 then result "shotgun" 0
  else if (tm =? 0) && (bm =? 0) then result "shotgun" 0
  else if (3 <=? tm) || (2 <=? bm) then result "shotgun" 90
  else if (2 <=? tm) || ltb (1 # 2) (ratio tm (List.length others))
       then result "shotgun" 60
  else result "shotgun" 25.
Proof.
  unfold shotgunCheck. fold (comparable currentPR publicPRs).
  fold (normalized (title currentPR)).
  fold (normalized (orEmpty (body currentPR))).
  rewrite countMatches_fold. reflexivity.
Qed.

(** C6: the entries compared are those with another number; with none
    the score is 0, and otherwise the counts of title and body matches
    select the band: 0, 90, 60 or 25. *)
Theorem shotgunCheck_bands :
  forall (currentPR : PullRequestData) (publicPRs : list ContributorPR),
    let others := comparable currentPR publicPRs in
    let tm := titleMatches currentPR publicPRs in
    let bm := bodyMatches currentPR publicPRs in
    let s := score (shotgunCheck currentPR publicPRs) in
    (forall pr, In pr others <->
                In pr publicPRs /\ cpr_number pr <> number currentPR)
    /\ (others = [] -> s = 0%Q)
    /\ (others <> [] -> tm = 0 -> bm = 0 -> s = 0%Q)
    /\ (others <> [] -> 3 <= tm \/ 2 <= bm -> s = 90%Q)
    /\ (others <> [] -> tm < 3 -> bm < 2 -> ~ (tm = 0 /\ bm = 0) ->
        2 <= tm \/ (1 # 2 < ratio tm (List.length others))%Q -> s = 60%Q)
    /\ (others <> [] -> tm < 3 -> bm < 2 -> ~ (tm = 0 /\ bm = 0) ->
        ~ (2 <= tm \/ (1 # 2 < ratio tm (List.length others))%Q) -> s = 25%Q).
Proof.
  intros currentPR publicPRs others tm bm s.
  assert (Hlen : others <> [] -> (List.length others =? 0) = false).
  { intros H. destruct others; [congruence | reflexivity]. }
  subst s. rewrite shotgunCheck_counts. cbv zeta. fold others tm bm.
  split; [| split; [| split; [| split; [| split]]]].
  - intros pr. unfold others, comparable. rewrite filter_In.
    rewrite negb_true_iff, Z.eqb_neq. tauto.
  - intros H. rewrite H. reflexivity.
  - intros H Ht Hb. rewrite (Hlen H), Ht, Hb. reflexivity.
  - intros H Hm. rewrite (Hlen H).
    assert (E1 : (tm =? 0) && (bm =? 0) = false).
    { apply andb_false_iff. rewrite !Nat.eqb_neq. lia. }
    assert (E2 : (3 <=? tm) || (2 <=? bm) = true).
    { apply orb_true_iff. rewrite !Nat.leb_le. assumption. }
    rewrite E1, E2. reflexivity.
  - intros H Ht Hb Hnz Hm. rewrite (Hlen H).
    assert (E1 : (tm =? 0) && (bm =? 0) = false).
    { apply andb_false_iff. rewrite !Nat.eqb_neq. lia. }
    assert (E2 : (3 <=? tm) || (2 <=? bm) = false).
    { apply orb_false_iff. rewrite !Nat.leb_gt. lia. }
    assert (E3 : (2 <=? tm) || ltb (1 # 2) (ratio tm (List.length others)) = true).
    { apply orb_true_iff. rewrite Nat.leb_le, ltb_true. assumption. }
    rewrite E1, E2, E3. reflexivity.
  - intros H Ht Hb Hnz Hm. rewrite (Hlen H).
    assert (E1 : (tm =? 0) && (bm =? 0) = false).
    { apply andb_false_iff. rewrite !Nat.eqb_neq. lia. }
    assert (E2 : (3 <=? tm) || (2 <=? bm) = false).
    { apply orb_false_iff. rewrite !Nat.leb_gt. lia. }
    assert (E3 : (2 <=? tm) || ltb (1 # 2) (ratio tm (List.length others)) = false).
    { destruct ((2 <=? tm) || ltb (1 # 2) (ratio tm (List.length others))) eqn:E;
        [|reflexivity].
      exfalso. apply Hm. apply orb_true_iff in E.
      rewrite Nat.leb_le, ltb_true in E. assumption. }
    rewrite E1, E2, E3. reflexivity.
Qed.

Lemma shotgunCheck_bands_witness :
  score (shotgunCheck Examples.typoPR []) = 0%Q
  /\ score (shotgunCheck Examples.typoPR
              [Examples.elsewhere 11 "Bump the parser version"]) = 0%Q
  /\ score (shotgunCheck Examples.typoPR
              [ Examples.elsewhere 10 "Fix typo in README";
                Examples.elsewhere 11 "Fix typo in README";
                Examples.elsewhere 12 " fix typo in readme";
                Examples.elsewhere 13 "Fix typo in README." ]) = 90%Q
  /\ score (shotgunCheck Examples.typoPR
              [Examples.elsewhere 11 "Fix typo in README"]) = 60%Q
  /\ score (shotgunCheck Examples.typoPR
              [ Examples.elsewhere 11 "Fix typo in README";
                Examples.elsewhere 12 "Bump the parser version" ]) = 25%Q.
Proof.
  split; [| split; [| split; [| split]]].
  - destruct (shotgunCheck_bands Examples.typoPR []) as (_ & H & _).
    apply H. reflexivity.
  - destruct (shotgunCheck_bands Examples.typoPR
                [Examples.elsewhere 11 "Bump the parser version"])
      as (_ & _ & H & _).
    apply H; [discriminate | vm_compute; reflexivity | vm_compute; reflexivity].
  - destruct (shotgunCheck_bands Examples.typoPR
                [ Examples.elsewhere 10 "Fix typo in README";
                  Examples.elsewhere 11 "Fix typo in README";
                  Examples.elsewhere 12 " fix typo in readme";
                  Examples.elsewhere 13 "Fix typo in README." ])
      as (_ & _ & _ & H & _).
    apply H; [discriminate | left; vm_compute; lia].
  - destruct (shotgunCheck_bands Examples.typoPR
                [Examples.elsewhere 11 "Fix typo in README"])
      as (_ & _ & _ & _ & H & _).
    apply H; [discriminate | vm_compute; lia | vm_compute; lia
             | vm_compute; intros [E _]; discriminate E
             | right; vm_compute; reflexivity].
  - destruct (shotgunCheck_bands Examples.typoPR
                [ Examples.elsewhere 11 "Fix typo in README";
                  Examples.elsewhere 12 "Bump the parser version" ])
      as (_ & _ & _ & _ & _ & H).
    apply H; [discriminate | vm_compute; lia | vm_compute; lia
             | vm_compute; intros [E _]; discriminate E
             | vm_compute; intros [E|E]; [lia | discriminate E]].
Defined.

End Shotgun.

(* ================================================================== *)
(** * The oversized-diff check *)
(* ================================================================== *)

Section OversizedDiff.
Import JsString JsNumber GitHub Scoring Patterns.

Local Open Scope nat_scope.

(** C7, as the code has it: the score is 40 exactly when more than 500
    lines change and the trimmed description has at least 50 characters
    but fewer than the smaller of a tenth of the changes and 200. *)
Theorem oversized_underdocumented_band :
  forall pr : PullRequestData,
    let totalChanges := (additions pr + deletions pr)%Z in
    let descriptionLength := length (trim (orEmpty (body pr))) in
    score (oversizedDiffCheck pr) = 40%Q <->
    (500 < totalChanges)%Z /\ 50 <= descriptionLength
    /\ (ofNat descriptionLength
        < Qmin (inject_Z totalChanges * (1 # 10)) 200)%Q.
Proof.
  intros pr totalChanges descriptionLength. unfold oversizedDiffCheck.
  fold totalChanges descriptionLength.
  destruct (Z.leb_spec totalChanges 100) as [H100|H100].
  { rewrite result_score. split; [discriminate | intros [H _]; lia]. }
  destruct (Z.ltb_spec 2000 totalChanges) as [H2000|H2000];
    destruct (Z.ltb_spec 1000 totalChanges) as [H1000|H1000];
    destruct (Z.ltb_spec 500 totalChanges) as [H500|H500];
    destruct (Z.ltb_spec 300 totalChanges) as [H300|H300];
    try lia;
    destruct (Nat.ltb_spec descriptionLength 50) as [H50|H50];
    destruct (Nat.ltb_spec descriptionLength 30) as [H30|H30];
    try lia;
    destruct (ltb (ofNat descriptionLength)
                  (Qmin (inject_Z totalChanges * (1 # 10)) 200)) eqn:Hu;
    cbn [andb]; rewrite result_score;
    (split; [ intros E; apply inject_Z_inj in E; try discriminate E
            | intros (Hc & Hd & Hq); try lia ]);
    try (apply ltb_true in Hu; repeat split; (lia || assumption));
    try (apply ltb_false in Hu; exfalso; apply (Qlt_not_le _ _ Hq Hu));
    try reflexivity.
Qed.

Lemma oversized_underdocumented_band_witness :
  score (oversizedDiffCheck Examples.largeBriefPR) = 40%Q.
Proof.
  apply (oversized_underdocumented_band Examples.largeBriefPR).
  vm_compute. repeat split; try lia; intros; discriminate.
Defined.

(** C7 as stated fails: 1500 changed lines with a description of 59
    characters score 40. *)
Lemma oversized_40_above_1000 :
  score (oversizedDiffCheck Examples.largeBriefPR) = 40%Q
  /\ (1000 < additions Examples.largeBriefPR
             + deletions Examples.largeBriefPR)%Z
  /\ length (trim (orEmpty (body Examples.largeBriefPR))) = 59.
Proof. repeat split; vm_compute; reflexivity. Qed.

End OversizedDiff.

(* ================================================================== *)
(** * The copy-paste check *)
(* ================================================================== *)

Section CopyPaste.
Import JsString JsNumber GitHub Scoring Content.

Local Open Scope nat_scope.

(** C8, as the code has it: no duplicate scores 0, one duplicate of fewer
    than 15 lines 20, one duplicate of 15 lines or more and two or three
    duplicates 50, four or more 85. *)
Theorem copyPasteCheck_bands :
  forall files : list PRFile,
    let n := duplicateCount (findDuplicates files) in
    let l := duplicatedLines (findDuplicates files) in
    let s := score (copyPasteCheck files) in
    (n = 0 -> s = 0%Q)
    /\ (n = 1 -> l < 15 -> s = 20%Q)
    /\ (n = 1 -> 15 <= l -> s = 50%Q)
    /\ (2 <= n <= 3 -> s = 50%Q)
    /\ (4 <= n -> s = 85%Q)
    /\ (s = 50%Q <-> (n = 1 /\ 15 <= l) \/ n = 2 \/ n = 3).
Proof.
  intros files n l s. subst s. unfold copyPasteCheck. fold n l.
  destruct (Nat.eqb_spec n 0) as [H0|H0];
    destruct (Nat.eqb_spec n 1) as [H1|H1];
    destruct (Nat.ltb_spec l 15) as [Hl|Hl];
    destruct (Nat.leb_spec n 3) as [H3|H3];
    try lia; cbn [andb]; rewrite result_score;
    (repeat split; try (intros; lia); try (intros; reflexivity));
    try (intros E; apply inject_Z_inj in E; discriminate E);
    try (intros E; lia); try (intros [E|E]; lia).
Qed.

Lemma copyPasteCheck_bands_witness :
  score (copyPasteCheck Examples.twoCopies) = 50%Q.
Proof.
  destruct (copyPasteCheck_bands Examples.twoCopies) as (_ & _ & H & _).
  apply H.
  - vm_compute. reflexivity.
  - vm_compute. lia.
Defined.

(** C8 as stated fails: one duplicate of fifteen lines scores 50. *)
Lemma copyPaste_50_with_one_duplicate :
  score (copyPasteCheck Examples.twoCopies) = 50%Q
  /\ duplicateCount (findDuplicates Examples.twoCopies) = 1
  /\ duplicatedLines (findDuplicates Examples.twoCopies) = 15.
Proof. repeat split; vm_compute; reflexivity. Qed.

End CopyPaste.

(* ================================================================== *)
(** * The dependency parsers *)
(* ================================================================== *)

Section Parsers.
Import JsString JsNumber GitHub Scoring RegExp Content ParserSpec.

Local Open Scope nat_scope.

Lemma splitWalk_nonempty r : forall fuel pre post piece,
  splitWalk fuel r pre post piece <> [].
Proof.
  induction fuel as [|fuel IH]; intros pre post piece; simpl.
  - discriminate.
  - destruct post as [|c rest]; [discriminate|].
    destruct (matchAt r (mkState pre (String c rest) [])) as [e|]; [|apply IH].
    destruct ((length (after e) =? length (String c rest))
              && (length piece =? 0)); [apply IH | discriminate].
Qed.

Lemma split_nonempty r s : s <> EmptyString -> RegExp.split r s <> [].
Proof.
  intros H. destruct s as [|c s]; [congruence|].
  unfold RegExp.split. apply splitWalk_nonempty.
Qed.

Lemma requirementLine_completes line : completes (requirementLine line).
Proof.
  intros deps. unfold requirementLine.
  destruct (String.eqb (trim line) EmptyString) eqn:E; simpl.
  - eexists; reflexivity.
  - destruct (negb (startsWith (trim line) "#")
              && negb (startsWith (trim line) "-")); [|eexists; reflexivity].
    destruct (RegExp.split versionSeparator (trim line)) as [|first rest] eqn:Es.
    + exfalso. apply (split_nonempty versionSeparator (trim line)); [|assumption].
      intros H. rewrite H in E. discriminate.
    + destruct (negb (String.eqb (toLowerCase first) EmptyString));
        eexists; reflexivity.
Qed.

Lemma forEach_completes {A} (f : A -> Stmt unit) :
  (forall x, completes (f x)) -> forall l, completes (forEach l f).
Proof.
  intros Hf. induction l as [|x l IH]; intros deps; simpl.
  - eexists; reflexivity.
  - unfold bind. destruct (Hf x deps) as [deps1 E1]. rewrite E1. apply IH.
Qed.

Lemma returnDeps_completes body :
  completes body -> exists deps, returnDeps body = Normal deps.
Proof.
  intros H. unfold returnDeps. destruct (H []) as [deps E]. rewrite E.
  eexists; reflexivity.
Qed.

Lemma tryCatch_completes body : completes (tryCatch body).
Proof. intros deps. eexists; reflexivity. Qed.

Lemma cargo_outside_section : forall ls deps,
  forallb (fun line => negb (test dependencySection (trim line))) ls = true ->
  fold_left cargoLine ls (deps, false) = (deps, false).
Proof.
  induction ls as [|line ls IH]; intros deps H; simpl.
  - reflexivity.
  - simpl in H. apply andb_true_iff in H. destruct H as [H1 H2].
    apply negb_true_iff in H1. rewrite H1.
    destruct (startsWith (trim line) "["); apply IH; assumption.
Qed.

(** C9: the package parser and the requirements parser complete with a
    set on every text and never throw (the Cargo parser has no statement
    that could, and is a total function); text that is no JSON, and JSON
    that is no object, give the package parser the empty set, as the
    empty text gives the requirements parser and a text without
    dependency section the Cargo parser. *)
Theorem dependency_parsers_total :
  (forall (JSON_parse : string -> option json) (content : string),
      exists deps, parseDepsFromPackageJson JSON_parse content = Normal deps)
  /\ (forall (JSON_parse : string -> option json) (content : string),
        JSON_parse content = None ->
        parseDepsFromPackageJson JSON_parse content = Normal [])
  /\ (forall (JSON_parse : string -> option json) (content : string) (v : json),
        JSON_parse content = Some v ->
        (forall fields, v <> JObject fields) ->
        parseDepsFromPackageJson JSON_parse content = Normal [])
  /\ (forall content : string,
        exists deps, parseDepsFromRequirements content = Normal deps)
  /\ parseDepsFromRequirements EmptyString = Normal []
  /\ (forall content : string,
        noDependencySection content = true ->
        parseDepsFromCargoToml content = []).
Proof.
  split; [| split; [| split; [| split; [| split]]]].
  - intros JSON_parse content. apply returnDeps_completes, tryCatch_completes.
  - intros JSON_parse content H.
    unfold parseDepsFromPackageJson, returnDeps, tryCatch, bind, parseJson.
    rewrite H. reflexivity.
  - intros JSON_parse content v H Hv.
    unfold parseDepsFromPackageJson, returnDeps, tryCatch, bind, parseJson.
    rewrite H. destruct v; try reflexivity.
    exfalso. apply (Hv fields). reflexivity.
  - intros content. apply returnDeps_completes, forEach_completes.
    apply requirementLine_completes.
  - reflexivity.
  - intros content H. unfold parseDepsFromCargoToml.
    rewrite cargo_outside_section by assumption. reflexivity.
Qed.

Lemma dependency_parsers_total_witness :
  parseDepsFromPackageJson Examples.parseTwo "not json" = Normal []
  /\ parseDepsFromPackageJson Examples.parseTwo "null" = Normal []
  /\ parseDepsFromCargoToml (join newline ["[package]"; "name = x"]) = [].
Proof.
  destruct dependency_parsers_total as (_ & Hbad & Hnull & _ & _ & Hcargo).
  split; [| split].
  - apply Hbad. vm_compute. reflexivity.
  - apply (Hnull Examples.parseTwo "null" JNull);
      [vm_compute; reflexivity | discriminate].
  - apply Hcargo. vm_compute. reflexivity.
Defined.

End Parsers.

(* ================================================================== *)
(** * The import check *)
(* ================================================================== *)

Section Imports.
Import JsString JsNumber GitHub Scoring RegExp Content Examples.

Local Open Scope nat_scope.

(** C10: the one added line [import lodash from 'lodash'] matches the
    first and the fourth pattern and counts as two imports; so among
    seven import statements of which one is unknown, two of eight counted
    imports are suspicious and the score is 55, where one of seven would
    have been under the 0.2 of the 25 band. *)
Theorem import_statement_counted_twice :
  addedLinesOf (patchOf singleImport) = [lodashLine]
  /\ List.length (matches (nth 0 importPatterns Empty) (patchOf singleImport)) = 1
  /\ List.length (matches (nth 3 importPatterns Empty) (patchOf singleImport)) = 1
  /\ fst (importStats singleImport []) = 2
  /\ List.length (addedLinesOf (patchOf mixedImports)) = 7
  /\ fst (importStats mixedImports []) = 8
  /\ map si_module (snd (importStats mixedImports [])) = ["lodash"; "lodash"]
  /\ score (hallucinatedImportCheck mixedImports []) = 55%Q
  /\ ltb (ratio 1 7) (2 # 10) = true.
Proof.
  repeat split; vm_compute; reflexivity.
Qed.

End Imports.

(* ================================================================== *)
(** * Every score lies between 0 and 100 *)
(* ================================================================== *)

Section Bounds.
Import JsString JsNumber Config GitHub Scoring Behavior Content Patterns.
Import ScoringSpec.

Local Open Scope nat_scope.

Lemma result_bounded n s : (0 <= s <= 100)%Z -> bounded (result n s).
Proof.
  intros [H0 H1]. unfold bounded. rewrite result_score.
  change 0%Q with (inject_Z 0). change 100%Q with (inject_Z 100).
  rewrite <- !Zle_Qle. split; assumption.
Qed.

(** Every path through a check ends in one of its constants. *)
Ltac bands :=
  repeat match goal with
         | |- bounded (let '(_, _) := ?p in _) => destruct p
         | |- bounded (if ?b then _ else _) => destruct b
         | |- bounded (match ?p with _ => _ end) => destruct p
         end;
  apply result_bounded; lia.

Lemma velocityCheck_bounded now prs : bounded (velocityCheck now prs).
Proof. unfold velocityCheck. bands. Qed.

Lemma abandonmentCheck_bounded stats : bounded (abandonmentCheck stats).
Proof. unfold abandonmentCheck. bands. Qed.

Lemma shotgunCheck_bounded pr prs : bounded (shotgunCheck pr prs).
Proof. unfold shotgunCheck. bands. Qed.

Lemma newAccountCheck_bounded now pr prs : bounded (newAccountCheck now pr prs).
Proof. unfold newAccountCheck. bands. Qed.

Lemma placeholderCheck_bounded files : bounded (placeholderCheck files).
Proof. unfold placeholderCheck. bands. Qed.

Lemma hallucinatedImportCheck_bounded files deps :
  bounded (hallucinatedImportCheck files deps).
Proof. unfold hallucinatedImportCheck. bands. Qed.

Lemma docstringInflationCheck_bounded files :
  bounded (docstringInflationCheck files).
Proof. unfold docstringInflationCheck. bands. Qed.

Lemma copyPasteCheck_bounded files : bounded (copyPasteCheck files).
Proof. unfold copyPasteCheck. bands. Qed.

Lemma genericDescriptionCheck_bounded pr : bounded (genericDescriptionCheck pr).
Proof. unfold genericDescriptionCheck. bands. Qed.

Lemma oversizedDiffCheck_bounded pr : bounded (oversizedDiffCheck pr).
Proof. unfold oversizedDiffCheck. bands. Qed.

Lemma unrelatedChangesCheck_bounded files : bounded (unrelatedChangesCheck files).
Proof. unfold unrelatedChangesCheck. bands. Qed.

Lemma formattingOnlyCheck_bounded pr files :
  bounded (formattingOnlyCheck pr files).
Proof. unfold formattingOnlyCheck. bands. Qed.

(** C1: with scores and weights between 0 and 100 the final score lies
    between 0 and 100, and so does the score of each of the twelve checks
    on every input. *)
Theorem scores_within_bounds :
  (forall (checks : list CheckResult) (config : SlopGateConfig),
      Forall bounded checks -> validWeights (weights config) ->
      (0 <= finalScore (calculateScore checks config))%Q
      /\ (finalScore (calculateScore checks config) <= 100)%Q)
  /\ (forall now recentPRs, bounded (velocityCheck now recentPRs))
  /\ (forall stats, bounded (abandonmentCheck stats))
  /\ (forall currentPR publicPRs, bounded (shotgunCheck currentPR publicPRs))
  /\ (forall now pr recentRepoPRs,
         bounded (newAccountCheck now pr recentRepoPRs))
  /\ (forall files, bounded (placeholderCheck files))
  /\ (forall files projectDeps,
         bounded (hallucinatedImportCheck files projectDeps))
  /\ (forall files, bounded (docstringInflationCheck files))
  /\ (forall files, bounded (copyPasteCheck files))
  /\ (forall pr, bounded (genericDescriptionCheck pr))
  /\ (forall pr, bounded (oversizedDiffCheck pr))
  /\ (forall files, bounded (unrelatedChangesCheck files))
  /\ (forall pr files, bounded (formattingOnlyCheck pr files)).
Proof.
  split.
  { intros checks config Hall Hw. apply finalScore_range; assumption. }
  repeat split;
    first [ apply velocityCheck_bounded | apply abandonmentCheck_bounded
          | apply shotgunCheck_bounded | apply newAccountCheck_bounded
          | apply placeholderCheck_bounded
          | apply hallucinatedImportCheck_bounded
          | apply docstringInflationCheck_bounded
          | apply copyPasteCheck_bounded
          | apply genericDescriptionCheck_bounded
          | apply oversizedDiffCheck_bounded
          | apply unrelatedChangesCheck_bounded
          | apply formattingOnlyCheck_bounded ].
Qed.

Lemma scores_within_bounds_witness :
  (0 <= finalScore (calculateScore Examples.threeChecks DEFAULT_CONFIG))%Q
  /\ (finalScore (calculateScore Examples.threeChecks DEFAULT_CONFIG) <= 100)%Q.
Proof.
  apply (proj1 scores_within_bounds Examples.threeChecks DEFAULT_CONFIG).
  - repeat constructor; discriminate.
  - unfold validWeights, inRange. simpl. repeat split; discriminate.
Defined.

End Bounds.

(* ================================================================== *)
(** * The cases of the repository's test suite *)
(* ================================================================== *)

(** The model returns what the tests of the repository expect of the
    code (the manifests here without their string quotes). *)
Section TestSuite.
Import JsString JsNumber Config GitHub Scoring Behavior Content Patterns.
Import Examples.

Local Open Scope Q_scope.

Example test_verdict_boundaries :
  map (fun s => getVerdict s DEFAULT_CONFIG) [0; 29; 30; 59; 60; 79; 80; 100]
  = [Scoring.pass; Scoring.pass; Scoring.warn; Scoring.warn;
     Scoring.flag; Scoring.flag; Scoring.block; Scoring.block].
Proof. vm_compute. reflexivity. Qed.

Example test_skip_disabled_checks :
  finalScore (calculateScore [mkCheck "velocity" 100; mkCheck "placeholder" 0]
                noVelocity) = 0.
Proof. vm_compute. reflexivity. Qed.

Example test_levenshtein_kitten_sitting :
  Behavior.entry (matrix "kitten" "sitting") 6 7 = 3%nat
  /\ levenshteinSimilarity "kitten" "sitting" == 4 # 7.
Proof. split; vm_compute; reflexivity. Qed.

Example test_empty_function_bodies :
  score (placeholderCheck
           [patchFile "src/app.ts"
              [ "@@ -1,5 +1,20 @@"; "+function handleAuth() { }";
                "+function processPayment() { }";
                "+function validateInput() { }";
                "+function sendNotification() { }";
                "+function parseConfig() { }"; "+function initDatabase() { }";
                "+const a = 1;" ]]) = 95.
Proof. vm_compute. reflexivity. Qed.

Example test_known_imports :
  score (hallucinatedImportCheck
           [patchFile "src/app.ts"
              [ "@@ -1,3 +1,5 @@"; "+import express from 'express';";
                "+import { z } from 'zod';" ]]
           ["express"; "zod"]) = 0.
Proof. vm_compute. reflexivity. Qed.

Example test_require_imports :
  score (hallucinatedImportCheck
           [patchFile "src/app.ts"
              [ "@@ -1,3 +1,5 @@"; "+const express = require('express');";
                "+const fake = require('nonexistent-module');" ]]
           ["express"]) = 90.
Proof. vm_compute. reflexivity. Qed.

Example test_requirements :
  parseDepsFromRequirements
    (join newline [ "flask>=2.0"; "requests==2.28.0"; "numpy";
                    "pandas>=1.5,<2.0"; "# comment"; "-e git+..." ])
  = Normal ["flask"; "requests"; "numpy"; "pandas"].
Proof. vm_compute. reflexivity. Qed.

Example test_cargo :
  parseDepsFromCargoToml
    (join newline [ "[package]"; "name = myapp"; "version = 0.1.0"; "";
                    "[dependencies]"; "serde = 1.0";
                    "tokio = { version = 1.0 }"; "reqwest = 0.11"; "";
                    "[dev-dependencies]"; "mockall = 0.11" ])
  = ["serde"; "tokio"; "reqwest"; "mockall"].
Proof. vm_compute. reflexivity. Qed.

Example test_generic_titles :
  map (fun pr => score (genericDescriptionCheck pr))
      [ titled "Fix bug" "" 0 0; titled "Refactoring" "" 0 0;
        titled "Improvements"
               "This PR improves the overall code quality and readability."
               0 0;
        titled "fix" "" 0 0 ]
  = [85; 85; 70; 85].
Proof. vm_compute. reflexivity. Qed.

Example test_oversized :
  map (fun pr => score (oversizedDiffCheck pr))
      [ titled "t" "" 30 20; titled "t" "fixes" 1500 600;
        titled "t" "Updated some files." 400 200; titled "t" "" 80 20 ]
  = [0; 95; 65; 0].
Proof. vm_compute. reflexivity. Qed.

Example test_scattered_files :
  score (unrelatedChangesCheck
           (map (fun n => mkFile n None)
                [ "src/auth.ts"; "lib/utils.ts"; "config/app.yml";
                  "scripts/deploy.sh"; "docs/README.md"; "tools/lint.ts";
                  "vendor/patch.js"; "api/routes.ts"; "models/user.ts" ]))
  = 85.
Proof. vm_compute. reflexivity. Qed.

Example test_formatting_claims_fix :
  score (formattingOnlyCheck
           (titled "Fix critical authentication bug" "" 0 0)
           [patchFile "src/app.ts"
              [ "@@ -1,10 +1,10 @@"; "-  const x = 1;"; "+  const x = 1 ;";
                "-  const y = 2;"; "+  const y = 2 ;"; "-  const z = 3;";
                "+  const z = 3 ;"; "-  const a = 4;"; "+  const a = 4 ;";
                "-  const b = 5;"; "+  const b = 5 ;" ]]) = 90.
Proof. vm_compute. reflexivity. Qed.

End TestSuite.

(* ================================================================== *)
(** * Further properties of the code *)
(* ================================================================== *)

Section AggregatorMore.
Import JsNumber Config Scoring ScoringSpec AggregatorSpec.

Local Open Scope Q_scope.



















(** X4: [getVerdict] is monotone: a higher score never gets a milder
    verdict (pass, warn, flag, block in this order), whatever the three
    thresholds are. *)
Theorem getVerdict_monotone :
  forall (s1 s2 : Q) (config : SlopGateConfig),
    s1 <= s2 ->
    (severity (getVerdict s1 config) <= severity (getVerdict s2 config))%nat.
Proof.
  intros s1 s2 config H. unfold getVerdict.
  destruct (leb (Config.block (thresholds config)) s2) eqn:B2;
    destruct (leb (Config.block (thresholds config)) s1) eqn:B1;
    destruct (leb (Config.flag (thresholds config)) s2) eqn:F2;
    destruct (leb (Config.flag (thresholds config)) s1) eqn:F1;
    destruct (leb (Config.warn (thresholds config)) s2) eqn:W2;
    destruct (leb (Config.warn (thresholds config)) s1) eqn:W1;
    simpl; try lia;
    repeat match goal with
           | E : leb _ _ = true |- _ => apply leb_true in E
           | E : leb _ _ = false |- _ => apply leb_false in E
           end; lra.
Qed.

Lemma getVerdict_monotone_witness :
  (severity (getVerdict 59 DEFAULT_CONFIG)
   <= severity (getVerdict 60 DEFAULT_CONFIG))%nat.
Proof.
  apply (getVerdict_monotone 59 60 DEFAULT_CONFIG). discriminate.
Defined.

End AggregatorMore.

Section SummaryProofs.
Import JsNumber Config Scoring ScoringSpec AggregatorSpec Summary.

Local Open Scope Q_scope.










End SummaryProofs.

Section BehaviorMore.
Import JsString JsNumber GitHub Scoring Behavior BehaviorSpec.

Local Open Scope nat_scope.

Lemma inject_Z_le_iff x y : (inject_Z x <= inject_Z y)%Q <-> (x <= y)%Z.
Proof. rewrite Zle_Qle. reflexivity. Qed.

Lemma velocityCheck_band now prs :
  score (velocityCheck now prs)
  = inject_Z (velocityBand
                (List.length
                   (filter (createdSince (now - 24 * 60 * 60 * 1000)) prs))).
Proof.
  unfold velocityCheck, velocityBand.
  repeat match goal with |- context [if ?b then _ else _] => destruct b end;
    reflexivity.
Qed.

Lemma velocityBand_monotone n m : n <= m -> (velocityBand n <= velocityBand m)%Z.
Proof.
  intros H. unfold velocityBand.
  repeat match goal with
         | |- context [?a <=? ?b] => destruct (Nat.leb_spec a b)
         end; lia.
Qed.

Lemma filter_without {A : Type} (f : A -> bool) (before after : list A) x :
  f x = false -> filter f (before ++ x :: after) = filter f (before ++ after).
Proof. intros H. rewrite !filter_app. simpl. rewrite H. reflexivity. Qed.

Lemma filter_length_with {A : Type} (f : A -> bool) (before after : list A) x :
  List.length (filter f (before ++ after))
  <= List.length (filter f (before ++ x :: after)).
Proof.
  rewrite !filter_app, !length_app. simpl. destruct (f x); simpl; lia.
Qed.

(** X6: [velocityCheck] reads only the pull requests of the last 24
    hours: one created before that (or with an invalid date) leaves the
    result as it is, and a further pull request never lowers the
    score. *)
Theorem velocityCheck_counts_recent_only :
  forall (now : Z) (before after : list ContributorPR) (pr : ContributorPR),
    (createdSince (now - 24 * 60 * 60 * 1000) pr = false ->
     velocityCheck now (before ++ pr :: after)
     = velocityCheck now (before ++ after))
    /\ (score (velocityCheck now (before ++ after))
        <= score (velocityCheck now (before ++ pr :: after)))%Q.
Proof.
  intros now before after pr. split.
  - intros H. unfold velocityCheck. cbv zeta.
    rewrite (filter_without _ before after pr H). reflexivity.
  - rewrite !velocityCheck_band. apply inject_Z_le_iff.
    apply velocityBand_monotone. apply filter_length_with.
Qed.

Lemma velocityCheck_counts_recent_only_witness :
  velocityCheck 200000000 ([] ++ mkContributorPR 1 "t" None (Some 0%Z) :: [])
  = velocityCheck 200000000 ([] ++ []).
Proof.
  apply (velocityCheck_counts_recent_only 200000000 [] []
           (mkContributorPR 1 "t" None (Some 0%Z))).
  reflexivity.
Defined.

(** X7: [abandonmentCheck] scores 0 on fewer than three pull requests
    whatever the rate, and for a given history a higher abandonment
    rate never gets a lower score. *)
Theorem abandonmentCheck_monotone :
  forall (total abandoned : Z) (rate1 rate2 : Q),
    ((total < 3)%Z ->
     score (abandonmentCheck (mkStats total abandoned rate2)) = 0%Q)
    /\ ((rate1 <= rate2)%Q ->
        (score (abandonmentCheck (mkStats total abandoned rate1))
         <= score (abandonmentCheck (mkStats total abandoned rate2)))%Q).
Proof.
  intros total abandoned rate1 rate2. unfold abandonmentCheck. simpl. split.
  - intros H. apply Z.ltb_lt in H. rewrite H. reflexivity.
  - intros H. destruct (total <? 3)%Z; [apply Qle_refl|].
    destruct (leb rate1 30) eqn:A1; destruct (leb rate1 50) eqn:A2;
      destruct (leb rate1 70) eqn:A3; destruct (leb rate1 90) eqn:A4;
      destruct (leb rate2 30) eqn:B1; destruct (leb rate2 50) eqn:B2;
      destruct (leb rate2 70) eqn:B3; destruct (leb rate2 90) eqn:B4;
      rewrite !result_score; try (apply inject_Z_le_iff; lia);
      exfalso;
      repeat match goal with
             | E : leb _ _ = true |- _ => apply leb_true in E
             | E : leb _ _ = false |- _ => apply leb_false in E
             end; lra.
Qed.

Lemma abandonmentCheck_monotone_witness :
  score (abandonmentCheck (mkStats 2 2 100)) = 0%Q
  /\ (score (abandonmentCheck (mkStats 10 4 40))
      <= score (abandonmentCheck (mkStats 10 4 95)))%Q.
Proof.
  split.
  - apply (proj1 (abandonmentCheck_monotone 2 2 0 100)). reflexivity.
  - apply (proj2 (abandonmentCheck_monotone 10 4 40 95)). discriminate.
Defined.

(** X8: [newAccountCheck] never scores an older account above a newer
    one on the same pull request, and scores 0 once the account is 30
    days old. *)
Theorem newAccountCheck_by_age :
  forall (now t1 t2 : Z) (pr1 pr2 : PullRequestData)
         (prs : list ContributorPR),
    number pr1 = number pr2 ->
    created_at (user pr1) = Some t1 ->
    created_at (user pr2) = Some t2 ->
    (t1 <= t2)%Z ->
    (score (newAccountCheck now pr1 prs)
     <= score (newAccountCheck now pr2 prs))%Q
    /\ (t1 <= now - 30 * (1000 * 60 * 60 * 24) ->
        score (newAccountCheck now pr1 prs) = 0%Q)%Z.
Proof.
  intros now t1 t2 pr1 pr2 prs Hn H1 H2 H. unfold newAccountCheck.
  rewrite H1, H2, Hn. cbv zeta. cbn [option_map].
  set (day := (1000 * 60 * 60 * 24)%Z).
  assert (Hday : (0 < day)%Z) by (unfold day; lia).
  assert (Hage : ((now - t2) / day <= (now - t1) / day)%Z).
  { apply Z.div_le_mono; lia. }
  set (age1 := ((now - t1) / day)%Z) in *.
  set (age2 := ((now - t2) / day)%Z) in *.
  split.
  - destruct (Z.leb_spec 30 age1); destruct (Z.leb_spec 30 age2);
      destruct (Z.leb_spec 14 age1); destruct (Z.leb_spec 14 age2);
      destruct (Z.leb_spec 7 age1); destruct (Z.leb_spec 7 age2);
      try lia;
      destruct (List.length
                  (filter (fun rp => negb (cpr_number rp =? number pr2)%Z) prs)
                =? 0); cbn [negb]; rewrite ?result_score;
      apply inject_Z_le_iff; lia.
  - intros H30.
    assert (H1' : (30 <= age1)%Z).
    { unfold age1. apply Z.div_le_lower_bound; lia. }
    apply Z.leb_le in H1'. rewrite H1'. reflexivity.
Qed.

Lemma newAccountCheck_by_age_witness :
  (score (newAccountCheck 5000000000
            (mkPR 7 "Fix typo" None (mkUser "dev" (Some 0%Z)) 1 1) [])
   <= score (newAccountCheck 5000000000
               (mkPR 7 "Fix typo" None (mkUser "dev" (Some 4000000000%Z)) 1 1)
               []))%Q
  /\ score (newAccountCheck 5000000000
              (mkPR 7 "Fix typo" None (mkUser "dev" (Some 0%Z)) 1 1) []) = 0%Q.
Proof.
  destruct (newAccountCheck_by_age 5000000000 0 4000000000
              (mkPR 7 "Fix typo" None (mkUser "dev" (Some 0%Z)) 1 1)
              (mkPR 7 "Fix typo" None (mkUser "dev" (Some 4000000000%Z)) 1 1)
              [] eq_refl eq_refl eq_refl)
    as [H1 H2]; [lia|].
  split; [exact H1 | apply H2; lia].
Defined.

End BehaviorMore.

Section SimilarityMore.
Import JsString JsNumber GitHub Scoring Behavior LevenshteinSpec.

Local Open Scope nat_scope.

Lemma ratio_range n m : n <= m -> 0 < m -> (0 <= ratio n m <= 1)%Q.
Proof.
  intros Hn Hm. unfold ratio, ofNat.
  assert (H0 : (0 <= inject_Z (Z.of_nat n))%Q).
  { change 0%Q with (inject_Z 0). rewrite <- Zle_Qle. lia. }
  assert (H1 : (inject_Z (Z.of_nat n) <= inject_Z (Z.of_nat m))%Q).
  { rewrite <- Zle_Qle. lia. }
  assert (H2 : (0 < inject_Z (Z.of_nat m))%Q).
  { change 0%Q with (inject_Z 0). rewrite <- Zlt_Qlt. lia. }
  split.
  - apply Qle_shift_div_l; [assumption|]. lra.
  - apply Qle_shift_div_r; [assumption|]. lra.
Qed.

Lemma ratio_zero n m : 0 < m -> (ratio n m == 0)%Q -> n = 0.
Proof.
  intros Hm H. unfold ratio, ofNat in H.
  assert (H2 : (0 < inject_Z (Z.of_nat m))%Q).
  { change 0%Q with (inject_Z 0). rewrite <- Zlt_Qlt. lia. }
  assert (H3 : (inject_Z (Z.of_nat n) == 0)%Q).
  { rewrite <- (Qmult_div_r (inject_Z (Z.of_nat n)) (inject_Z (Z.of_nat m)))
      by lra.
    rewrite H. lra. }
  change 0%Q with (inject_Z 0) in H3.
  apply (proj1 (inject_Z_injective _ _)) in H3. lia.
Qed.

Lemma distance_le_max a b : forall i j, distance a b i j <= Nat.max i j.
Proof.
  induction i as [|i IHi]; intros j.
  - simpl. lia.
  - induction j as [|j IHj].
    + simpl. lia.
    + change (distance a b (S i) (S j))
        with (min3 (distance a b i (S j) + 1) (distance a b (S i) j + 1)
                   (distance a b i j + cost (charAt a i) (charAt b j))).
      specialize (IHi j). unfold min3, cost.
      destruct (Ascii.eqb (charAt a i) (charAt b j)); lia.
Qed.

Lemma distance_zero a b : forall i j,
  distance a b i j = 0 ->
  i = j /\ forall k, k < i -> charAt a k = charAt b k.
Proof.
  induction i as [|i IHi]; intros j.
  - simpl. intros ->. split; [reflexivity | intros k Hk; lia].
  - induction j as [|j IHj].
    + simpl. discriminate.
    + change (distance a b (S i) (S j))
        with (min3 (distance a b i (S j) + 1) (distance a b (S i) j + 1)
                   (distance a b i j + cost (charAt a i) (charAt b j))).
      unfold min3, cost. intros H.
      destruct (Ascii.eqb_spec (charAt a i) (charAt b j)) as [E|E]; [|lia].
      assert (H0 : distance a b i j = 0) by lia.
      destruct (IHi j H0) as [-> Hk]. split; [reflexivity|].
      intros k Hlt. destruct (Nat.eq_dec k j) as [->|Hne]; [assumption|].
      apply Hk. lia.
Qed.

Lemma charAt_ext : forall a b,
  length a = length b ->
  (forall k, k < length a -> charAt a k = charAt b k) -> a = b.
Proof.
  induction a as [|x a IH]; intros [|y b] Hl Hk; simpl in Hl;
    try discriminate; [reflexivity|].
  f_equal.
  - apply (Hk 0). simpl. lia.
  - apply IH; [lia|]. intros k Hlt. apply (Hk (S k)). simpl. lia.
Qed.

Lemma common_le (A B : list string) :
  List.length (filter (JsSet.has B) A) <= List.length A.
Proof. apply filter_length_le. Qed.

Lemma jaccardSimilarity_range a b : (0 <= jaccardSimilarity a b <= 1)%Q.
Proof.
  unfold jaccardSimilarity.
  set (A := JsSet.ofList (RegExp.split (RegExp.plus RegExp.space) a)).
  set (B := JsSet.ofList (RegExp.split (RegExp.plus RegExp.space) b)).
  rewrite !count_common. cbv zeta. rewrite !Nat.add_0_l.
  pose proof (common_le A B) as HA.
  pose proof (common_le B A) as HB.
  rewrite <- (common_sym A B) in HB by apply ofList_NoDup.
  destruct (Nat.eqb_spec
              (List.length A + List.length B
               - List.length (filter (JsSet.has B) A)) 0) as [E|E].
  - lra.
  - apply ratio_range; lia.
Qed.

(** X9: [levenshteinSimilarity] lies between 0 and 1 on all strings,
    on both sides of the 500 code unit limit. *)
Theorem levenshteinSimilarity_range :
  forall a b : string, (0 <= levenshteinSimilarity a b <= 1)%Q.
Proof.
  intros a b. unfold levenshteinSimilarity.
  destruct (String.eqb a b); [lra|].
  destruct (Nat.eqb_spec (length a) 0) as [|Ha]; [simpl; lra|].
  destruct (Nat.eqb_spec (length b) 0) as [|Hb]; [simpl; lra|].
  cbn [orb].
  destruct ((500 <? length a) || (500 <? length b)).
  - apply jaccardSimilarity_range.
  - cbv zeta. rewrite matrix_entry by lia.
    pose proof (distance_le_max a b (length a) (length b)) as H.
    pose proof (ratio_range _ _ H ltac:(lia)) as [H0 H1]. lra.
Qed.

(** X10: on strings of at most 500 code units,
    [levenshteinSimilarity] is 1 for equal strings only. *)
Theorem levenshteinSimilarity_one_iff_equal :
  forall a b : string,
    length a <= 500 -> length b <= 500 ->
    ((levenshteinSimilarity a b == 1)%Q <-> a = b).
Proof.
  intros a b La Lb. unfold levenshteinSimilarity.
  destruct (String.eqb_spec a b) as [E|E]; [split; [auto | reflexivity]|].
  split; [|intros; contradiction].
  destruct (Nat.eqb_spec (length a) 0) as [|Ha];
    [simpl; intros H; exfalso; lra|].
  destruct (Nat.eqb_spec (length b) 0) as [|Hb];
    [simpl; intros H; exfalso; lra|].
  cbn [orb].
  destruct (Nat.ltb_spec 500 (length a)); [lia|].
  destruct (Nat.ltb_spec 500 (length b)); [lia|].
  cbn [orb]. cbv zeta. rewrite matrix_entry by lia. intros Hone.
  assert (Hzero : (ratio (distance a b (length a) (length b))
                         (Nat.max (length a) (length b)) == 0)%Q) by lra.
  apply ratio_zero in Hzero; [|lia].
  apply distance_zero in Hzero. destruct Hzero as [Hl Hk].
  apply charAt_ext; assumption.
Qed.

Lemma levenshteinSimilarity_one_iff_equal_witness :
  (levenshteinSimilarity "Fix typo" "Fix typos" == 1)%Q
  <-> "Fix typo" = "Fix typos".
Proof.
  apply (levenshteinSimilarity_one_iff_equal "Fix typo" "Fix typos");
    simpl; lia.
Defined.

End SimilarityMore.

Section ContentMore.
Import JsString JsSet JsNumber GitHub Scoring RegExp Content Patterns.
Import ContentSpec.

Local Open Scope nat_scope.

Lemma fold_left_skip {A B : Type} (g : A -> B -> A) before x after init :
  (forall acc, g acc x = acc) ->
  fold_left g (before ++ x :: after) init = fold_left g (before ++ after) init.
Proof.
  intros H. rewrite !fold_left_app. simpl. rewrite H. reflexivity.
Qed.

Lemma patchText_none f :
  patch f = None \/ patch f = Some EmptyString -> patchText f = None.
Proof. unfold patchText. intros [-> | ->]; reflexivity. Qed.

(** X11: a file without patch (none, or the empty one: a binary or
    too large file) changes the result of none of the five checks that
    read the patches, wherever it stands in the list. *)
Theorem file_without_patch_ignored :
  forall (before after : list PRFile) (f : PRFile) (pr : PullRequestData)
         (projectDeps : list string),
    patch f = None \/ patch f = Some EmptyString ->
    placeholderCheck (before ++ f :: after) = placeholderCheck (before ++ after)
    /\ hallucinatedImportCheck (before ++ f :: after) projectDeps
       = hallucinatedImportCheck (before ++ after) projectDeps
    /\ docstringInflationCheck (before ++ f :: after)
       = docstringInflationCheck (before ++ after)
    /\ copyPasteCheck (before ++ f :: after) = copyPasteCheck (before ++ after)
    /\ formattingOnlyCheck pr (before ++ f :: after)
       = formattingOnlyCheck pr (before ++ after).
Proof.
  intros before after f pr projectDeps H. apply patchText_none in H.
  repeat split.
  - unfold placeholderCheck. rewrite fold_left_skip; [reflexivity|].
    intros acc. unfold scanFile. rewrite H. reflexivity.
  - unfold hallucinatedImportCheck, importStats.
    rewrite fold_left_skip; [reflexivity|].
    intros acc. unfold scanImports. rewrite H. reflexivity.
  - unfold docstringInflationCheck. rewrite fold_left_skip; [reflexivity|].
    intros acc. unfold classifyFile. rewrite H. reflexivity.
  - unfold copyPasteCheck, findDuplicates, codeBlocksOf.
    rewrite !flat_map_app. simpl. rewrite H. reflexivity.
  - unfold formattingOnlyCheck. rewrite fold_left_skip; [reflexivity|].
    intros acc. unfold walkFile. rewrite H. reflexivity.
Qed.

Lemma file_without_patch_ignored_witness :
  copyPasteCheck ([] ++ MoreExamples.logo :: Examples.twoCopies)
  = copyPasteCheck ([] ++ Examples.twoCopies).
Proof.
  apply (file_without_patch_ignored [] Examples.twoCopies MoreExamples.logo
           Examples.typoPR []).
  left. reflexivity.
Defined.

(** ** Declared dependencies *)

Lemma fold_left_related {A B : Type} (R : A -> A -> Prop)
      (g g' : A -> B -> A) :
  (forall acc acc' x, R acc acc' -> R (g acc x) (g' acc' x)) ->
  forall l acc acc', R acc acc' -> R (fold_left g l acc) (fold_left g' l acc').
Proof.
  intros H. induction l as [|x l IH]; intros acc acc' HR; simpl.
  - assumption.
  - apply IH, H, HR.
Qed.

Lemma countImport_fewer deps deps' fname acc acc' m :
  incl deps deps' ->
  fewerSuspicious acc acc' ->
  fewerSuspicious (countImport deps fname acc m)
                  (countImport deps' fname acc' m).
Proof.
  intros Hincl [Ht Hs]. unfold countImport.
  destruct (capture 1 (caps (snd m))) as [moduleName|]; [|split; assumption].
  destruct (has builtins (baseModuleOf moduleName)); simpl.
  - split; simpl; [congruence | assumption].
  - destruct (has deps (baseModuleOf moduleName)) eqn:E.
    + apply has_In, Hincl, has_In in E. rewrite E. simpl.
      split; simpl; [congruence | assumption].
    + destruct (has deps' (baseModuleOf moduleName)); simpl;
        (split; simpl; [congruence | rewrite ?length_app; simpl; lia]).
Qed.

Lemma importStats_fewer files deps deps' :
  incl deps deps' ->
  fewerSuspicious (importStats files deps) (importStats files deps').
Proof.
  intros Hincl. unfold importStats.
  apply fold_left_related; [|split; simpl; [reflexivity | lia]].
  intros acc acc' file HR. unfold scanImports.
  destruct (patchText file) as [patch|]; [|assumption].
  apply fold_left_related; [|assumption].
  intros a a' pattern Ha. apply fold_left_related; [|assumption].
  intros b b' m Hb. apply countImport_fewer; assumption.
Qed.

Lemma ratio_monotone n n' m :
  n <= n' -> 0 < m -> (ratio n m <= ratio n' m)%Q.
Proof.
  intros Hn Hm. unfold ratio, ofNat.
  assert (H1 : (inject_Z (Z.of_nat n) <= inject_Z (Z.of_nat n'))%Q).
  { rewrite <- Zle_Qle. lia. }
  assert (H2 : (0 < inject_Z (Z.of_nat m))%Q).
  { change 0%Q with (inject_Z 0). rewrite <- Zlt_Qlt. lia. }
  apply Qle_shift_div_l; [assumption|].
  unfold Qdiv. rewrite <- Qmult_assoc, (Qmult_comm (/ _)), Qmult_inv_r by lra.
  lra.
Qed.

(** X12: declaring more dependencies never raises the score of
    [hallucinatedImportCheck], and leaves the number of imports it
    counts as it is. *)
Theorem declared_dependencies_lower_score :
  forall (files : list PRFile) (projectDeps moreDeps : list string),
    incl projectDeps moreDeps ->
    fst (importStats files moreDeps) = fst (importStats files projectDeps)
    /\ (score (hallucinatedImportCheck files moreDeps)
        <= score (hallucinatedImportCheck files projectDeps))%Q.
Proof.
  intros files deps deps' Hincl.
  destruct (importStats_fewer files deps deps' Hincl) as [Ht Hs].
  split; [assumption|].
  unfold hallucinatedImportCheck.
  destruct (importStats files deps) as [t l].
  destruct (importStats files deps') as [t' l'].
  simpl in Ht, Hs. subst t'.
  destruct (Nat.eqb_spec t 0) as [|Hpos]; [apply Qle_refl|].
  cbv zeta.
  pose proof (ratio_monotone _ _ t Hs ltac:(lia)) as Hr.
  revert Hr Hs. generalize (List.length l') as s'.
  generalize (List.length l) as s. intros s s' Hr Hs.
  destruct (Nat.eqb_spec s' 0) as [E0'|E0'];
    [rewrite result_score;
     destruct (s =? 0); [apply Qle_refl|];
     destruct ((s =? 1) && ltb (ratio s t) (2 # 10));
       [|destruct (ltb (ratio s t) (3 # 10))];
     rewrite result_score; apply inject_Z_le_iff; lia|].
  destruct (Nat.eqb_spec s 0) as [E0|E0]; [lia|].
  destruct (Nat.eqb_spec s' 1) as [E1'|E1'];
    destruct (Nat.eqb_spec s 1) as [E1|E1]; try lia; try subst s; try subst s';
    cbn [andb];
    repeat match goal with
           | |- context [ltb ?x ?y] =>
               let E := fresh "E" in destruct (ltb x y) eqn:E
           end;
    rewrite ?result_score; try (apply inject_Z_le_iff; lia);
    try apply Qle_refl; exfalso;
    repeat match goal with
           | E : ltb _ _ = true |- _ => apply ltb_true in E
           | E : ltb _ _ = false |- _ => apply ltb_false in E
           end; lra.
Qed.

Lemma declared_dependencies_lower_score_witness :
  (score (hallucinatedImportCheck Examples.mixedImports ["lodash"])
   <= score (hallucinatedImportCheck Examples.mixedImports []))%Q.
Proof.
  apply (declared_dependencies_lower_score Examples.mixedImports []
           ["lodash"]).
  intros d []. 
Defined.

End ContentMore.

Section CopyPasteMore.
Import JsString JsSet JsNumber GitHub Scoring RegExp Content.
Import ContentSpec.

Local Open Scope nat_scope.

Lemma flush_lineCount fname cur :
  Forall (fun b => 4 <= lineCount b) (flush fname cur).
Proof.
  unfold flush. destruct (Nat.leb_spec 4 (List.length cur)).
  - constructor; [simpl; assumption | constructor].
  - constructor.
Qed.

Lemma collectBlocks_lineCount fname : forall ls cur,
  Forall (fun b => 4 <= lineCount b) (collectBlocks fname ls cur).
Proof.
  induction ls as [|line rest IH]; intros cur; simpl.
  - apply flush_lineCount.
  - destruct (isAdded line).
    + destruct (0 <? length (trim (substring1 line))); apply IH.
    + apply Forall_app. split; [apply flush_lineCount | apply IH].
Qed.

Lemma codeBlocksOf_lineCount files :
  Forall (fun b => 4 <= lineCount b) (codeBlocksOf files).
Proof.
  unfold codeBlocksOf. induction files as [|f files IH]; simpl.
  - constructor.
  - apply Forall_app. split; [|assumption].
    destruct (patchText f); [apply collectBlocks_lineCount | constructor].
Qed.

Lemma compareBlocks_consistent a acc b :
  4 <= lineCount a -> 4 <= lineCount b -> consistent acc ->
  consistent (compareBlocks a acc b)
  /\ duplicateCount (compareBlocks a acc b) <= S (duplicateCount acc).
Proof.
  intros Ha Hb [H1 H2]. unfold compareBlocks.
  destruct (ltb _ _); [split; [split; assumption | lia]|].
  destruct (_ && _); [|split; [split; assumption | lia]].
  split; [split|]; simpl.
  - lia.
  - rewrite length_app. simpl. lia.
  - lia.
Qed.

Lemma compareAll_consistent a : forall rest acc,
  4 <= lineCount a -> Forall (fun b => 4 <= lineCount b) rest ->
  consistent acc ->
  consistent (fold_left (compareBlocks a) rest acc)
  /\ duplicateCount (fold_left (compareBlocks a) rest acc)
     <= duplicateCount acc + List.length rest.
Proof.
  induction rest as [|b rest IH]; intros acc Ha Hrest Hacc; simpl.
  - split; [assumption | lia].
  - inversion Hrest as [|? ? Hb Hrest']; subst.
    destruct (compareBlocks_consistent a acc b Ha Hb Hacc) as [Hc Hn].
    destruct (IH _ Ha Hrest' Hc) as [Hc' Hn']. split; [assumption | lia].
Qed.

Lemma comparePairs_consistent : forall codeBlocks acc,
  Forall (fun b => 4 <= lineCount b) codeBlocks ->
  consistent acc ->
  consistent (comparePairs codeBlocks acc)
  /\ 2 * duplicateCount (comparePairs codeBlocks acc)
     <= 2 * duplicateCount acc
        + List.length codeBlocks * (List.length codeBlocks - 1).
Proof.
  induction codeBlocks as [|a rest IH]; intros acc Hall Hacc; simpl.
  - split; [assumption | lia].
  - inversion Hall as [|? ? Ha Hrest]; subst.
    destruct (compareAll_consistent a rest acc Ha Hrest Hacc) as [Hc Hn].
    destruct (IH _ Hrest Hc) as [Hc' Hn']. split; [assumption|].
    rewrite Nat.sub_0_r. nia.
Qed.

(** X13: every code block [copyPasteCheck] compares has four lines
    or more; over [n] blocks it counts at most [n (n - 1) / 2]
    duplicates, at least four duplicated lines for each, and one pair
    of file names for each; with fewer than two blocks the score is
    0. *)
Theorem findDuplicates_consistent :
  forall files : list PRFile,
    let n := List.length (codeBlocksOf files) in
    let d := findDuplicates files in
    Forall (fun b => 4 <= lineCount b) (codeBlocksOf files)
    /\ 2 * duplicateCount d <= n * (n - 1)
    /\ 4 * duplicateCount d <= duplicatedLines d
    /\ List.length (duplicatePairs d) = duplicateCount d
    /\ (n <= 1 -> score (copyPasteCheck files) = 0%Q).
Proof.
  intros files n d.
  pose proof (codeBlocksOf_lineCount files) as Hall.
  destruct (comparePairs_consistent (codeBlocksOf files) (mkDuplicates 0 0 [])
              Hall) as [[H1 H2] H3].
  { split; simpl; [lia | reflexivity]. }
  fold (findDuplicates files) in H1, H2, H3. fold d in H1, H2, H3.
  fold n in H3. simpl in H3.
  split; [assumption|]. split; [lia|]. split; [assumption|].
  split; [assumption|].
  intros Hn. unfold copyPasteCheck. fold d.
  assert (H0 : duplicateCount d = 0) by nia.
  rewrite H0. reflexivity.
Qed.

Lemma findDuplicates_consistent_witness :
  score (copyPasteCheck
           [Examples.patchFile "src/a.ts" Examples.repeatedLines]) = 0%Q.
Proof.
  pose proof (findDuplicates_consistent
                [Examples.patchFile "src/a.ts" Examples.repeatedLines]) as H.
  cbv zeta in H. destruct H as (_ & _ & _ & _ & H).
  apply H. vm_compute. lia.
Defined.

End CopyPasteMore.

Section ParsersMore.
Import JsString JsSet JsNumber GitHub Scoring RegExp Content.
Import ContentSpec.

Local Open Scope nat_scope.

Lemma forEach_depsAdd : forall l deps,
  forEach l depsAdd deps = (Normal tt, fold_left add l deps).
Proof.
  induction l as [|x l IH]; intros deps; simpl.
  - reflexivity.
  - unfold bind, depsAdd at 1. apply IH.
Qed.

Lemma add_In s x d : In d (add s x) <-> In d s \/ d = x.
Proof.
  unfold add. destruct (has s x) eqn:E.
  - apply has_In in E. split; [auto|]. intros [H| ->]; assumption.
  - rewrite in_app_iff. simpl. split; intros [H|H]; auto.
    + destruct H as [H|[]]; auto.
Qed.

Lemma fold_add_In d : forall l s,
  In d (fold_left add l s) <-> In d s \/ In d l.
Proof.
  induction l as [|x l IH]; intros s; simpl.
  - tauto.
  - rewrite IH, add_In. intuition congruence.
Qed.

Lemma fold_add_NoDup : forall l s, NoDup s -> NoDup (fold_left add l s).
Proof.
  induction l as [|x l IH]; intros s H; simpl.
  - assumption.
  - apply IH, add_NoDup, H.
Qed.

Lemma addKeysOf_group fields key deps :
  addKeysOf (lookup fields key) deps
  = (Normal tt, fold_left add (group fields key) deps).
Proof.
  unfold addKeysOf, group. destruct (lookup fields key) as [v|];
    [|reflexivity].
  destruct (truthy (Some v)); [apply forEach_depsAdd | reflexivity].
Qed.

(** X14: on a text that [JSON.parse] reads as an object,
    [parseDepsFromPackageJson] returns the set of the keys of the
    truthy values under [dependencies], [devDependencies] and
    [peerDependencies], in this order and each once. *)
Theorem parseDepsFromPackageJson_declared :
  forall (JSON_parse : string -> option json) (content : string)
         (fields : list (string * json)),
    JSON_parse content = Some (JObject fields) ->
    parseDepsFromPackageJson JSON_parse content
    = Normal (ofList (declared fields))
    /\ NoDup (ofList (declared fields))
    /\ (forall d, In d (ofList (declared fields)) <->
                  In d (group fields "dependencies")
                  \/ In d (group fields "devDependencies")
                  \/ In d (group fields "peerDependencies")).
Proof.
  intros JSON_parse content fields H. split; [|split].
  - unfold parseDepsFromPackageJson, returnDeps, tryCatch, parseJson.
    rewrite H. unfold bind at 1. unfold ret at 1.
    unfold getProp. unfold bind, ret.
    rewrite !addKeysOf_group. simpl.
    unfold ofList, declared. rewrite !fold_left_app. reflexivity.
  - apply ofList_NoDup.
  - intros d. unfold ofList. rewrite fold_add_In. unfold declared.
    rewrite !in_app_iff. simpl. tauto.
Qed.

Lemma parseDepsFromPackageJson_declared_witness :
  parseDepsFromPackageJson MoreExamples.parseManifest "manifest"
  = Normal ["react"; "jest"].
Proof.
  apply (parseDepsFromPackageJson_declared MoreExamples.parseManifest
           "manifest" MoreExamples.manifest).
  reflexivity.
Defined.

Lemma lowerChar_idempotent c : lowerChar (lowerChar c) = lowerChar c.
Proof.
  destruct c as [[] [] [] [] [] [] [] []]; vm_compute; reflexivity.
Qed.

Lemma toLowerCase_idempotent s : toLowerCase (toLowerCase s) = toLowerCase s.
Proof.
  induction s as [|c s IH]; simpl.
  - reflexivity.
  - rewrite lowerChar_idempotent, IH. reflexivity.
Qed.

Lemma requirementLine_names (P : string -> Prop) line deps :
  (forall s, toLowerCase s <> EmptyString -> P (toLowerCase s)) ->
  AllNames P deps -> AllNames P (snd (requirementLine line deps)).
Proof.
  intros HP H. unfold requirementLine.
  destruct (_ && _); [|exact H].
  destruct (RegExp.split versionSeparator (trim line)) as [|first rest];
    [exact H|].
  destruct (String.eqb_spec (toLowerCase first) EmptyString) as [E|E];
    simpl; [exact H|].
  intros d Hd. apply add_In in Hd. destruct Hd as [Hd| ->]; [apply H, Hd|].
  apply HP, E.
Qed.

Lemma forEach_names (P : string -> Prop) :
  (forall s, toLowerCase s <> EmptyString -> P (toLowerCase s)) ->
  forall ls deps,
    AllNames P deps ->
    AllNames P (snd (forEach ls requirementLine deps)).
Proof.
  intros HP. induction ls as [|line ls IH]; intros deps H; simpl.
  - exact H.
  - unfold bind.
    pose proof (requirementLine_names P line deps HP H) as H1.
    destruct (requirementLine line deps) as [[[]|] deps1]; simpl in H1.
    + apply IH, H1.
    + exact H1.
Qed.

(** X15: every name [parseDepsFromRequirements] returns is non-empty
    and in lower case. *)
Theorem parseDepsFromRequirements_names :
  forall (content : string) (deps : list string),
    parseDepsFromRequirements content = Normal deps ->
    forall d, In d deps -> d <> EmptyString /\ toLowerCase d = d.
Proof.
  intros content deps H.
  unfold parseDepsFromRequirements, returnDeps in H.
  pose proof (forEach_names
                (fun d => d <> EmptyString /\ toLowerCase d = d)
                (fun s Hs => conj Hs (toLowerCase_idempotent s))
                (lines content) []) as Hall.
  destruct (forEach (lines content) requirementLine []) as [[u|] found];
    [|discriminate].
  injection H as <-. apply Hall. intros d [].
Qed.

Lemma parseDepsFromRequirements_names_witness :
  "flask" <> EmptyString /\ toLowerCase "flask" = "flask".
Proof.
  apply (parseDepsFromRequirements_names "Flask>=2.0" ["flask"]).
  - vm_compute. reflexivity.
  - simpl. left. reflexivity.
Defined.

End ParsersMore.

Section PatternsMore.
Import JsString JsSet JsNumber GitHub Scoring RegExp Patterns.

Local Open Scope nat_scope.

Lemma ofNat_le n m : n <= m -> (ofNat n <= ofNat m)%Q.
Proof. intros H. unfold ofNat. rewrite <- Zle_Qle. lia. Qed.

Lemma expected_monotone (t1 t2 : Z) :
  (t1 <= t2)%Z ->
  (Qmin (inject_Z t1 * (1 # 10)) 200 <= Qmin (inject_Z t2 * (1 # 10)) 200)%Q.
Proof.
  intros H. apply Q.min_le_compat_r.
  assert (inject_Z t1 <= inject_Z t2)%Q by (rewrite <- Zle_Qle; assumption).
  lra.
Qed.

Ltac split_bands :=
  repeat match goal with
         | |- context [(?a <=? ?b)%Z] => destruct (Z.leb_spec a b); try lia
         | |- context [(?a <? ?b)%Z] => destruct (Z.ltb_spec a b); try lia
         | |- context [?a <? ?b] => destruct (Nat.ltb_spec a b); try lia
         end.

Ltac band_cases :=
  split_bands; cbn [andb];
  repeat match goal with
         | |- context [ltb ?x ?y] =>
             let E := fresh "E" in destruct (ltb x y) eqn:E
         end;
  rewrite ?result_score;
  try reflexivity; try (apply inject_Z_le_iff; lia);
  exfalso;
  repeat match goal with
         | E : ltb _ _ = true |- _ => apply ltb_true in E
         | E : ltb _ _ = false |- _ => apply ltb_false in E
         end; lra.

(** X16: [oversizedDiffCheck] is monotone: more changed lines with no
    longer a description never lower the score; and a description of
    200 characters or more scores 0 whatever the size. *)
Theorem oversizedDiffCheck_monotone :
  (forall pr1 pr2 : PullRequestData,
      (additions pr1 + deletions pr1 <= additions pr2 + deletions pr2)%Z ->
      length (trim (orEmpty (body pr2)))
      <= length (trim (orEmpty (body pr1))) ->
      (score (oversizedDiffCheck pr1) <= score (oversizedDiffCheck pr2))%Q)
  /\ (forall pr : PullRequestData,
        200 <= length (trim (orEmpty (body pr))) ->
        score (oversizedDiffCheck pr) = 0%Q).
Proof.
  split.
  - intros pr1 pr2 Ht Hd. unfold oversizedDiffCheck. cbv zeta.
    pose proof (expected_monotone _ _ Ht) as He.
    pose proof (ofNat_le _ _ Hd) as Hq.
    revert He Hq.
    generalize (Qmin (inject_Z (additions pr1 + deletions pr1) * (1 # 10)) 200).
    generalize (Qmin (inject_Z (additions pr2 + deletions pr2) * (1 # 10)) 200).
    revert Ht Hd.
    generalize (additions pr1 + deletions pr1)%Z as t1.
    generalize (additions pr2 + deletions pr2)%Z as t2.
    generalize (length (trim (orEmpty (body pr1)))) as d1.
    generalize (length (trim (orEmpty (body pr2)))) as d2.
    intros d2 d1 t2 t1 Ht Hd e2 e1 He Hq.
    band_cases.
  - intros pr H200. unfold oversizedDiffCheck. cbv zeta.
    pose proof (Q.le_min_r (inject_Z (additions pr + deletions pr) * (1 # 10))
                           200) as Hm.
    assert (H1 : (200 <= ofNat (length (trim (orEmpty (body pr)))))%Q).
    { change 200%Q with (ofNat 200). apply ofNat_le, H200. }
    revert Hm H1 H200.
    generalize (Qmin (inject_Z (additions pr + deletions pr) * (1 # 10)) 200).
    generalize (additions pr + deletions pr)%Z as t.
    generalize (length (trim (orEmpty (body pr)))) as d.
    intros d t e Hm H1 H200.
    band_cases.
Qed.

Lemma oversizedDiffCheck_monotone_witness :
  (score (oversizedDiffCheck (Examples.titled "Rewrite" "Long enough text" 300 300))
   <= score (oversizedDiffCheck (Examples.titled "Rewrite" "Short" 900 300)))%Q.
Proof.
  apply (proj1 oversizedDiffCheck_monotone
           (Examples.titled "Rewrite" "Long enough text" 300 300)
           (Examples.titled "Rewrite" "Short" 900 300)).
  - simpl. lia.
  - vm_compute. lia.
Defined.

Lemma add_length s x : List.length (add s x) <= S (List.length s).
Proof.
  unfold add. destruct (has s x); [lia|]. rewrite length_app. simpl. lia.
Qed.

Lemma directoriesOf_from (files : list PRFile) : forall dirs,
  List.length (fold_left (fun dirs file => add dirs (topDirOf file)) files dirs)
  <= List.length dirs + List.length files.
Proof.
  induction files as [|f files IH]; intros dirs; simpl.
  - lia.
  - specialize (IH (add dirs (topDirOf f))).
    pose proof (add_length dirs (topDirOf f)). lia.
Qed.

Lemma directoriesOf_same (d : string) (files : list PRFile) : forall dirs,
  Forall (fun f => topDirOf f = d) files ->
  has dirs d = true ->
  fold_left (fun dirs file => add dirs (topDirOf file)) files dirs = dirs.
Proof.
  induction files as [|f files IH]; intros dirs Hall Hd; simpl.
  - reflexivity.
  - inversion Hall as [|? ? Hf Hrest]; subst.
    unfold add at 2. rewrite Hd. apply IH; assumption.
Qed.

(** X17: [unrelatedChangesCheck] scores 0 on at most three files,
    and on any number of files that share their top-level
    directory. *)
Theorem unrelatedChangesCheck_few_places :
  forall files : list PRFile,
    (List.length files <= 3 -> score (unrelatedChangesCheck files) = 0%Q)
    /\ (forall d, Forall (fun f => topDirOf f = d) files ->
                  score (unrelatedChangesCheck files) = 0%Q).
Proof.
  intros files. split.
  - intros H. unfold unrelatedChangesCheck.
    destruct (List.length files <=? 1); [reflexivity|]. cbv zeta.
    pose proof (directoriesOf_from files []) as Hd. simpl in Hd.
    fold (directoriesOf files) in Hd.
    destruct (Nat.leb_spec (List.length (directoriesOf files)) 3);
      [reflexivity | lia].
  - intros d Hall. unfold unrelatedChangesCheck.
    destruct (List.length files <=? 1); [reflexivity|]. cbv zeta.
    assert (Hd : List.length (directoriesOf files) <= 3).
    { unfold directoriesOf. destruct files as [|f files]; [simpl; lia|].
      inversion Hall as [|? ? Hf Hrest]; subst. simpl.
      rewrite (directoriesOf_same (topDirOf f)); [simpl; lia | assumption|].
      simpl. rewrite String.eqb_refl. reflexivity. }
    destruct (Nat.leb_spec (List.length (directoriesOf files)) 3);
      [reflexivity | lia].
Qed.

Lemma unrelatedChangesCheck_few_places_witness :
  score (unrelatedChangesCheck Examples.twoCopies) = 0%Q.
Proof.
  apply (proj1 (unrelatedChangesCheck_few_places Examples.twoCopies)).
  simpl. lia.
Defined.

End PatternsMore.

Section FormattingMore.
Import JsString JsSet JsNumber GitHub Scoring RegExp Patterns PatternsSpec.

Local Open Scope nat_scope.

Lemma countSingle_total line acc :
  fst (countSingle line acc) + snd (countSingle line acc)
  <= fst acc + snd acc + 1.
Proof.
  unfold countSingle. destruct (_ || _); [|lia].
  destruct (formattingOnlyLine line); simpl; lia.
Qed.

Lemma countPair_total line next acc :
  fst (countPair line next acc) + snd (countPair line next acc)
  = fst acc + snd acc + 2.
Proof.
  unfold countPair. destruct (formattingOnlyPair _ _); simpl; lia.
Qed.

Lemma walkLines_total : forall n ls acc,
  List.length ls <= n ->
  fst (walkLines ls acc) + snd (walkLines ls acc)
  <= fst acc + snd acc + List.length ls.
Proof.
  induction n as [|n IH]; intros ls acc Hn.
  - destruct ls; [simpl; lia | simpl in Hn; lia].
  - destruct ls as [|line rest]; [simpl; lia|].
    simpl in Hn. cbn [walkLines].
    destruct (isMetadata line).
    + specialize (IH rest acc ltac:(lia)). simpl. lia.
    + destruct rest as [|next rest'].
      * pose proof (countSingle_total line acc). simpl. lia.
      * destruct (startsWith line "-" && startsWith next "+").
        -- pose proof (countPair_total line next acc).
           specialize (IH rest' (countPair line next acc)
                          ltac:(simpl in Hn; lia)).
           simpl. lia.
        -- pose proof (countSingle_total line acc).
           specialize (IH (next :: rest') (countSingle line acc) ltac:(lia)).
           simpl in *. lia.
Qed.

Lemma walkFiles_total : forall files acc,
  fst (fold_left walkFile files acc) + snd (fold_left walkFile files acc)
  <= fst acc + snd acc + patchLineCount files.
Proof.
  induction files as [|f files IH]; intros acc; simpl.
  - unfold patchLineCount. simpl. lia.
  - specialize (IH (walkFile acc f)). unfold patchLineCount in *. simpl.
    unfold walkFile in *. destruct (patchText f) as [patch|]; [|lia].
    pose proof (walkLines_total _ (JsString.split LF patch) acc (le_n _)).
    lia.
Qed.

(** X18: [formattingOnlyCheck] scores 0 when the patches have fewer
    than five lines in all, and at most 35 when the title holds none
    of the words that claim substantive work. *)
Theorem formattingOnlyCheck_small_or_unclaimed :
  forall (pr : PullRequestData) (files : list PRFile),
    (patchLineCount files < 5 -> score (formattingOnlyCheck pr files) = 0%Q)
    /\ (test substantiveClaim (toLowerCase (title pr)) = false ->
        (score (formattingOnlyCheck pr files) <= 35)%Q).
Proof.
  intros pr files. unfold formattingOnlyCheck.
  pose proof (walkFiles_total files (0, 0)) as Ht.
  destruct (fold_left walkFile files (0, 0)) as [fo su].
  cbn [fst snd Nat.add] in Ht.
  split.
  - intros H.
    destruct (Nat.ltb_spec (fo + su) 5); [reflexivity | exfalso; lia].
  - intros H. cbv zeta. rewrite H.
    destruct (fo + su <? 5);
      [rewrite result_score; apply (inject_Z_le_iff _ 35); lia|].
    repeat match goal with
           | |- context [ltb ?x ?y] => destruct (ltb x y)
           end; rewrite result_score; apply (inject_Z_le_iff _ 35); lia.
Qed.

Lemma formattingOnlyCheck_small_or_unclaimed_witness :
  score (formattingOnlyCheck Examples.typoPR
           [Examples.patchFile "a.ts" ["-let a = 1"; "+let a = 1;"]]) = 0%Q
  /\ (score (formattingOnlyCheck
               (Examples.titled "Tidy quotes" "" 1 1) Examples.twoCopies)
      <= 35)%Q.
Proof.
  split.
  - apply (proj1 (formattingOnlyCheck_small_or_unclaimed Examples.typoPR
             [Examples.patchFile "a.ts" ["-let a = 1"; "+let a = 1;"]])).
    vm_compute. lia.
  - apply (proj2 (formattingOnlyCheck_small_or_unclaimed
             (Examples.titled "Tidy quotes" "" 1 1) Examples.twoCopies)).
    vm_compute. reflexivity.
Defined.

End FormattingMore.

Section ConfigMore.
Import JsString JsNumber Config Scoring Content ConfigFile Zod ConfigSpec.
Import MoreExamples.

Local Open Scope Q_scope.

Lemma DEFAULT_CONFIG_valid : valid DEFAULT_CONFIG.
Proof.
  unfold valid, validWeights, inRange. simpl. repeat split; lra.
Qed.

(** X19: whatever the configuration file holds, [loadConfig] returns
    a configuration with thresholds and weights between 0 and 100,
    provided the schema accepts no other: it returns the defaults, or
    what the schema made of the document [yaml.load] read. *)
Theorem loadConfig_valid :
  forall (yaml_load : string -> completion (option json))
         (ConfigSchema_parse : json -> completion SlopGateConfig),
    (forall raw config,
        ConfigSchema_parse raw = Normal config -> valid config) ->
    forall yamlContent : option string,
      valid (loadConfig yaml_load ConfigSchema_parse yamlContent)
      /\ (loadConfig yaml_load ConfigSchema_parse yamlContent = DEFAULT_CONFIG
          \/ exists content raw,
               yamlContent = Some content
               /\ yaml_load content = Normal (Some raw)
               /\ ConfigSchema_parse raw
                  = Normal (loadConfig yaml_load ConfigSchema_parse
                                       yamlContent)).
Proof.
  intros yaml_load parse Hparse yamlContent.
  assert (H : loadConfig yaml_load parse yamlContent = DEFAULT_CONFIG
              \/ exists content raw,
                   yamlContent = Some content
                   /\ yaml_load content = Normal (Some raw)
                   /\ parse raw
                      = Normal (loadConfig yaml_load parse yamlContent)).
  { unfold loadConfig, parseConfig.
    destruct yamlContent as [content|]; [|left; reflexivity].
    destruct (_ || _); [left; reflexivity|].
    destruct (yaml_load content) as [[raw|]|] eqn:E;
      [|left; reflexivity | left; reflexivity].
    destruct raw; try (left; reflexivity);
      match goal with
      | |- context [parse ?r] =>
          destruct (parse r) eqn:P;
          [right; exists content, r; repeat split; assumption
          | left; reflexivity]
      end. }
  split; [|exact H].
  destruct H as [-> | (content & raw & _ & _ & H)].
  - apply DEFAULT_CONFIG_valid.
  - apply (Hparse raw), H.
Qed.

Lemma percent_inRange d v q :
  percent d v = Normal q -> inRange d -> inRange q.
Proof.
  unfold percent. destruct v as [[| | x | | |]|]; try discriminate.
  - destruct (leb 0 x) eqn:E1; [|discriminate].
    destruct (leb x 100) eqn:E2; [|discriminate].
    simpl. intros [= <-] _. apply leb_true in E1, E2. split; assumption.
  - intros [= <-] H. exact H.
Qed.

Ltac percent_step :=
  match goal with
  | H : andThen (percent ?d ?v) _ = Normal _ |- _ =>
      let q := fresh "q" in
      let E := fresh "E" in
      destruct (percent d v) as [q|] eqn:E; [|discriminate H];
      apply percent_inRange in E; [|unfold inRange; lra];
      cbn [andThen] in H
  end.

Lemma ThresholdsSchema_inRange fields t :
  ThresholdsSchema fields = Normal t ->
  inRange (Config.warn t) /\ inRange (Config.flag t)
  /\ inRange (Config.block t).
Proof.
  unfold ThresholdsSchema. intros H. repeat percent_step.
  injection H as <-. simpl. repeat (split; [assumption|]). assumption.
Qed.

Lemma WeightsSchema_valid fields w :
  WeightsSchema fields = Normal w -> validWeights w.
Proof.
  unfold WeightsSchema. intros H. repeat percent_step.
  injection H as <-. unfold validWeights. simpl.
  repeat (split; [assumption|]). assumption.
Qed.

Lemma ConfigSchema_parse_valid raw config :
  Zod.ConfigSchema_parse raw = Normal config -> valid config.
Proof.
  unfold Zod.ConfigSchema_parse. destruct raw; try discriminate.
  unfold ConfigSchema. intros H.
  destruct (objectOrEmpty ThresholdsSchema (lookup fields "thresholds"))
    as [t|] eqn:Et; [|discriminate]. cbn [andThen] in H.
  destruct (boolean false (lookup fields "auto_close")) as [c|];
    [|discriminate]. cbn [andThen] in H.
  destruct (objectOrEmpty WeightsSchema (lookup fields "weights"))
    as [w|] eqn:Ew; [|discriminate]. cbn [andThen] in H.
  destruct (objectOrEmpty AllowlistSchema (lookup fields "allowlist"))
    as [a|]; [|discriminate]. cbn [andThen] in H.
  injection H as <-. unfold valid. simpl.
  assert (Ht : inRange (Config.warn t) /\ inRange (Config.flag t)
  /\ inRange (Config.block t)).
  { unfold objectOrEmpty in Et.
    destruct (lookup fields "thresholds") as [[]|]; try discriminate;
      eapply ThresholdsSchema_inRange; eassumption. }
  assert (Hw : validWeights w).
  { unfold objectOrEmpty in Ew.
    destruct (lookup fields "weights") as [[]|]; try discriminate;
      eapply WeightsSchema_valid; eassumption. }
  tauto.
Qed.

Lemma loadConfig_valid_witness :
  valid (loadConfig loadThree Zod.ConfigSchema_parse
                    (Some "weights: {velocity: 120}")).
Proof.
  apply (loadConfig_valid loadThree Zod.ConfigSchema_parse
           ConfigSchema_parse_valid (Some "weights: {velocity: 120}")).
Defined.

(** X20: the schema turns the empty object into [DEFAULT_CONFIG],
    accepts only thresholds and weights between 0 and 100, and gives
    every section the document leaves out its defaults. *)
Theorem ConfigSchema_defaults :
  Zod.ConfigSchema_parse (JObject []) = Normal DEFAULT_CONFIG
  /\ (forall raw config,
        Zod.ConfigSchema_parse raw = Normal config -> valid config)
  /\ (forall fields config,
        Zod.ConfigSchema_parse (JObject fields) = Normal config ->
        (lookup fields "thresholds" = None ->
         thresholds config = thresholds DEFAULT_CONFIG)
        /\ (lookup fields "weights" = None ->
            weights config = weights DEFAULT_CONFIG)
        /\ (lookup fields "allowlist" = None ->
            allowlist config = allowlist DEFAULT_CONFIG)
        /\ (lookup fields "auto_close" = None ->
            auto_close config = false)).
Proof.
  split; [reflexivity|]. split; [exact ConfigSchema_parse_valid|].
  intros fields config. unfold Zod.ConfigSchema_parse, ConfigSchema.
  intros H.
  destruct (objectOrEmpty ThresholdsSchema (lookup fields "thresholds"))
    as [t|] eqn:Et; [|discriminate]. cbn [andThen] in H.
  destruct (boolean false (lookup fields "auto_close")) as [c|] eqn:Ec;
    [|discriminate]. cbn [andThen] in H.
  destruct (objectOrEmpty WeightsSchema (lookup fields "weights"))
    as [w|] eqn:Ew; [|discriminate]. cbn [andThen] in H.
  destruct (objectOrEmpty AllowlistSchema (lookup fields "allowlist"))
    as [a|] eqn:Ea; [|discriminate]. cbn [andThen] in H.
  injection H as <-. simpl.
  repeat split; intros E.
  - rewrite E in Et. injection Et as <-. reflexivity.
  - rewrite E in Ew. injection Ew as <-. reflexivity.
  - rewrite E in Ea. injection Ea as <-. reflexivity.
  - rewrite E in Ec. injection Ec as <-. reflexivity.
Qed.

Lemma ConfigSchema_defaults_witness :
  valid {| thresholds := thresholds DEFAULT_CONFIG;
           auto_close := true;
           weights := weights DEFAULT_CONFIG;
           allowlist := allowlist DEFAULT_CONFIG |}.
Proof.
  apply (proj1 (proj2 ConfigSchema_defaults)
           (JObject [("auto_close", JBool true)])).
  reflexivity.
Defined.

End ConfigMore.

Section RespondMore.
Import JsNumber Config Scoring Behavior Content Client Respond RespondSpec.

Local Open Scope nat_scope.

Variable rejects : list OctokitCall -> OctokitCall -> bool.

Ltac answer_requests :=
  repeat match goal with
         | |- context [rejects ?s ?c] =>
             let E := fresh "E" in destruct (rejects s c) eqn:E
         end.

Lemma removeLabel_sends prNumber label sent :
  removeLabel rejects prNumber label sent
  = ((sent ++ [issues_removeLabel prNumber label])%list, Normal tt).
Proof.
  unfold removeLabel, tryCatchApi, request, pure.
  destruct (rejects sent (issues_removeLabel prNumber label)); reflexivity.
Qed.

Lemma removeLabels_send prNumber : forall labels sent,
  forEachApi labels (removeLabel rejects prNumber) sent
  = ((sent ++ map (issues_removeLabel prNumber) labels)%list, Normal tt).
Proof.
  induction labels as [|label labels IH]; intros sent; simpl.
  - unfold pure. rewrite app_nil_r. reflexivity.
  - unfold await. rewrite removeLabel_sends, IH, <- app_assoc. reflexivity.
Qed.

Lemma respond_after_removals prNumber result config :
  respond rejects prNumber result config []
  = await
      (addLabel rejects prNumber (label_name (LABELS (verdict result)))
                (color (LABELS (verdict result)))
                (description (LABELS (verdict result))))
      (fun _ =>
         match verdict result with
         | pass => pure tt
         | Scoring.warn => postWarningComment rejects prNumber result
         | Scoring.flag => postFlagComment rejects prNumber result
         | Scoring.block => postBlockComment rejects prNumber result config
         end)
      (map (issues_removeLabel prNumber) ALL_LABEL_NAMES).
Proof.
  unfold respond. unfold await at 1. rewrite removeLabels_send. reflexivity.
Qed.

Ltac unfold_respond :=
  rewrite respond_after_removals;
  unfold postWarningComment, postFlagComment, postBlockComment,
    addLabel, createComment, requestChanges, closePullRequest,
    tryCatchApi, await, pure, request, ALL_LABEL_NAMES;
  cbn [map LABELS label_name app].

(** X21: whatever GitHub answers, the label requests [respond] sends
    are these: it removes the four SlopGate labels, in the order of
    the verdicts, and then adds the label of the verdict. *)
Theorem respond_label_changes :
  forall (prNumber : Z) (result : ScoringResult) (config : SlopGateConfig),
    filter labelChange (fst (respond rejects prNumber result config []))
    = (map (issues_removeLabel prNumber) ALL_LABEL_NAMES
       ++ [issues_addLabels prNumber
             [label_name (LABELS (verdict result))]])%list.
Proof.
  intros prNumber result config. unfold_respond.
  destruct (verdict result); destruct (auto_close config);
    answer_requests; reflexivity.
Qed.

(** [respond] asks for the pull request to be closed in one case
    only. *)
Lemma respond_close_blocked prNumber result config :
  filter closes (fst (respond rejects prNumber result config [])) <> [] ->
  verdict result = Scoring.block /\ auto_close config = true.
Proof.
  unfold_respond.
  destruct (verdict result); destruct (auto_close config);
    answer_requests; cbn [fst snd app]; intros H;
    first [ split; reflexivity | exfalso; apply H; reflexivity ].
Qed.

(** X22: [respond] asks for the pull request to be closed only when
    the verdict is block and [auto_close] is set, and then as its last
    request, right after the comment that announces the closing, which
    GitHub accepted. *)
Theorem respond_closes_only_blocked :
  forall (prNumber : Z) (result : ScoringResult) (config : SlopGateConfig),
    let sent := fst (respond rejects prNumber result config []) in
    let note :=
      issues_createComment prNumber
        (BlockComment (finalScore result) true
                      (scored (weightedChecks result))) in
    filter closes sent = []
    \/ (verdict result = Scoring.block /\ auto_close config = true
        /\ exists before,
             sent = (before ++ [note; pulls_update prNumber "closed"])%list
             /\ filter closes before = []
             /\ rejects before note = false).
Proof.
  intros prNumber result config. cbv zeta. unfold_respond.
  destruct (verdict result); destruct (auto_close config);
    answer_requests; cbn [fst snd app];
    try (left; reflexivity);
    right; (split; [reflexivity|]); (split; [reflexivity|]);
    match goal with
    | |- exists before, ?l = _ /\ _ =>
        exists (removelast (removelast l))
    end;
    (split; [reflexivity | split; [reflexivity | assumption]]).
Qed.

End RespondMore.

Section ClientMore.
Import JsNumber Config Scoring Behavior Content Client.

Local Open Scope nat_scope.

(** X23: [getContributorAbandonmentRate] counts the abandoned pull
    requests of one page of at most 100 search results but divides by
    the total count; so for an author with 334 closed pull requests or
    more the rate is at most 30 and [abandonmentCheck] scores 0, even
    if none of them was merged. *)
Theorem abandonment_rate_of_one_page :
  forall data : SearchResponse,
    List.length (items data) <= 100 ->
    (334 <= total_count data)%Z ->
    (rate (getContributorAbandonmentRate (Some data)) <= 30)%Q
    /\ score (abandonmentCheck (getContributorAbandonmentRate (Some data)))
       = 0%Q.
Proof.
  intros data Hitems Htotal.
  assert (Hrate : (rate (getContributorAbandonmentRate (Some data)) <= 30)%Q).
  { unfold getContributorAbandonmentRate.
    destruct (Z.eqb_spec (total_count data) 0) as [E|E]; [simpl; lra|].
    cbn [rate].
    pose proof (filter_length_le closedUnmerged (items data)) as Hf.
    assert (H1 : (ofNat (List.length (filter closedUnmerged (items data)))
                  <= 100)%Q).
    { unfold ofNat. change 100%Q with (inject_Z 100). rewrite <- Zle_Qle.
      lia. }
    assert (H2 : (334 <= inject_Z (total_count data))%Q).
    { change 334%Q with (inject_Z 334). rewrite <- Zle_Qle. assumption. }
    revert H1 H2.
    generalize (ofNat (List.length (filter closedUnmerged (items data)))).
    generalize (inject_Z (total_count data)). intros t a H1 H2.
    assert (H3 : (a / t <= 100 / 334)%Q).
    { apply Qle_shift_div_r; [lra|].
      assert (H4 : (100 / 334 * t == 100 * t / 334)%Q) by (field).
      rewrite H4. apply Qle_shift_div_l; [lra|]. nra. }
    assert (H5 : (100 / 334 * 100 <= 30)%Q) by (vm_compute; discriminate).
    nra. }
  split; [assumption|].
  unfold abandonmentCheck.
  destruct (total (getContributorAbandonmentRate (Some data)) <? 3)%Z;
    [reflexivity|].
  destruct (leb (rate (getContributorAbandonmentRate (Some data))) 30) eqn:E;
    [reflexivity|].
  apply leb_false in E. lra.
Qed.

Lemma abandonment_rate_of_one_page_witness :
  score (abandonmentCheck
           (getContributorAbandonmentRate (Some RunExamples.longHistory)))
  = 0%Q.
Proof.
  apply (abandonment_rate_of_one_page RunExamples.longHistory).
  - simpl. lia.
  - simpl. lia.
Defined.

End ClientMore.

Section MainMore.
Import JsString JsSet JsNumber Config GitHub Scoring Behavior Content Patterns.
Import Summary ConfigFile Client Respond Main.
Import ScoringSpec ParserSpec ConfigSpec RespondSpec MainSpec.

Local Open Scope nat_scope.

Variable yaml_load : string -> completion (option json).
Variable ConfigSchema_parse : json -> completion SlopGateConfig.
Variable JSON_parse : string -> option json.
Variable rejects : list OctokitCall -> OctokitCall -> bool.

Lemma parseDepsFromPackageJson_found content :
  parseDepsFromPackageJson JSON_parse content
  = Normal (found (parseDepsFromPackageJson JSON_parse content)).
Proof.
  destruct (returnDeps_completes _ (tryCatch_completes
    (pkg <- parseJson JSON_parse content ;;
     d <- getProp pkg "dependencies" ;; addKeysOf d ;;;
     d <- getProp pkg "devDependencies" ;; addKeysOf d ;;;
     d <- getProp pkg "peerDependencies" ;; addKeysOf d))) as [deps E].
  unfold parseDepsFromPackageJson. rewrite E. reflexivity.
Qed.

Lemma parseDepsFromRequirements_found content :
  parseDepsFromRequirements content
  = Normal (found (parseDepsFromRequirements content)).
Proof.
  destruct (returnDeps_completes _
              (forEach_completes _ requirementLine_completes (lines content)))
    as [deps E].
  unfold parseDepsFromRequirements. rewrite E. reflexivity.
Qed.

Lemma loadProjectDeps_set packageJson requirements cargoToml :
  loadProjectDeps JSON_parse packageJson requirements cargoToml
  = Normal (ofList (declaredBy JSON_parse packageJson requirements cargoToml)).
Proof.
  unfold loadProjectDeps, declaredBy, ofList. cbv zeta.
  rewrite !fold_left_app.
  destruct (present packageJson) as [c1|];
    destruct (present requirements) as [c2|];
    destruct (present cargoToml) as [c3|];
    try rewrite (parseDepsFromPackageJson_found c1);
    try rewrite (parseDepsFromRequirements_found c2);
    reflexivity.
Qed.

(** X24: [loadProjectDeps] never throws; it returns the set of the
    names the three parsers find in the files that are there and not
    empty, each name once. *)
Theorem loadProjectDeps_union :
  forall packageJson requirements cargoToml : option string,
    loadProjectDeps JSON_parse packageJson requirements cargoToml
    = Normal (ofList (declaredBy JSON_parse packageJson requirements
                                 cargoToml))
    /\ NoDup (ofList (declaredBy JSON_parse packageJson requirements
                                 cargoToml))
    /\ (forall d,
          In d (ofList (declaredBy JSON_parse packageJson requirements
                                   cargoToml))
          <-> (exists content,
                  present packageJson = Some content
                  /\ In d (found (parseDepsFromPackageJson JSON_parse
                                                           content)))
              \/ (exists content,
                     present requirements = Some content
                     /\ In d (found (parseDepsFromRequirements content)))
              \/ (exists content,
                     present cargoToml = Some content
                     /\ In d (parseDepsFromCargoToml content))).
Proof.
  intros packageJson requirements cargoToml.
  split; [apply loadProjectDeps_set|]. split; [apply ofList_NoDup|].
  intros d. unfold ofList. rewrite fold_add_In. unfold declaredBy.
  rewrite !in_app_iff. simpl.
  destruct (present packageJson) as [c1|];
    destruct (present requirements) as [c2|];
    destruct (present cargoToml) as [c3|]; simpl;
    split;
    try (intros [[]|[H|[H|H]]]);
    try (intros [(c & E & H)|[(c & E & H)|(c & E & H)]]);
    try discriminate; try contradiction;
    try (injection E as <-); eauto 6.
Qed.

End MainMore.

Section RunMore.
Import JsString JsSet JsNumber Config GitHub Scoring Behavior Content Patterns.
Import Summary ConfigFile Client Respond Main.
Import ScoringSpec ParserSpec ConfigSpec RespondSpec MainSpec.

Local Open Scope nat_scope.

Ltac names :=
  repeat match goal with
         | |- name (let '(_, _) := ?p in _) = _ => destruct p
         | |- name (if ?b then _ else _) = _ => destruct b
         | |- name (match ?p with _ => _ end) = _ => destruct p
         end;
  reflexivity.

Lemma runChecks_names f projectDeps :
  map name (runChecks f projectDeps) = map fst CHECK_WEIGHT_MAP.
Proof.
  unfold runChecks. cbn [map CHECK_WEIGHT_MAP fst].
  assert (H1 : forall now prs, name (velocityCheck now prs) = "velocity")
    by (intros; unfold velocityCheck; cbv zeta; names).
  assert (H2 : forall stats, name (abandonmentCheck stats) = "abandonment")
    by (intros; unfold abandonmentCheck; names).
  assert (H3 : forall p prs, name (shotgunCheck p prs) = "shotgun")
    by (intros; unfold shotgunCheck; cbv zeta; names).
  assert (H4 : forall now p prs,
             name (newAccountCheck now p prs) = "new_account")
    by (intros; unfold newAccountCheck; cbv zeta; names).
  assert (H5 : forall files, name (placeholderCheck files) = "placeholder")
    by (intros; unfold placeholderCheck; cbv zeta; names).
  assert (H6 : forall files deps,
             name (hallucinatedImportCheck files deps) = "hallucinated_import")
    by (intros; unfold hallucinatedImportCheck; cbv zeta; names).
  assert (H7 : forall files,
             name (docstringInflationCheck files) = "docstring_inflation")
    by (intros; unfold docstringInflationCheck; cbv zeta; names).
  assert (H8 : forall files, name (copyPasteCheck files) = "copy_paste")
    by (intros; unfold copyPasteCheck; cbv zeta; names).
  assert (H9 : forall p,
             name (genericDescriptionCheck p) = "generic_description")
    by (intros; unfold genericDescriptionCheck; cbv zeta; names).
  assert (H10 : forall p, name (oversizedDiffCheck p) = "oversized_diff")
    by (intros; unfold oversizedDiffCheck; cbv zeta; names).
  assert (H11 : forall files,
             name (unrelatedChangesCheck files) = "unrelated_changes")
    by (intros; unfold unrelatedChangesCheck; cbv zeta; names).
  assert (H12 : forall p files,
             name (formattingOnlyCheck p files) = "formatting_only")
    by (intros; unfold formattingOnlyCheck; cbv zeta; names).
  rewrite H1, H2, H3, H4, H5, H6, H7, H8, H9, H10, H11, H12. reflexivity.
Qed.

(** X25: the twelve checks that [run] submits carry the twelve names
    of [CHECK_WEIGHT_MAP], in its order; so each is weighted by its own
    key of the configuration, never by the fallback weight, and each
    has its display name in [formatCheckName]. *)
Theorem runChecks_weighted_by_name :
  forall (f : Fetched) (projectDeps : list string) (config : SlopGateConfig),
    map name (runChecks f projectDeps) = map fst CHECK_WEIGHT_MAP
    /\ map (fun c => resolveWeight config (name c)) (runChecks f projectDeps)
       = map (fun entry => weightAt (weights config) (snd entry))
             CHECK_WEIGHT_MAP
    /\ map (fun c => formatCheckName (name c)) (runChecks f projectDeps)
       = map snd nameMap.
Proof.
  intros f projectDeps config.
  pose proof (runChecks_names f projectDeps) as H.
  split; [exact H|]. split.
  - rewrite <- (map_map name (resolveWeight config)), H. reflexivity.
  - rewrite <- (map_map name formatCheckName), H. reflexivity.
Qed.

Variable yaml_load : string -> completion (option json).
Variable ConfigSchema_parse : json -> completion SlopGateConfig.
Variable JSON_parse : string -> option json.
Variable rejects : list OctokitCall -> OctokitCall -> bool.

Hypothesis schema_valid :
  forall raw config, ConfigSchema_parse raw = Normal config -> valid config.

Lemma verdict_of_finalScore checks config :
  verdict (calculateScore checks config)
  = getVerdict (finalScore (calculateScore checks config)) config.
Proof. reflexivity. Qed.

Lemma runChecks_bounded f projectDeps :
  Forall bounded (runChecks f projectDeps).
Proof.
  unfold runChecks.
  repeat (constructor;
          [ first [ apply velocityCheck_bounded | apply abandonmentCheck_bounded
                  | apply shotgunCheck_bounded | apply newAccountCheck_bounded
                  | apply placeholderCheck_bounded
                  | apply hallucinatedImportCheck_bounded
                  | apply docstringInflationCheck_bounded
                  | apply copyPasteCheck_bounded
                  | apply genericDescriptionCheck_bounded
                  | apply oversizedDiffCheck_bounded
                  | apply unrelatedChangesCheck_bounded
                  | apply formattingOnlyCheck_bounded ] |]).
  constructor.
Qed.

(** X26: on a pull request event, with a schema that accepts only
    valid configurations, [run] always sets its outputs, with a score
    between 0 and 100; for an allowlisted author it sets score 0 and
    verdict pass and sends no request; otherwise the verdict is the one
    of the score; and it asks for the pull request to be closed only
    with verdict block and [auto_close] set, and then ends as
    failed. *)
Theorem run_outcome :
  forall (f : Fetched) (prNumber : Z),
    payload_pull_request f = Some prNumber ->
    let r := run yaml_load ConfigSchema_parse JSON_parse rejects f in
    let config := loadConfig yaml_load ConfigSchema_parse (configContent f) in
    exists o,
      outputs r = Some o
      /\ (0 <= out_score o <= 100)%Q
      /\ (out_allowlisted o = true ->
          requests r = [] /\ status r = Succeeded /\ out_summary o = None
          /\ out_score o = 0%Q /\ out_verdict o = pass)
      /\ (out_allowlisted o = false ->
          out_verdict o = getVerdict (out_score o) config)
      /\ (filter closes (requests r) <> [] ->
          out_verdict o = Scoring.block /\ auto_close config = true
          /\ status r = Failed).
Proof.
  intros f prNumber Hpr r config. subst r. unfold run. rewrite Hpr.
  fold config.
  destruct (isAllowlisted config (login (user (pr f)))
                          (String.eqb (user_type f) "Bot")).
  - eexists. split; [reflexivity|]. cbn.
    split; [lra|]. split; [auto|]. split; [discriminate|].
    intros H. contradiction.
  - rewrite loadProjectDeps_set.
    set (deps := ofList (declaredBy JSON_parse (packageJson f)
                                    (requirements f) (cargoToml f))).
    set (result := calculateScore (runChecks f deps) config).
    pose proof (finalScore_range (runChecks f deps) config) as Hrange.
    fold result in Hrange.
    destruct (proj1 (loadConfig_valid yaml_load ConfigSchema_parse
                       schema_valid (configContent f)))
      as (_ & _ & _ & Hw).
    fold config in Hw.
    specialize (Hrange Hw (runChecks_bounded f deps)).
    pose proof (respond_close_blocked rejects prNumber result config)
      as Hclose.
    destruct (respond rejects prNumber result config []) as [sent done].
    cbn [fst] in Hclose.
    exists (mkOutputs (finalScore result) (verdict result) false
                      (Some (summaryOf result))).
    assert (Hout :
      forall st, outputs (mkRun (Some (mkOutputs (finalScore result)
                                          (verdict result) false
                                          (Some (summaryOf result))))
                                st sent)
                 = Some (mkOutputs (finalScore result) (verdict result) false
                                   (Some (summaryOf result))))
      by reflexivity.
    split.
    { destruct done; [|reflexivity].
      destruct (verdict result); try reflexivity.
      destruct (auto_close config); reflexivity. }
    cbn [out_score out_verdict out_allowlisted].
    split; [split; apply Hrange|]. split; [discriminate|].
    split; [intros _; apply verdict_of_finalScore|].
    intros Hsent.
    assert (Hreq : filter closes sent <> []).
    { destruct done; [|exact Hsent].
      destruct (verdict result); try exact Hsent.
      destruct (auto_close config); exact Hsent. }
    destruct (Hclose Hreq) as [Hv Ha].
    split; [assumption|]. split; [assumption|].
    destruct done; [|reflexivity].
    rewrite Hv, Ha. reflexivity.
Qed.

End RunMore.

Lemma run_outcome_witness :
  exists o,
    Main.outputs (Main.run MoreExamples.loadThree Zod.ConfigSchema_parse
                           MoreExamples.parseManifest RunExamples.accepting
                           RunExamples.fetched) = Some o
    /\ (0 <= Main.out_score o <= 100)%Q.
Proof.
  destruct (run_outcome MoreExamples.loadThree Zod.ConfigSchema_parse
              MoreExamples.parseManifest RunExamples.accepting
              ConfigSchema_parse_valid RunExamples.fetched 7 eq_refl)
    as (o & H1 & H2 & _).
  exists o. split; assumption.
Defined.
